(** * HCP interaction agent: intent routing, task handlers and merge policies

    A shallow embedding of the conversational CRM agent
    ([app/utils/llm_utils.py], [app/agents/tools/*.py] and
    [app/agents/hcp_agent.py]) together with the properties its
    specification states about it.

    Modelling conventions.
    - Python [str] values are byte strings holding the UTF-8 encoding of
      the text; all searches of the program use ASCII needles, so byte
      offsets and character offsets cut the same substrings, and
      [str.strip] removes the encodings of the whitespace characters.
    - JSON-like values are the inductive [value]; a Python [dict] with
      string keys is a [gmap string value] (key order is not kept, the few
      builtins that observe it are oracles of the environment).  JSON
      numbers are represented by integers.
    - An exception is [Raise msg] where [msg] is what [str(e)] gives; the
      only exception class the program tells apart, [json.JSONDecodeError],
      is the [None] of [json_loads].
    - The completion provider, the JSON codec, the clock and the
      Unicode-table string methods are fields of the class [Env]; every
      general statement holds for all environments.  Calls to the provider
      are recorded in a log threaded through the monad [Gw].
    - The graph library is modelled by what the compiled graph does: the
      router, the node its conditional edge selects, the formatter; an
      exception that leaves a node leaves [invoke].
    - [print] statements are not modelled.

    Layout: the string methods, the values and the monad, the gateway,
    the five handlers, the agent; then the definitions that restate the
    specification and the data of the examples; then the statements, by
    component. *)

From stdpp Require Import gmap strings list fin_maps pretty.
From Stdlib Require Import QArith.

#[local] Set Warnings "-register-all".
#[local] Open Scope Z_scope.

(* ===================================================================== *)
(** * Python string methods used by the program *)
(* ===================================================================== *)

Module Str.

Definition chr (n : nat) : string := String (Ascii.ascii_of_nat n) EmptyString.

(** The double quote and the line feed, spliced into the templates. *)
Definition q : string := chr 34.
Definition nl : string := chr 10.

(** A text between double quotes. *)
Definition quoted (s : string) : string := q +:+ s +:+ q.

Definition len (s : string) : Z := Z.of_nat (String.length s).

Fixpoint drop (n : nat) (s : string) : string :=
  match n, s with
  | O, _ => s
  | S n', String _ s' => drop n' s'
  | S _, EmptyString => EmptyString
  end.

Fixpoint take (n : nat) (s : string) : string :=
  match n, s with
  | S n', String c s' => String c (take n' s')
  | _, _ => EmptyString
  end.

Fixpoint rev_onto (s acc : string) : string :=
  match s with
  | EmptyString => acc
  | String c s' => rev_onto s' (String c acc)
  end.

Definition rev (s : string) : string := rev_onto s EmptyString.

(** [s.startswith(p)] *)
Fixpoint startswith (p s : string) : bool :=
  match p, s with
  | EmptyString, _ => true
  | String a p', String b s' => if Ascii.eqb a b then startswith p' s' else false
  | String _ _, EmptyString => false
  end.

(** [s.endswith(p)] *)
Definition endswith (p s : string) : bool := startswith (rev p) (rev s).

(** Lowest offset at which [sub] occurs in [s]. *)
Fixpoint index_of (sub s : string) : option nat :=
  if startswith sub s then Some O
  else match s with
       | EmptyString => None
       | String _ s' => S <$> index_of sub s'
       end.

(** Highest offset at which [sub] occurs in [s]. *)
Fixpoint rindex_of (sub s : string) : option nat :=
  match s with
  | EmptyString => if startswith sub EmptyString then Some O else None
  | String _ s' =>
      match rindex_of sub s' with
      | Some i => Some (S i)
      | None => if startswith sub s then Some O else None
      end
  end.

(** [s.find(sub, start)] for [start >= 0]: an offset, or [-1]. *)
Definition find_from (sub s : string) (start : Z) : Z :=
  match index_of sub (drop (Z.to_nat start) s) with
  | Some i => start + Z.of_nat i
  | None => -1
  end.

Definition find (sub s : string) : Z := find_from sub s 0.

(** [s.rfind(sub)] *)
Definition rfind (sub s : string) : Z :=
  match rindex_of sub s with
  | Some i => Z.of_nat i
  | None => -1
  end.

(** [sub in s] *)
Definition contains (sub s : string) : bool :=
  match index_of sub s with Some _ => true | None => false end.

(** Python's normalisation of a slice bound. *)
Definition clamp (n i : Z) : Z :=
  if i <? 0 then Z.max (i + n) 0 else Z.min i n.

(** [s[i:j]] *)
Definition slice (s : string) (i j : Z) : string :=
  let i' := clamp (len s) i in
  let j' := clamp (len s) j in
  take (Z.to_nat (j' - i')) (drop (Z.to_nat i') s).

(** [s.split(sep)] for a non-empty separator: [skip] counts the bytes of
    a matched separator still to be passed over, [cur] is the current
    piece in reverse. *)
Fixpoint split_go (sep s : string) (skip : nat) (cur : string) : list string :=
  match s with
  | EmptyString => [rev cur]
  | String c s' =>
      match skip with
      | S k => split_go sep s' k cur
      | O =>
          if startswith sep s
          then rev cur :: split_go sep s' (String.length sep - 1) EmptyString
          else split_go sep s' O (String c cur)
      end
  end.

Definition split (sep s : string) : list string := split_go sep s O EmptyString.

(** [sep.join(l)] on a list of strings. *)
Fixpoint join (sep : string) (l : list string) : string :=
  match l with
  | [] => EmptyString
  | [x] => x
  | x :: l' => x +:+ sep +:+ join sep l'
  end.

Definition of_bytes (l : list nat) : string :=
  fold_right (fun n s => String (Ascii.ascii_of_nat n) s) EmptyString l.

(** The characters [str.isspace] accepts, each as its UTF-8 encoding:
    U+0009..U+000D, U+001C..U+0020, U+0085, U+00A0, U+1680,
    U+2000..U+200A, U+2028, U+2029, U+202F, U+205F, U+3000. *)
Definition whitespace : list string :=
  (of_bytes <$>
    [ [9]; [10]; [11]; [12]; [13]; [28]; [29]; [30]; [31]; [32];
      [194; 133]; [194; 160]; [225; 154; 128];
      [226; 128; 128]; [226; 128; 129]; [226; 128; 130]; [226; 128; 131];
      [226; 128; 132]; [226; 128; 133]; [226; 128; 134]; [226; 128; 135];
      [226; 128; 136]; [226; 128; 137]; [226; 128; 138];
      [226; 128; 168]; [226; 128; 169]; [226; 128; 175];
      [226; 129; 159]; [227; 128; 128] ])%nat.

Definition strip_prefix (t s : string) : option string :=
  if startswith t s then Some (drop (String.length t) s) else None.

(** Remove one leading token of [ts], the first that matches. *)
Fixpoint strip_one (ts : list string) (s : string) : option string :=
  match ts with
  | [] => None
  | t :: ts' =>
      match strip_prefix t s with
      | Some r => Some r
      | None => strip_one ts' s
      end
  end.

Fixpoint lstrip_go (ts : list string) (fuel : nat) (s : string) : string :=
  match fuel with
  | O => s
  | S fuel' =>
      match strip_one ts s with
      | Some r => lstrip_go ts fuel' r
      | None => s
      end
  end.

(** [s.lstrip()], [s.rstrip()], [s.strip()] *)
Definition lstrip (s : string) : string :=
  lstrip_go whitespace (String.length s) s.

Definition rstrip (s : string) : string :=
  rev (lstrip_go (rev <$> whitespace) (String.length s) (rev s)).

Definition strip (s : string) : string := rstrip (lstrip s).

(** A text made of whitespace characters only. *)
Definition whitespace_only (s : string) : Prop :=
  exists ts : list string, Forall (fun t => t ∈ whitespace) ts /\ s = fold_right String.app EmptyString ts.

End Str.

(* ===================================================================== *)
(** * Values, exceptions and the gateway monad *)
(* ===================================================================== *)

(** What [json.loads] produces and what the dictionaries of the program
    hold. *)
Inductive value : Type :=
  | VNull
  | VBool (b : bool)
  | VNum (n : Z)
  | VStr (s : string)
  | VList (l : list value)
  | VDict (d : gmap string value).

Abbreviation dict := (gmap string value).

(** Python truth value testing: [if v], [not v], [bool(v)]. *)
Definition truthy (v : value) : bool :=
  match v with
  | VNull => false
  | VBool b => b
  | VNum n => negb (n =? 0)
  | VStr s => negb (String.eqb s EmptyString)
  | VList l => match l with [] => false | _ => true end
  | VDict d => negb (Nat.eqb (size d) 0)
  end.

(** [type(v).__name__], as it appears in interpreter messages. *)
Definition type_name (v : value) : string :=
  match v with
  | VNull => "NoneType"
  | VBool _ => "bool"
  | VNum _ => "int"
  | VStr _ => "str"
  | VList _ => "list"
  | VDict _ => "dict"
  end.

(** [d.get(k)] and [d.get(k, dflt)] *)
Definition get (d : dict) (k : string) : value := default VNull (d !! k).
Definition get_or (d : dict) (k : string) (dflt : value) : value := default dflt (d !! k).

(** The outcome of a computation that may raise. *)
Inductive exc (A : Type) : Type :=
  | Ok (a : A)
  | Raise (msg : string).
Arguments Ok {A} a.
Arguments Raise {A} msg.

#[export] Instance exc_ret : MRet exc := fun A a => Ok a.
#[export] Instance exc_bind : MBind exc :=
  fun A B f m => match m with Ok a => f a | Raise e => Raise e end.

(** One call of the chat-completion endpoint. *)
Record request : Type := Request {
  req_prompt : string;
  req_temperature : Q;
  req_max_tokens : N
}.

(** Everything outside the program: the completion provider (a text, or
    the message of the exception the client raised), the JSON codec, the
    clock readings formatted as YYYY-MM-DD, and the builtins that depend on
    Unicode tables or on key order. *)
Class Env : Type := {
  provider : request -> exc string;
  json_loads : string -> option value;
  json_dumps : dict -> string;
  py_repr : value -> string;
  py_chars : string -> list string;
  py_keys : dict -> list string;
  str_lower : string -> string;
  str_title : string -> string;
  today : string;
  next_week : string;
  next_month : string
}.

(** Computations of the program: they may raise and they may call the
    provider; the log lists the requests sent so far, oldest first. *)
Definition Gw (A : Type) : Type := list request -> exc A * list request.

#[export] Instance gw_ret : MRet Gw := fun A a log => (Ok a, log).
#[export] Instance gw_bind : MBind Gw :=
  fun A B f m log =>
    match m log with
    | (Ok a, log') => f a log'
    | (Raise e, log') => (Raise e, log')
    end.

Definition lift {A} (m : exc A) : Gw A := fun log => (m, log).

(** [try: body  except Exception as e: handler(str(e))] *)
Definition try_except {A} (body : Gw A) (handler : string -> Gw A) : Gw A :=
  fun log =>
    match body log with
    | (Ok a, log') => (Ok a, log')
    | (Raise e, log') => handler e log'
    end.

(** [f"{v}"]: a string is spliced as it is, the other values through
    [str]. *)
Definition fmt `{Env} (v : value) : string :=
  match v with
  | VStr s => s
  | VNull => "None"
  | VBool true => "True"
  | VBool false => "False"
  | _ => py_repr v
  end.

(** [iter(v)]: the items a [for] loop or [join] sees. *)
Definition iterate `{Env} (v : value) : exc (list value) :=
  match v with
  | VList l => Ok l
  | VStr s => Ok (VStr <$> py_chars s)
  | VDict d => Ok (VStr <$> py_keys d)
  | _ => Raise ("'" +:+ type_name v +:+ "' object is not iterable")
  end.

Fixpoint all_str (i : nat) (l : list value) : exc (list string) :=
  match l with
  | [] => Ok []
  | VStr s :: l' => ss ← all_str (S i) l'; mret (s :: ss)
  | v :: _ => Raise ("sequence item " +:+ pretty i +:+ ": expected str instance, "
                      +:+ type_name v +:+ " found")
  end.

(** [sep.join(v)] on an arbitrary value. *)
Definition join_value `{Env} (sep : string) (v : value) : exc string :=
  match iterate v with
  | Ok items => ss ← all_str 0 items; mret (Str.join sep ss)
  | Raise _ => Raise "can only join an iterable"
  end.

(** [v[k] = x] on what [json.loads] returned. *)
Definition setitem (v : value) (k : string) (x : value) : exc dict :=
  match v with
  | VDict d => Ok (<[k := x]> d)
  | VList _ => Raise "list indices must be integers or slices, not str"
  | _ => Raise ("'" +:+ type_name v +:+ "' object does not support item assignment")
  end.

(** [if not d.get(k): d[k] = x] *)
Definition default_falsy (k : string) (x : value) (d : dict) : dict :=
  if truthy (get d k) then d else <[k := x]> d.

(** [if k not in d: d[k] = x] *)
Definition default_missing (k : string) (x : value) (d : dict) : dict :=
  match d !! k with Some _ => d | None => <[k := x]> d end.

(* ===================================================================== *)
(** * Completion gateway ([app/utils/llm_utils.py]) *)
(* ===================================================================== *)

Section Gateway.
Context `{Env}.

(** [GroqLLMWrapper.call_llm]: one request to the provider; a failure of
    the client is re-raised with a fixed prefix. *)
Definition call_llm (prompt : string) (temperature : Q) (max_tokens : N) : Gw string :=
  fun log =>
    let r := Request prompt temperature max_tokens in
    match provider r with
    | Ok text => (Ok text, log ++ [r])
    | Raise e => (Raise ("LLM API call failed: " +:+ e), log ++ [r])
    end.

(** The value returned when no structured data is found. *)
Definition parse_failure (response : string) : value :=
  VDict (<["error" := VStr "Failed to parse JSON"]>
         (<["raw_response" := VStr response]> ∅)).

(** The loop over [response.split('```')]: the first piece that, once
    stripped, starts with an opening and ends with a closing brace and
    parses. *)
Fixpoint first_brace_part (parts : list string) : option value :=
  match parts with
  | [] => None
  | part :: rest =>
      let part := Str.strip part in
      if Str.startswith "{" part && Str.endswith "}" part then
        match json_loads part with
        | Some v => Some v
        | None => first_brace_part rest
        end
      else first_brace_part rest
  end.

(** From the first opening brace to the last closing brace. *)
Definition parse_brace_span (response : string) : value :=
  let start := Str.find "{" response in
  let end_ := Str.rfind "}" response + 1 in
  if negb (start =? -1) && (start <? end_) then
    match json_loads (Str.slice response start end_) with
    | Some v => v
    | None => parse_failure response
    end
  else parse_failure response.

(** The pieces between fence markers, then the brace span. *)
Definition parse_fences (response : string) : value :=
  match (if Str.contains "```" response
         then first_brace_part (Str.split "```" response) else None) with
  | Some v => v
  | None => parse_brace_span response
  end.

(** What [extract_json] does with the text of the response. *)
Definition parse_response (response : string) : value :=
  match json_loads response with
  | Some v => v
  | None =>
      if Str.contains "```json" response then
        let start := Str.find "```json" response + 7 in
        let end_ := Str.find_from "```" response start in
        if negb (end_ =? -1) then
          match json_loads (Str.strip (Str.slice response start end_)) with
          | Some v => v
          | None => parse_failure response
          end
        else parse_fences response
      else parse_fences response
  end.

(** [GroqLLMWrapper.extract_json] *)
Definition extract_json (prompt : string) (temperature : Q) : Gw value :=
  response ← call_llm prompt temperature 1024;
  mret (parse_response response).

End Gateway.

(* ===================================================================== *)
(** * Task handlers ([app/agents/tools/]) *)
(* ===================================================================== *)

Definition dict_of (items : list (string * value)) : dict := list_to_map items.

Section Tools.
Context `{Env}.

(** ** Tool 1: [log_interaction] *)

Definition log_prompt (user_message : string) : string :=
  "You are an expert medical sales assistant. Extract structured information from the user's message about their HCP interaction.

User message: " +:+ Str.quoted user_message +:+ "

Today's date is " +:+ today +:+ ".

Extract the following information and return ONLY valid JSON (no markdown, no code blocks, no explanation):

1. hcp_name: The doctor/healthcare professional's name (e.g., "
  +:+ Str.quoted "Dr. Smith" +:+ ", " +:+ Str.quoted "Dr. John Patel" +:+ ")
2. date: The date of meeting in YYYY-MM-DD format. If not specified, use today's date: "
  +:+ today +:+ "
3. sentiment: The overall sentiment (must be one of: " +:+ Str.quoted "Positive"
  +:+ ", " +:+ Str.quoted "Negative" +:+ ", or " +:+ Str.quoted "Neutral" +:+ ")
4. materials_shared: Array of materials/documents shared (e.g., ["
  +:+ Str.quoted "brochures" +:+ ", " +:+ Str.quoted "samples" +:+ ", "
  +:+ Str.quoted "clinical data" +:+ "])
5. discussion_summary: Brief summary of what was discussed
6. products_discussed: Array of product names mentioned (e.g., ["
  +:+ Str.quoted "product X" +:+ ", " +:+ Str.quoted "diabetes medication" +:+ "])

Return ONLY this JSON format, nothing else:
{
    " +:+ Str.quoted "hcp_name" +:+ ": " +:+ Str.quoted "extracted name or null" +:+ ",
    " +:+ Str.quoted "date" +:+ ": " +:+ Str.quoted "YYYY-MM-DD" +:+ ",
    " +:+ Str.quoted "sentiment" +:+ ": " +:+ Str.quoted "Positive|Negative|Neutral"
  +:+ ",
    " +:+ Str.quoted "materials_shared" +:+ ": [" +:+ Str.quoted "item1" +:+ ", "
  +:+ Str.quoted "item2" +:+ "],
    " +:+ Str.quoted "discussion_summary" +:+ ": " +:+ Str.quoted "brief summary" +:+ ",
    " +:+ Str.quoted "products_discussed" +:+ ": [" +:+ Str.quoted "product1" +:+ ", "
  +:+ Str.quoted "product2" +:+ "]
}

IMPORTANT: 
- If a field cannot be extracted, use null for strings or [] for arrays
- Always return valid JSON
- Do not include any text before or after the JSON
".

Definition log_interaction (user_message : string) : Gw dict :=
  let prompt := log_prompt user_message in
  try_except
    (result ← extract_json prompt (1 # 10);
     result ← lift (setitem result "success" (VBool true));
     let result := default_falsy "hcp_name" VNull result in
     let result := default_falsy "date" (VStr today) result in
     let result := default_falsy "sentiment" (VStr "Neutral") result in
     let result := default_falsy "materials_shared" (VList []) result in
     let result := default_falsy "discussion_summary" VNull result in
     let result := default_falsy "products_discussed" (VList []) result in
     mret result)
    (fun e => mret (dict_of
       [ ("success", VBool false); ("error", VStr e); ("hcp_name", VNull);
         ("date", VStr today); ("sentiment", VStr "Neutral");
         ("materials_shared", VList []); ("discussion_summary", VNull);
         ("products_discussed", VList []) ])).

(** ** Tool 2: [edit_interaction] *)

Definition edit_prompt (current_data : dict) (user_message : string) : string :=
  "You are an expert medical sales assistant. The user wants to correct/update an existing HCP interaction record.

Current interaction data:
" +:+ json_dumps current_data +:+ "

User's correction message: " +:+ Str.quoted user_message +:+ "

Identify ONLY the fields that the user wants to change and extract their new values.

Return ONLY valid JSON (no markdown, no explanation) with ONLY the fields that changed:

Example: If user says " +:+ Str.quoted "sentiment was negative" +:+ ", return: {"
  +:+ Str.quoted "sentiment" +:+ ": " +:+ Str.quoted "Negative" +:+ "}
Example: If user says " +:+ Str.quoted "name was Dr. John and I shared samples"
  +:+ ", return: {" +:+ Str.quoted "hcp_name" +:+ ": " +:+ Str.quoted "Dr. John"
  +:+ ", " +:+ Str.quoted "materials_shared" +:+ ": [" +:+ Str.quoted "samples"
  +:+ "]}

Available fields you can change:
- hcp_name (string)
- date (YYYY-MM-DD format)
- sentiment (" +:+ Str.quoted "Positive" +:+ ", " +:+ Str.quoted "Negative" +:+ ", or "
  +:+ Str.quoted "Neutral" +:+ ")
- materials_shared (array of strings)
- discussion_summary (string)
- products_discussed (array of strings)
- follow_up_date (YYYY-MM-DD format or null)

Return ONLY the changed fields as JSON. If nothing changed, return {}.
".

(** ['error' in changes] *)
Definition has_error_key (changes : value) : exc bool :=
  match changes with
  | VDict d => Ok (bool_decide (is_Some (d !! "error")))
  | VList l => Ok (existsb (fun x => match x with
                                     | VStr s => String.eqb s "error"
                                     | _ => false
                                     end) l)
  | VStr s => Ok (Str.contains "error" s)
  | v => Raise ("argument of type '" +:+ type_name v +:+ "' is not iterable")
  end.

(** [{**current_data, **changes}]: the entries of [changes] win. *)
Definition overlay (current_data : dict) (changes : value) : exc dict :=
  match changes with
  | VDict d => Ok (d ∪ current_data)
  | v => Raise ("'" +:+ type_name v +:+ "' object is not a mapping")
  end.

Definition edit_interaction (current_data : dict) (user_message : string) : Gw dict :=
  let prompt := edit_prompt current_data user_message in
  try_except
    (changes ← extract_json prompt (1 # 10);
     has_error ← lift (has_error_key changes);
     let changes := if has_error || negb (truthy changes) then VDict ∅ else changes in
     updated_data ← lift (overlay current_data changes);
     mret (<["success" := VBool true]> updated_data))
    (fun e => mret (current_data ∪ dict_of [ ("success", VBool false); ("error", VStr e) ])).

(** ** Tool 3: [schedule_followup] *)

Definition schedule_prompt (hcp_name : value) (user_message : string) : string :=
  "You are a medical sales coach helping schedule follow-up meetings.

HCP Name: " +:+ fmt hcp_name +:+ "
User request: " +:+ Str.quoted user_message +:+ "
Today's date: " +:+ today +:+ "

Extract follow-up scheduling information:

1. follow_up_date: Infer the date from the user's message in YYYY-MM-DD format
   - " +:+ Str.quoted "next week" +:+ " = approximately " +:+ next_week +:+ "
   - " +:+ Str.quoted "next month" +:+ " = approximately " +:+ next_month +:+ "
   - " +:+ Str.quoted "tomorrow" +:+ " = one day from today
   - If no specific time mentioned, default to one week from today

2. talking_points: Generate 3-4 key topics to discuss in the follow-up
   - Based on the user's message
   - Be specific and actionable

3. preparation_notes: What should be prepared before the meeting
   - Materials needed
   - Data to gather
   - Questions to prepare

Return ONLY valid JSON (no markdown):
{
    " +:+ Str.quoted "follow_up_date" +:+ ": " +:+ Str.quoted "YYYY-MM-DD" +:+ ",
    " +:+ Str.quoted "talking_points" +:+ ": [" +:+ Str.quoted "point1" +:+ ", "
  +:+ Str.quoted "point2" +:+ ", " +:+ Str.quoted "point3" +:+ "],
    " +:+ Str.quoted "preparation_notes" +:+ ": " +:+ Str.quoted "what to prepare" +:+ "
}
".

Definition schedule_followup (hcp_name : value) (user_message : string) : Gw dict :=
  let prompt := schedule_prompt hcp_name user_message in
  try_except
    (result ← extract_json prompt (2 # 10);
     result ← lift (setitem result "success" (VBool true));
     let result := <["hcp_name" := hcp_name]> result in
     let result := default_falsy "follow_up_date" (VStr next_week) result in
     let result := default_falsy "talking_points"
                     (VList [VStr "Follow-up discussion"; VStr "Address questions";
                             VStr "Next steps"]) result in
     let result := default_falsy "preparation_notes"
                     (VStr "Review previous interaction notes") result in
     mret result)
    (fun e => mret (dict_of
       [ ("success", VBool false); ("error", VStr e); ("hcp_name", hcp_name);
         ("follow_up_date", VStr next_week); ("talking_points", VList []);
         ("preparation_notes", VNull) ])).

(** ** Tool 4: [extract_insights] *)

(** [', '.join(v) if v else 'None'] *)
Definition join_or_none (v : value) : exc string :=
  if truthy v then join_value ", " v else Ok "None".

Definition insights_prompt (interaction_data : dict) : exc string :=
  let hcp_name := get_or interaction_data "hcp_name" (VStr "Unknown HCP") in
  let sentiment := get_or interaction_data "sentiment" (VStr "Neutral") in
  let discussion := get_or interaction_data "discussion_summary" (VStr "No discussion summary") in
  let products := get_or interaction_data "products_discussed" (VList []) in
  let materials := get_or interaction_data "materials_shared" (VList []) in
  products_txt ← join_or_none products;
  materials_txt ← join_or_none materials;
  mret ("You are a medical sales analyst. Analyze this HCP interaction and extract strategic insights.

Interaction Details:
- HCP: " +:+ fmt hcp_name +:+ "
- Sentiment: " +:+ fmt sentiment +:+ "
- Discussion: " +:+ fmt discussion +:+ "
- Products Discussed: " +:+ products_txt +:+ "
- Materials Shared: " +:+ materials_txt +:+ "

Analyze this interaction and provide:

1. opportunities: 2-3 sales opportunities or positive signals identified
2. concerns: Any concerns, objections, or negative signals (or empty array if none)
3. recommended_actions: 2-3 specific next actions to move the opportunity forward
4. priority_level: Overall priority (" +:+ Str.quoted "High" +:+ ", "
  +:+ Str.quoted "Medium" +:+ ", or " +:+ Str.quoted "Low"
  +:+ ") based on opportunity potential

Consider:
- Sentiment indicates interest level
- Materials shared show engagement depth
- Discussion topics reveal needs

Return ONLY valid JSON (no markdown):
{
    " +:+ Str.quoted "opportunities" +:+ ": [" +:+ Str.quoted "opportunity1" +:+ ", "
  +:+ Str.quoted "opportunity2" +:+ "],
    " +:+ Str.quoted "concerns" +:+ ": [" +:+ Str.quoted "concern1" +:+ "],
    " +:+ Str.quoted "recommended_actions" +:+ ": [" +:+ Str.quoted "action1" +:+ ", "
  +:+ Str.quoted "action2" +:+ "],
    " +:+ Str.quoted "priority_level" +:+ ": " +:+ Str.quoted "High|Medium|Low" +:+ "
}
").

(** The priority derived from the sentiment of the record. *)
Definition priority_of_sentiment (sentiment : value) : string :=
  match sentiment with
  | VStr s =>
      if String.eqb s "Positive" then "High"
      else if String.eqb s "Negative" then "Low"
      else "Medium"
  | _ => "Medium"
  end.

Definition extract_insights (interaction_data : dict) : Gw dict :=
  let sentiment := get_or interaction_data "sentiment" (VStr "Neutral") in
  prompt ← lift (insights_prompt interaction_data);
  try_except
    (result ← extract_json prompt (3 # 10);
     result ← lift (setitem result "success" (VBool true));
     let result := default_falsy "opportunities" (VList []) result in
     let result := default_falsy "concerns" (VList []) result in
     let result := default_falsy "recommended_actions"
                     (VList [VStr "Follow up with HCP"]) result in
     let result := default_falsy "priority_level"
                     (VStr (priority_of_sentiment sentiment)) result in
     mret result)
    (fun e => mret (dict_of
       [ ("success", VBool false); ("error", VStr e); ("opportunities", VList []);
         ("concerns", VList []); ("recommended_actions", VList []);
         ("priority_level", VStr "Medium") ])).

(** ** Tool 5: [validate_hcp] *)

Definition validate_prompt (hcp_name : string) : string :=
  "You are a healthcare database expert. Validate and enrich this HCP name.

HCP Name: " +:+ Str.quoted hcp_name +:+ "

Analyze and return:

1. is_valid: Is this a valid HCP name format? (true/false)
   - Valid examples: " +:+ Str.quoted "Dr. Smith" +:+ ", "
  +:+ Str.quoted "Dr. John Patel" +:+ ", " +:+ Str.quoted "Prof. Williams" +:+ "
   - Invalid examples: " +:+ Str.quoted "doctor" +:+ ", " +:+ Str.quoted "xyz" +:+ ", "
  +:+ Str.quoted "123" +:+ "

2. formatted_name: Properly formatted name with correct capitalization and title
   - Add " +:+ Str.quoted "Dr." +:+ " prefix if missing but clearly a doctor's name
   - Proper case for names (e.g., " +:+ Str.quoted "smith" +:+ " → "
  +:+ Str.quoted "Smith" +:+ ")
   - Keep existing titles (Dr., Prof., etc.)

3. likely_specialty: Best guess of medical specialty based on common naming patterns or context
   - Options: " +:+ Str.quoted "Cardiology" +:+ ", " +:+ Str.quoted "Neurology" +:+ ", "
  +:+ Str.quoted "Oncology" +:+ ", " +:+ Str.quoted "Pediatrics" +:+ ", "
  +:+ Str.quoted "General Practice" +:+ ", " +:+ Str.quoted "Surgery" +:+ ", "
  +:+ Str.quoted "Unknown" +:+ "
   - If no context, use " +:+ Str.quoted "General Practice" +:+ "

4. validation_notes: Any issues found or corrections made
   - Examples: " +:+ Str.quoted "Name format corrected" +:+ ", "
  +:+ Str.quoted "Added Dr. prefix" +:+ ", " +:+ Str.quoted "No issues found" +:+ "

5. requires_verification: Should this be manually verified? (true/false)
   - True if name is very short, unusual, or incomplete

Return ONLY valid JSON (no markdown):
{
    " +:+ Str.quoted "is_valid" +:+ ": true,
    " +:+ Str.quoted "formatted_name" +:+ ": " +:+ Str.quoted "Dr. Name" +:+ ",
    " +:+ Str.quoted "likely_specialty" +:+ ": " +:+ Str.quoted "Cardiology" +:+ ",
    " +:+ Str.quoted "validation_notes" +:+ ": " +:+ Str.quoted "notes here" +:+ ",
    " +:+ Str.quoted "requires_verification" +:+ ": false
}
".

Definition empty_name_result : dict :=
  dict_of [ ("success", VBool false); ("error", VStr "HCP name is empty");
            ("is_valid", VBool false); ("formatted_name", VNull);
            ("requires_verification", VBool true) ].

(** The argument is whatever the caller found under [hcp_name]; a value
    that is true and not a string has no [strip] method. *)
Definition validate_hcp (hcp_name : value) : Gw dict :=
  if negb (truthy hcp_name) then mret empty_name_result
  else match hcp_name with
  | VStr name =>
      if Str.len (Str.strip name) =? 0 then mret empty_name_result
      else
        let prompt := validate_prompt name in
        try_except
          (result ← extract_json prompt (1 # 10);
           result ← lift (setitem result "success" (VBool true));
           let result := <["hcp_name" := VStr name]> result in
           let result := default_missing "is_valid" (VBool true) result in
           let result := default_falsy "formatted_name" (VStr (str_title name)) result in
           let result := default_falsy "likely_specialty" (VStr "General Practice") result in
           let result := default_falsy "validation_notes" (VStr "Name validated") result in
           let result := default_missing "requires_verification" (VBool false) result in
           mret result)
          (fun e => mret (dict_of
             [ ("success", VBool false); ("error", VStr e); ("hcp_name", VStr name);
               ("is_valid", VNull); ("formatted_name", VStr name);
               ("likely_specialty", VStr "Unknown");
               ("validation_notes", VStr ("Error: " +:+ e));
               ("requires_verification", VBool true) ]))
  | v => lift (Raise ("'" +:+ type_name v +:+ "' object has no attribute 'strip'"))
  end.

End Tools.

(* ===================================================================== *)
(** * The agent ([app/agents/hcp_agent.py]) *)
(* ===================================================================== *)

(** [AgentState]: the context carried through the pipeline. *)
Record AgentState : Type := mkState {
  user_input : string;
  current_form_data : dict;
  form_data : dict;
  tool_results : dict;
  intent : string;
  chat_response : string;
  error : value
}.

Definition set_form_data (st : AgentState) (x : dict) : AgentState :=
  mkState (user_input st) (current_form_data st) x (tool_results st)
          (intent st) (chat_response st) (error st).

Definition set_tool_results (st : AgentState) (x : dict) : AgentState :=
  mkState (user_input st) (current_form_data st) (form_data st) x
          (intent st) (chat_response st) (error st).

Definition set_intent (st : AgentState) (x : string) : AgentState :=
  mkState (user_input st) (current_form_data st) (form_data st) (tool_results st)
          x (chat_response st) (error st).

Definition set_chat_response (st : AgentState) (x : string) : AgentState :=
  mkState (user_input st) (current_form_data st) (form_data st) (tool_results st)
          (intent st) x (error st).

Definition set_error (st : AgentState) (x : value) : AgentState :=
  mkState (user_input st) (current_form_data st) (form_data st) (tool_results st)
          (intent st) (chat_response st) x.

(** What [process] returns. *)
Record Reply : Type := mkReply {
  reply_form_data : dict;
  reply_chat_response : string;
  reply_intent : string;
  reply_success : bool
}.

Definition apology : string := "❌ Sorry, I encountered an error: ".

Section Agent.
Context `{Env}.

(** ** Router *)

Definition router_prompt (user_input : string) (has_existing_data : bool) : string :=
  "You are an intent classifier for a medical sales CRM system.

User message: " +:+ Str.quoted user_input +:+ "

Existing data present: " +:+ (if has_existing_data then "Yes" else "No") +:+ "

Classify the user's intent into ONE of these categories:

1. " +:+ Str.quoted "log" +:+ " - User wants to LOG a new interaction
   - Examples: " +:+ Str.quoted "I met with Dr. Smith" +:+ ", "
  +:+ Str.quoted "Today's meeting was positive" +:+ ", "
  +:+ Str.quoted "Just had a call with..." +:+ "
   - Use when: Creating NEW interaction from scratch

2. " +:+ Str.quoted "edit" +:+ " - User wants to EDIT/CORRECT existing data
   - Examples: " +:+ Str.quoted "Actually the name was..." +:+ ", "
  +:+ Str.quoted "Change sentiment to..." +:+ ", " +:+ Str.quoted "Sorry, I meant..."
  +:+ "
   - Use when: Correcting or updating previously entered information
   - IMPORTANT: Only use if existing data is present

3. " +:+ Str.quoted "schedule" +:+ " - User wants to SCHEDULE a follow-up
   - Examples: " +:+ Str.quoted "Schedule follow-up next week" +:+ ", "
  +:+ Str.quoted "Book a meeting with..." +:+ ", " +:+ Str.quoted "Plan next visit..."
  +:+ "
   - Use when: Explicitly scheduling future meetings

4. " +:+ Str.quoted "insights" +:+ " - User wants ANALYSIS/INSIGHTS
   - Examples: " +:+ Str.quoted "What are the opportunities?" +:+ ", "
  +:+ Str.quoted "Analyze this interaction" +:+ ", "
  +:+ Str.quoted "Give me insights..." +:+ "
   - Use when: Requesting AI analysis of interaction

5. " +:+ Str.quoted "validate" +:+ " - User wants to VALIDATE HCP information
   - Examples: " +:+ Str.quoted "Is Dr. Smith's name correct?" +:+ ", "
  +:+ Str.quoted "Verify this doctor" +:+ ", " +:+ Str.quoted "Check HCP details..."
  +:+ "
   - Use when: Validating or checking HCP information

Return ONLY the intent name, nothing else: log, edit, schedule, insights, or validate
".

(** [state.get("current_form_data") and state["current_form_data"].get("hcp_name")],
    as a truth value. *)
Definition has_existing_data (current : dict) : bool :=
  truthy (VDict current) && truthy (get current "hcp_name").

(** The chain of keyword tests applied to the stripped, lower-cased
    answer of the provider. *)
Definition normalize_intent (intent : string) (has_existing_data : bool) : string :=
  if Str.contains "log" intent then "log"
  else if Str.contains "edit" intent || Str.contains "update" intent
          || Str.contains "change" intent then "edit"
  else if Str.contains "schedule" intent || Str.contains "follow" intent then "schedule"
  else if Str.contains "insight" intent || Str.contains "analyz" intent
          || Str.contains "opportun" intent then "insights"
  else if Str.contains "validat" intent || Str.contains "verify" intent
          || Str.contains "check" intent then "validate"
  else if has_existing_data then "edit" else "log".

(** From the raw answer of the provider to the intent label. *)
Definition classify (response : string) (has_existing_data : bool) : string :=
  normalize_intent (str_lower (Str.strip response)) has_existing_data.

Definition _router_node (st : AgentState) : Gw AgentState :=
  let has_existing := has_existing_data (current_form_data st) in
  let prompt := router_prompt (user_input st) has_existing in
  try_except
    (response ← call_llm prompt (1 # 10) 20;
     mret (set_intent st (classify response has_existing)))
    (fun e => mret (set_error (set_intent st "error") (VStr e))).

Definition _route_to_tool (st : AgentState) : string := intent st.

(** ** Tool nodes

    In each node the whole body is one [try]; the state is updated in
    place, so the handler sees the updates made before the exception.
    The inner [try_except] covers the statements after
    [state["tool_results"] = result], the outer one the tool call. *)

Definition _log_interaction_node (st : AgentState) : Gw AgentState :=
  try_except
    (result ← log_interaction (user_input st);
     let st := set_tool_results st result in
     if truthy (get result "success") then
       mret (set_form_data st (dict_of
         [ ("hcp_name", get result "hcp_name");
           ("date", get result "date");
           ("sentiment", get result "sentiment");
           ("materials_shared", get_or result "materials_shared" (VList []));
           ("discussion_summary", get result "discussion_summary");
           ("products_discussed", get_or result "products_discussed" (VList []));
           ("follow_up_date", get result "follow_up_date");
           ("key_insights", get result "key_insights") ]))
     else mret (set_error st (get_or result "error" (VStr "Unknown error"))))
    (fun e => mret (set_error st (VStr e))).

Definition _edit_interaction_node (st : AgentState) : Gw AgentState :=
  let current_data := current_form_data st in
  try_except
    (result ← edit_interaction current_data (user_input st);
     let st := set_tool_results st result in
     if truthy (get result "success") then mret (set_form_data st result)
     else mret (set_form_data
                  (set_error st (get_or result "error" (VStr "Unknown error")))
                  current_data))
    (fun e => mret (set_form_data (set_error st (VStr e)) (current_form_data st))).

Definition schedule_insights (result : dict) : exc string :=
  let talking_points := get_or result "talking_points" (VList []) in
  let prep_notes := get_or result "preparation_notes" (VStr EmptyString) in
  points ← join_value Str.nl talking_points;
  mret ("Follow-up planned:" +:+ Str.nl +:+ "- " +:+ points +:+ Str.nl +:+ Str.nl
        +:+ "Preparation: " +:+ fmt prep_notes).

Definition _schedule_followup_node (st : AgentState) : Gw AgentState :=
  let hcp_name := get_or (current_form_data st) "hcp_name" (VStr "HCP") in
  try_except
    (result ← schedule_followup hcp_name (user_input st);
     let st := set_tool_results st result in
     try_except
       (if truthy (get result "success") then
          let form_data := <["follow_up_date" := get result "follow_up_date"]>
                             (current_form_data st) in
          insights ← lift (schedule_insights result);
          let form_data := <["key_insights" := VStr insights]> form_data in
          mret (set_form_data st form_data)
        else mret (set_error st (get_or result "error" (VStr "Unknown error"))))
       (fun e => mret (set_error st (VStr e))))
    (fun e => mret (set_error st (VStr e))).

(** [['- ' + o for o in v]] *)
Definition dash_items (v : value) : exc (list string) :=
  items ← iterate v;
  mapM (fun o => match o with
                 | VStr s => Ok ("- " +:+ s)
                 | _ => Raise ("can only concatenate str (not "
                               +:+ Str.quoted (type_name o) +:+ ") to str")
                 end) items.

(** One titled block of the insights text, empty when [v] is false. *)
Definition insights_block (title : string) (v : value) (trailer : string) : exc string :=
  if truthy v then
    items ← dash_items v;
    mret (title +:+ ":" +:+ Str.nl +:+ "- " +:+ Str.join Str.nl items +:+ trailer)
  else mret EmptyString.

Definition insights_text (result : dict) : exc string :=
  let opportunities := get_or result "opportunities" (VList []) in
  let concerns := get_or result "concerns" (VList []) in
  let actions := get_or result "recommended_actions" (VList []) in
  let priority := get_or result "priority_level" (VStr "Medium") in
  let insights := "Priority: " +:+ fmt priority +:+ Str.nl +:+ Str.nl in
  o ← insights_block "Opportunities" opportunities (Str.nl +:+ Str.nl);
  c ← insights_block "Concerns" concerns (Str.nl +:+ Str.nl);
  a ← insights_block "Recommended Actions" actions EmptyString;
  mret (insights +:+ o +:+ c +:+ a).

Definition _extract_insights_node (st : AgentState) : Gw AgentState :=
  let interaction_data := current_form_data st in
  try_except
    (result ← extract_insights interaction_data;
     let st := set_tool_results st result in
     try_except
       (if truthy (get result "success") then
          insights ← lift (insights_text result);
          mret (set_form_data st (<["key_insights" := VStr insights]> (current_form_data st)))
        else mret (set_error st (get_or result "error" (VStr "Unknown error"))))
       (fun e => mret (set_error st (VStr e))))
    (fun e => mret (set_error st (VStr e))).

Definition _validate_hcp_node (st : AgentState) : Gw AgentState :=
  let hcp_name := get_or (current_form_data st) "hcp_name" (VStr EmptyString) in
  let hcp_name := if truthy hcp_name then hcp_name else VStr (user_input st) in
  try_except
    (result ← validate_hcp hcp_name;
     let st := set_tool_results st result in
     if truthy (get result "success") && truthy (get result "is_valid") then
       let form_data := <["hcp_name" := get result "formatted_name"]>
                          (current_form_data st) in
       let specialty := get_or result "likely_specialty" (VStr "Unknown") in
       let notes := get_or result "validation_notes" (VStr EmptyString) in
       let insights := "HCP Validation:" +:+ Str.nl +:+ "- Specialty: " +:+ fmt specialty
                       +:+ Str.nl +:+ "- Notes: " +:+ fmt notes in
       mret (set_form_data st (<["key_insights" := VStr insights]> form_data))
     else mret (set_error st (get_or result "error" (VStr "Validation failed"))))
    (fun e => mret (set_error st (VStr e))).

(** ** Formatter *)

(** [f"- Label: {', '.join(d[k])}\n"] when [d.get(k)] is true. *)
Definition joined_line (label : string) (d : dict) (k : string) : exc string :=
  if truthy (get d k) then
    items ← join_value ", " (get d k);
    mret (label +:+ items +:+ Str.nl)
  else mret EmptyString.

(** [for x in v: response += f"  • {x}\n"] *)
Definition bullet_lines (v : value) : exc string :=
  items ← iterate v;
  mret (fold_left (fun acc x => acc +:+ "  • " +:+ fmt x +:+ Str.nl) items EmptyString).

Definition format_log (form_data : dict) : exc string :=
  let hcp_name := get_or form_data "hcp_name" (VStr "the HCP") in
  let sentiment := get_or form_data "sentiment" (VStr "neutral") in
  let response := "✓ I've logged your interaction with " +:+ fmt hcp_name +:+ "."
                  +:+ Str.nl +:+ Str.nl in
  let response := response +:+ "📋 Details captured:" +:+ Str.nl in
  let response := response +:+ "- Date: " +:+ fmt (get_or form_data "date" (VStr "N/A"))
                  +:+ Str.nl in
  let response := response +:+ "- Sentiment: " +:+ fmt sentiment +:+ Str.nl in
  materials ← joined_line "- Materials: " form_data "materials_shared";
  products ← joined_line "- Products: " form_data "products_discussed";
  mret (response +:+ materials +:+ products +:+ Str.nl
        +:+ "Your interaction has been recorded successfully!").

Definition format_edit (form_data : dict) : string :=
  "✓ I've updated the interaction with your changes." +:+ Str.nl +:+ Str.nl
  +:+ "📝 Current data:" +:+ Str.nl
  +:+ "- HCP: " +:+ fmt (get_or form_data "hcp_name" (VStr "N/A")) +:+ Str.nl
  +:+ "- Sentiment: " +:+ fmt (get_or form_data "sentiment" (VStr "N/A")) +:+ Str.nl
  +:+ "The form has been updated.".

Definition format_schedule (tool_results : dict) : exc string :=
  let follow_up := get_or tool_results "follow_up_date" (VStr "soon") in
  let talking_points := get_or tool_results "talking_points" (VList []) in
  let response := "✓ Follow-up scheduled for " +:+ fmt follow_up +:+ "!"
                  +:+ Str.nl +:+ Str.nl in
  points ← (if truthy talking_points then
              lines ← bullet_lines talking_points;
              mret ("📅 Talking points:" +:+ Str.nl +:+ lines)
            else mret EmptyString);
  let prep := get tool_results "preparation_notes" in
  mret (response +:+ points
        +:+ (if truthy prep then Str.nl +:+ "📌 Preparation: " +:+ fmt prep
             else EmptyString)).

Definition format_insights (tool_results : dict) : exc string :=
  let priority := get_or tool_results "priority_level" (VStr "Medium") in
  let opportunities := get_or tool_results "opportunities" (VList []) in
  let actions := get_or tool_results "recommended_actions" (VList []) in
  let response := "🔍 Analysis complete! Priority: " +:+ fmt priority
                  +:+ Str.nl +:+ Str.nl in
  opps ← (if truthy opportunities then
            lines ← bullet_lines opportunities;
            mret ("✨ Opportunities:" +:+ Str.nl +:+ lines)
          else mret EmptyString);
  acts ← (if truthy actions then
            lines ← bullet_lines actions;
            mret (Str.nl +:+ "🎯 Recommended actions:" +:+ Str.nl +:+ lines)
          else mret EmptyString);
  mret (response +:+ opps +:+ acts).

Definition format_validate (tool_results : dict) : string :=
  let formatted := get_or tool_results "formatted_name" (VStr "Unknown") in
  let specialty := get_or tool_results "likely_specialty" (VStr "Unknown") in
  "✓ HCP information validated!" +:+ Str.nl +:+ Str.nl
  +:+ "👨‍⚕️ Name: " +:+ fmt formatted +:+ Str.nl
  +:+ "🏥 Likely specialty: " +:+ fmt specialty +:+ Str.nl
  +:+ (if truthy (get tool_results "requires_verification")
       then Str.nl +:+ "⚠️ Manual verification recommended."
       else EmptyString).

Definition _formatter_node (st : AgentState) : exc AgentState :=
  if truthy (error st) then
    Ok (set_chat_response st (apology +:+ fmt (error st)))
  else
    response ←
      (if String.eqb (intent st) "log" then format_log (form_data st)
       else if String.eqb (intent st) "edit" then Ok (format_edit (form_data st))
       else if String.eqb (intent st) "schedule" then format_schedule (tool_results st)
       else if String.eqb (intent st) "insights" then format_insights (tool_results st)
       else if String.eqb (intent st) "validate" then Ok (format_validate (tool_results st))
       else Ok "✓ Request processed successfully!");
    mret (set_chat_response st response).

(** ** The graph and its entry point *)

(** The compiled graph: router, then the node the conditional edge
    selects, then the formatter.  A label outside the edge table is an
    error of the graph library. *)
Definition invoke (st : AgentState) : Gw AgentState :=
  st ← _router_node st;
  let next := _route_to_tool st in
  st ← (if String.eqb next "log" then _log_interaction_node st
        else if String.eqb next "edit" then _edit_interaction_node st
        else if String.eqb next "schedule" then _schedule_followup_node st
        else if String.eqb next "insights" then _extract_insights_node st
        else if String.eqb next "validate" then _validate_hcp_node st
        else if String.eqb next "error" then mret st
        else lift (Raise ("unknown branch: " +:+ next)));
  lift (_formatter_node st).

(** [current_form_data or {}] *)
Definition or_empty (current_form_data : option dict) : dict :=
  default ∅ current_form_data.

Definition initial_state (user_input : string) (current_form_data : option dict)
  : AgentState :=
  mkState user_input (or_empty current_form_data) ∅ ∅ EmptyString EmptyString
          (VStr EmptyString).

(** [HCPAgent.process] *)
Definition process (user_input : string) (current_form_data : option dict) : Gw Reply :=
  try_except
    (final_state ← invoke (initial_state user_input current_form_data);
     mret (mkReply (form_data final_state) (chat_response final_state)
                   (intent final_state) (negb (truthy (error final_state)))))
    (fun e => mret (mkReply (or_empty current_form_data) (apology +:+ e) "error" false)).

End Agent.

(* ===================================================================== *)
(** * Definitions that follow the specification, and example data *)
(* ===================================================================== *)

(** The keyword sets of the specification, in precedence order. *)
Definition keyword_table : list (list string * string) :=
  [ (["log"], "log");
    (["edit"; "update"; "change"], "edit");
    (["schedule"; "follow"], "schedule");
    (["insight"; "analyz"; "opportun"], "insights");
    (["validat"; "verify"; "check"], "validate") ].

Definition intent_keywords : list string :=
  concat (fst <$> keyword_table).

(** The label of the first keyword set with a member occurring in [s]. *)
Fixpoint first_match (table : list (list string * string)) (s : string) : option string :=
  match table with
  | [] => None
  | (keywords, label) :: rest =>
      if existsb (fun kw => Str.contains kw s) keywords then Some label
      else first_match rest s
  end.

(** The extraction the merge uses: nothing when the mapping is empty or
    carries an [error] key. *)
Definition effective_changes (changes : dict) : dict :=
  if bool_decide (is_Some (changes !! "error")) || negb (truthy (VDict changes))
  then ∅ else changes.

(** The name handed to the tool: the one of the record, or the message
    when the record has none. *)
Definition name_to_validate (st : AgentState) : value :=
  let hcp_name := get_or (current_form_data st) "hcp_name" (VStr EmptyString) in
  if truthy hcp_name then hcp_name else VStr (user_input st).

(** What a step may do to the record of a context that fails: keep the
    current record where it is, and leave as merged record nothing or the
    current record. *)
Definition keeps_record_on_failure (st st' : AgentState) : Prop :=
  current_form_data st' = current_form_data st
  /\ (truthy (error st') = true ->
      form_data st' = ∅ \/ form_data st' = current_form_data st).

(** The trimmed contents of the first block opened by the tagged fence,
    when that block is closed. *)
Definition tagged_block (response : string) : option string :=
  if Str.contains "```json" response then
    let start := Str.find "```json" response + 7 in
    let end_ := Str.find_from "```" response start in
    if end_ =? -1 then None else Some (Str.strip (Str.slice response start end_))
  else None.

(** The texts between an opening fence and the next fence: the pieces at
    odd positions of the split on the fence marker. *)
Fixpoint fenced_blocks (parts : list string) : list string :=
  match parts with
  | _ :: block :: rest => block :: fenced_blocks rest
  | _ => []
  end.

(** The chain as the specification words it: each step is tried when all
    the steps before it failed, and the failure value is returned only
    when every step failed. *)
Definition fallback_chain `{Env} (response : string) : value :=
  match json_loads response with
  | Some v => v
  | None =>
      match tagged_block response ≫= json_loads with
      | Some v => v
      | None =>
          match first_brace_part (fenced_blocks (Str.split "```" response)) with
          | Some v => v
          | None => parse_brace_span response
          end
      end
  end.

(* ===================================================================== *)
(** * Environments for the examples *)
(* ===================================================================== *)

Module Demo.

Definition lower_char (c : Ascii.ascii) : Ascii.ascii :=
  let n := Ascii.nat_of_ascii c in
  if (65 <=? n)%nat && (n <=? 90)%nat then Ascii.ascii_of_nat (n + 32) else c.

Fixpoint lower (s : string) : string :=
  match s with
  | EmptyString => EmptyString
  | String c s' => String (lower_char c) (lower s')
  end.

Definition is_upper (c : Ascii.ascii) : bool :=
  let n := Ascii.nat_of_ascii c in (65 <=? n)%nat && (n <=? 90)%nat.

Definition is_lower (c : Ascii.ascii) : bool :=
  let n := Ascii.nat_of_ascii c in (97 <=? n)%nat && (n <=? 122)%nat.

Definition upper_char (c : Ascii.ascii) : Ascii.ascii :=
  if is_lower c then Ascii.ascii_of_nat (Ascii.nat_of_ascii c - 32) else c.

(** [str.title] on ASCII text: a letter that follows a letter is
    lower-cased, any other letter is upper-cased. *)
Fixpoint title_go (after_letter : bool) (s : string) : string :=
  match s with
  | EmptyString => EmptyString
  | String c s' =>
      let letter := is_upper c || is_lower c in
      String (if after_letter then lower_char c else upper_char c) (title_go letter s')
  end.

Definition title (s : string) : string := title_go false s.

Fixpoint chars (s : string) : list string :=
  match s with
  | EmptyString => []
  | String c s' => String c EmptyString :: chars s'
  end.

(** A parser that knows the JSON texts of a table and rejects every
    other text; each example that uses it lists the texts the program
    submits, on which the table agrees with [json.loads]. *)
Definition loads (table : list (string * value)) (s : string) : option value :=
  snd <$> List.find (fun entry => String.eqb (fst entry) s) table.

(** An environment built from a provider and a parser table.  The other
    oracles are fixed: ASCII case mapping, a clock, and formatting
    oracles that play no part in the examples. *)
Definition env (answer : request -> exc string) (table : list (string * value)) : Env :=
  {| provider := answer;
     json_loads := loads table;
     json_dumps := fun _ => "{...}";
     py_repr := fun v => "<" +:+ type_name v +:+ ">";
     py_chars := chars;
     py_keys := fun d => fst <$> map_to_list d;
     str_lower := lower;
     str_title := title;
     today := "2026-01-18";
     next_week := "2026-01-25";
     next_month := "2026-02-17" |}.

(** The provider is unreachable: every request fails. *)
Definition offline : request -> exc string :=
  fun _ => Raise "Connection error.".

(** The classifier request is the one with a budget of 20 tokens; the
    task handlers use the default budget. *)
Definition answers (classifier handler : string) : request -> exc string :=
  fun r => if N.eqb (req_max_tokens r) 20 then Ok classifier else Ok handler.

Definition dr_a : dict := {[ "hcp_name" := VStr "Dr. A" ]}.

End Demo.

(** The record of the specification's example, and an answer of the
    provider that changes the sentiment only, with its parse. *)
Definition example_record : dict :=
  {[ "hcp_name" := VStr "Dr. A"; "sentiment" := VStr "Positive";
     "materials_shared" := VList [VStr "x"] ]}.

Definition negative_text : string :=
  "{" +:+ Str.quoted "sentiment" +:+ ": " +:+ Str.quoted "Negative" +:+ "}".

Definition negative_json : dict := {[ "sentiment" := VStr "Negative" ]}.

(** A response whose tagged block opens with a comment line. *)
Definition commented_block : string :=
  "```json" +:+ Str.nl +:+ "// corrected fields" +:+ Str.nl +:+ negative_text
  +:+ Str.nl +:+ "```".

(** The answer of the provider to the validation request: the name is not
    valid, and the object carries an [error] entry that is null. *)
Definition invalid_text : string :=
  "{" +:+ Str.quoted "is_valid" +:+ ": false, " +:+ Str.quoted "error" +:+ ": null}".

Definition invalid_json : dict := {[ "is_valid" := VBool false; "error" := VNull ]}.


(* ===================================================================== *)
(** * The rest of the gateway, the schemas, the model and the chat route *)
(* ===================================================================== *)

Section Connection.
Context `{Env}.

(** [GroqLLMWrapper.test_connection] *)
Definition test_connection : Gw bool :=
  try_except
    (_ ← call_llm "Say 'Hello' if you can hear me." (1 # 10) 10;
     mret true)
    (fun _ => mret false).

End Connection.

(** ** Field validators ([app/schemas/interaction_schema.py])

    A validator returns the value, or raises the [ValueError] the schema
    library turns into a rejection of the request. *)

(** [InteractionBase.validate_hcp_name] *)
Definition validate_hcp_name (v : string) : exc string :=
  if negb (truthy (VStr v)) || (Str.len (Str.strip v) =? 0)
  then Raise "HCP name cannot be empty" else Ok v.

(** [InteractionUpdate.validate_hcp_name]: the field is optional. *)
Definition validate_hcp_name_update (v : option string) : exc (option string) :=
  match v with
  | Some name =>
      if Str.len (Str.strip name) =? 0 then Raise "HCP name cannot be empty" else Ok v
  | None => Ok v
  end.

(** [ChatRequest.validate_message] *)
Definition validate_message (v : string) : exc string :=
  if negb (truthy (VStr v)) || (Str.len (Str.strip v) =? 0)
  then Raise "Message cannot be empty" else Ok v.

(** ** The stored interaction ([app/models/interaction.py])

    A date or a timestamp is represented by the text [str] and
    [isoformat] give for it; a JSON column holds a [value], null when the
    column is empty. *)

Inductive SentimentEnum : Type := POSITIVE | NEGATIVE | NEUTRAL.

Definition sentiment_value (s : SentimentEnum) : string :=
  match s with
  | POSITIVE => "Positive"
  | NEGATIVE => "Negative"
  | NEUTRAL => "Neutral"
  end.

Module Interaction.

Record t : Type := mk {
  id : Z;
  hcp_name : string;
  date : option string;
  sentiment : option SentimentEnum;
  materials_shared : value;
  discussion_summary : option string;
  products_discussed : value;
  follow_up_date : option string;
  key_insights : option string;
  created_at : option string;
  updated_at : option string
}.

(** [x if x else None] on an optional text. *)
Definition text_or_null (x : option string) : value :=
  match x with Some s => VStr s | None => VNull end.

(** [x or []] *)
Definition or_list (x : value) : value := if truthy x then x else VList [].

(** [Interaction.to_dict] *)
Definition to_dict (self : t) : dict :=
  dict_of
    [ ("id", VNum (id self));
      ("hcp_name", VStr (hcp_name self));
      ("date", text_or_null (date self));
      ("sentiment", match sentiment self with
                    | Some s => VStr (sentiment_value s)
                    | None => VNull
                    end);
      ("materials_shared", or_list (materials_shared self));
      ("discussion_summary", text_or_null (discussion_summary self));
      ("products_discussed", or_list (products_discussed self));
      ("follow_up_date", text_or_null (follow_up_date self));
      ("key_insights", text_or_null (key_insights self));
      ("created_at", text_or_null (created_at self));
      ("updated_at", text_or_null (updated_at self)) ].

End Interaction.

(** ** The chat route ([app/routes/chat.py]) *)

(** What an endpoint does: it returns a body, or raises [HTTPException]. *)
Inductive http (A : Type) : Type :=
  | Returns (body : A)
  | HTTPException (status_code : Z) (detail : string).
Arguments Returns {A} body.
Arguments HTTPException {A} status_code detail.

Record ChatRequest : Type := mkChatRequest {
  request_message : string;
  request_interaction_id : option Z
}.

Record ChatResponse : Type := mkChatResponse {
  response_form_data : dict;
  response_chat_response : string;
  response_interaction_id : option Z
}.

(** [if request.interaction_id]: an identifier that is given and not 0. *)
Definition given_id (interaction_id : option Z) : option Z :=
  match interaction_id with
  | Some i => if i =? 0 then None else Some i
  | None => None
  end.

Section Chat.
Context `{Env}.

(** The record the agent starts from: none without an identifier, the row
    of the identifier as a dictionary, or status 404 when there is no such
    row.  The table of interactions is a finite map from the primary key
    to the row; the session is only read. *)
Definition load_current (chat_request : ChatRequest) (db : gmap Z Interaction.t)
  : http (option dict) :=
  match given_id (request_interaction_id chat_request) with
  | Some i =>
      match db !! i with
      | None => HTTPException 404 "Interaction not found"
      | Some interaction => Returns (Some (Interaction.to_dict interaction))
      end
  | None => Returns None
  end.

(** [chat_endpoint].  The handler for exceptions other than
    [HTTPException] turns them into status 500. *)
Definition chat_endpoint (chat_request : ChatRequest) (db : gmap Z Interaction.t)
  : list request -> http ChatResponse * list request :=
  fun log =>
    match load_current chat_request db with
    | HTTPException status_code detail => (HTTPException status_code detail, log)
    | Returns current_form_data =>
        match process (request_message chat_request) current_form_data log with
        | (Ok result, log') =>
            if negb (reply_success result) then
              (HTTPException 500 ("Agent processing failed: "
                                  +:+ reply_chat_response result), log')
            else
              (Returns (mkChatResponse (reply_form_data result)
                                       (reply_chat_response result)
                                       (request_interaction_id chat_request)), log')
        | (Raise e, log') => (HTTPException 500 e, log')
        end
    end.

End Chat.

(** ** Sentiment of a saved interaction ([app/routes/chat.py])

    The conversion of the sentiment text of a request to the enumeration
    of the model, as [create_interaction] and [update_interaction] do
    it. *)
Section Sentiment.
Context `{Env}.

Definition create_sentiment (sentiment : string) : SentimentEnum :=
  if String.eqb (str_lower sentiment) "negative" then NEGATIVE
  else if String.eqb (str_lower sentiment) "neutral" then NEUTRAL
  else POSITIVE.

(** What [update_interaction] stores for the field [sentiment]: the
    enumeration for a text that is not empty, and the value as it is,
    without any conversion, when it is null or the empty text. *)
Definition update_sentiment (value : option string) : SentimentEnum + option string :=
  match value with
  | Some text =>
      if truthy (VStr text) then
        inl (if String.eqb (str_lower text) "positive" then POSITIVE
             else if String.eqb (str_lower text) "negative" then NEGATIVE
             else NEUTRAL)
      else inr value
  | None => inr value
  end.

End Sentiment.

(** ** Bookkeeping for the statements *)

(** A computation that, from any log, returns the log extended by at most
    [n] requests. *)
Definition sends_at_most {A : Type} (n : nat) (m : Gw A) : Prop :=
  forall log, exists sent, (m log).2 = log ++ sent /\ (length sent <= n)%nat.

(** The labels of the edge table of the graph. *)
Definition intent_labels : list string :=
  ["log"; "edit"; "schedule"; "insights"; "validate"].

(** The fields of the record the log node builds. *)
Definition record_fields : list string :=
  [ "hcp_name"; "date"; "sentiment"; "materials_shared"; "discussion_summary";
    "products_discussed"; "follow_up_date"; "key_insights" ].

(** The record of an interaction about which nothing is known. *)
Definition blank_record `{Env} : dict :=
  dict_of [ ("hcp_name", VNull); ("date", VStr today); ("sentiment", VStr "Neutral");
            ("materials_shared", VList []); ("discussion_summary", VNull);
            ("products_discussed", VList []); ("follow_up_date", VNull);
            ("key_insights", VNull) ].

(** ** Example data for the added statements *)

(** A record with a product that is a number. *)
Definition ill_typed_record : dict :=
  {[ "hcp_name" := VStr "Dr. A"; "products_discussed" := VList [VNum 5] ]}.

(** An extraction whose list of materials holds a number. *)
Definition ill_typed_text : string :=
  "{" +:+ Str.quoted "hcp_name" +:+ ": " +:+ Str.quoted "Dr. A" +:+ ", "
  +:+ Str.quoted "materials_shared" +:+ ": [3]}".

Definition ill_typed_json : dict :=
  {[ "hcp_name" := VStr "Dr. A"; "materials_shared" := VList [VNum 3] ]}.

(* ===================================================================== *)
(** * Facts about the string methods *)
(* ===================================================================== *)

Example split_fences :
  Str.split "```" "a```b```c" = ["a"; "b"; "c"].
Proof. reflexivity. Qed.

Example split_trailing : Str.split "```" "```json{}```" = [EmptyString; "json{}"; EmptyString].
Proof. reflexivity. Qed.

Example strip_mixed :
  Str.strip (" " +:+ Str.nl +:+ Str.of_bytes [194; 160]%nat +:+ "Dr. A " +:+ Str.of_bytes [226; 128; 137]%nat) = "Dr. A".
Proof. reflexivity. Qed.

Example find_examples :
  Str.find "{" "ab{c}d}" = 2 /\ Str.rfind "}" "ab{c}d}" = 6 /\ Str.find "x" "abc" = -1
  /\ Str.slice "ab{c}d}" 2 7 = "{c}d}" /\ Str.find_from "```" "```json x```" 7 = 9.
Proof. repeat split; reflexivity. Qed.

Example title_examples :
  Demo.title "dr smith" = "Dr Smith" /\ Demo.title "xyz" = "Xyz" /\ Demo.lower "Schedule" = "schedule".
Proof. repeat split; reflexivity. Qed.

Lemma append_cons (c : Ascii.ascii) (s t : string) :
  String c s +:+ t = String c (s +:+ t).
Proof. reflexivity. Qed.

Lemma length_append (s t : string) :
  String.length (s +:+ t) = (String.length s + String.length t)%nat.
Proof. induction s as [|c s IH]; [reflexivity|]. rewrite append_cons. simpl. by rewrite IH. Qed.

Lemma startswith_app (s t : string) : Str.startswith s (s +:+ t) = true.
Proof.
  induction s as [|c s IH]; [reflexivity|].
  rewrite append_cons. simpl. rewrite Ascii.eqb_refl. exact IH.
Qed.

Lemma startswith_refl (s : string) : Str.startswith s s = true.
Proof.
  induction s as [|c s IH]; [reflexivity|].
  simpl. rewrite Ascii.eqb_refl. exact IH.
Qed.

(** A text occurs in whatever is put in front of it. *)
Lemma contains_app_r (p s : string) : Str.contains s (p +:+ s) = true.
Proof.
  unfold Str.contains.
  induction p as [|c p IH].
  - change (EmptyString +:+ s) with s.
    destruct s; simpl; [reflexivity|].
    rewrite Ascii.eqb_refl, startswith_refl. reflexivity.
  - rewrite append_cons.
    destruct s as [|a s]; [reflexivity|].
    cbn [Str.index_of].
    destruct (Str.startswith (String a s) (String c (p +:+ String a s))); [reflexivity|].
    destruct (Str.index_of (String a s) (p +:+ String a s)); [reflexivity|discriminate].
Qed.

Lemma startswith_app_l (p q s : string) :
  Str.startswith (p +:+ q) s = true -> Str.startswith p s = true.
Proof.
  revert s. induction p as [|c p IH]; intros s; [reflexivity|].
  rewrite append_cons. destruct s as [|b s]; simpl; [done|].
  destruct (Ascii.eqb c b); [apply IH|done].
Qed.

Lemma contains_app_l (p q s : string) :
  Str.contains p s = false -> Str.contains (p +:+ q) s = false.
Proof.
  unfold Str.contains. induction s as [|c s IH].
  - cbn [Str.index_of].
    destruct (Str.startswith p EmptyString) eqn:Hp; [done|].
    destruct (Str.startswith (p +:+ q) EmptyString) eqn:Hpq; [|done].
    apply startswith_app_l in Hpq. congruence.
  - cbn [Str.index_of].
    destruct (Str.startswith p (String c s)) eqn:Hp; [done|].
    destruct (Str.startswith (p +:+ q) (String c s)) eqn:Hpq.
    { apply startswith_app_l in Hpq. congruence. }
    destruct (Str.index_of p s); [done|].
    intros _. specialize (IH eq_refl).
    by destruct (Str.index_of (p +:+ q) s).
Qed.

Lemma split_no_separator (sep s cur : string) :
  Str.contains sep s = false ->
  Str.split_go sep s O cur = [Str.rev (Str.rev_onto s cur)].
Proof.
  unfold Str.contains. revert cur. induction s as [|c s IH]; intros cur; [done|].
  cbn [Str.index_of Str.split_go Str.rev_onto].
  destruct (Str.startswith sep (String c s)); [done|].
  destruct (Str.index_of sep s) eqn:Hs; [done|].
  intros _. by apply IH.
Qed.

Lemma strip_one_whitespace (t rest : string) :
  t ∈ Str.whitespace -> Str.strip_one Str.whitespace (t +:+ rest) = Some rest.
Proof.
  intros Hin. unfold Str.whitespace in Hin. cbn in Hin.
  repeat (apply elem_of_cons in Hin as [-> | Hin]; [reflexivity|]).
  by apply elem_of_nil in Hin.
Qed.

Lemma whitespace_nonempty (t : string) :
  t ∈ Str.whitespace -> (1 <= String.length t)%nat.
Proof.
  intros Hin. unfold Str.whitespace in Hin. cbn in Hin.
  repeat (apply elem_of_cons in Hin as [-> | Hin]; [cbn; lia|]).
  by apply elem_of_nil in Hin.
Qed.

Lemma lstrip_go_whitespace (ts : list string) (fuel : nat) :
  Forall (fun t => t ∈ Str.whitespace) ts ->
  (length ts <= fuel)%nat ->
  Str.lstrip_go Str.whitespace fuel (fold_right String.app EmptyString ts) = EmptyString.
Proof.
  intros Hall. revert fuel.
  induction Hall as [|t ts Ht _ IH]; intros fuel Hfuel.
  - destruct fuel; reflexivity.
  - destruct fuel as [|fuel]; [simpl in Hfuel; lia|].
    cbn [fold_right Str.lstrip_go].
    rewrite strip_one_whitespace by exact Ht.
    apply IH. simpl in Hfuel. lia.
Qed.

Lemma whitespace_length (ts : list string) :
  Forall (fun t => t ∈ Str.whitespace) ts ->
  (length ts <= String.length (fold_right String.app EmptyString ts))%nat.
Proof.
  induction 1 as [|t ts Ht _ IH]; [simpl; lia|].
  cbn [fold_right length]. rewrite length_append.
  pose proof (whitespace_nonempty t Ht). lia.
Qed.

(** Stripping a text of whitespace characters leaves nothing. *)
Lemma strip_whitespace_only (s : string) :
  Str.whitespace_only s -> Str.strip s = EmptyString.
Proof.
  intros (ts & Hall & ->).
  unfold Str.strip, Str.lstrip.
  rewrite lstrip_go_whitespace; [reflexivity | exact Hall | by apply whitespace_length].
Qed.

(* ===================================================================== *)
(** * Intent classifier *)
(* ===================================================================== *)

Section Classifier.
Context `{Env}.

Lemma normalize_intent_table (s : string) (flag : bool) :
  normalize_intent s flag
  = default (if flag then "edit" else "log") (first_match keyword_table s).
Proof.
  unfold normalize_intent. cbn [first_match keyword_table existsb].
  repeat match goal with
         | |- context [Str.contains ?kw s] =>
             destruct (Str.contains kw s); cbn [orb default]; try reflexivity
         end.
Qed.

Lemma no_keyword_no_match (s : string) :
  (forall kw, kw ∈ intent_keywords -> Str.contains kw s = false) ->
  first_match keyword_table s = None.
Proof.
  intros Hno. cbn [first_match keyword_table existsb].
  rewrite !Hno by (unfold intent_keywords; cbn; repeat constructor).
  reflexivity.
Qed.



End Classifier.

(* ===================================================================== *)
(** * Response formatter *)
(* ===================================================================== *)

Section Formatter.
Context `{Env}.

(** C6. When the error field of the context is non-empty the formatter
    returns the context with its reply text set to the apology followed
    by the error text, whatever the intent, the merged record and the
    handler output are; nothing else of the context changes.  An error
    that is a text appears in the reply as it is. *)
Theorem formatter_error_precedence (st : AgentState) :
  truthy (error st) = true ->
  exists st' : AgentState,
    _formatter_node st = Ok st'
    /\ chat_response st' = apology +:+ fmt (error st)
    /\ (forall e, error st = VStr e ->
                  chat_response st' = "❌ Sorry, I encountered an error: " +:+ e)
    /\ Str.startswith apology (chat_response st') = true
    /\ Str.contains (fmt (error st)) (chat_response st') = true
    /\ (user_input st', current_form_data st', form_data st', tool_results st',
        intent st', error st')
       = (user_input st, current_form_data st, form_data st, tool_results st,
          intent st, error st).
Proof.
  intros Herr. unfold _formatter_node. rewrite Herr.
  eexists. split; [reflexivity|]. cbn [chat_response set_chat_response].
  split; [reflexivity|]. split; [by intros e ->|].
  split; [apply startswith_app|]. split; [apply contains_app_r | reflexivity].
Qed.

End Formatter.

Lemma formatter_error_precedence_witness :
  let st := mkState "hello" Demo.dr_a ∅ ∅ "log" EmptyString (VStr "boom") in
  exists st' : AgentState,
    _formatter_node (H := Demo.env Demo.offline []) st = Ok st'
    /\ chat_response st' = "❌ Sorry, I encountered an error: boom".
Proof.
  intros st.
  destruct (formatter_error_precedence (H := Demo.env Demo.offline []) st eq_refl)
    as (st' & Hrun & _ & Htext & _).
  exists st'. split; [exact Hrun | exact (Htext "boom" eq_refl)].
Defined.

(* ===================================================================== *)
(** * Validate handler *)
(* ===================================================================== *)

Section Validate.
Context `{Env}.

(** C7. For an empty or whitespace-only name [validate_hcp] returns the
    structured failure, with [success] false and [requires_verification]
    true, and sends nothing to the completion gateway: the log of
    requests is returned as it was. *)
Theorem validate_empty_name (name : string) (log : list request) :
  name = EmptyString \/ Str.whitespace_only name ->
  validate_hcp (VStr name) log = (Ok empty_name_result, log)
  /\ empty_name_result !! "success" = Some (VBool false)
  /\ empty_name_result !! "requires_verification" = Some (VBool true).
Proof.
  intros Hname. split; [|split; reflexivity].
  unfold validate_hcp.
  destruct (truthy (VStr name)) eqn:Htruthy; [|reflexivity].
  cbn [negb].
  assert (Str.strip name = EmptyString) as ->.
  { destruct Hname as [-> | Hws]; [reflexivity | by apply strip_whitespace_only]. }
  reflexivity.
Qed.

End Validate.

Lemma validate_empty_name_witness :
  validate_hcp (H := Demo.env Demo.offline []) (VStr (" " +:+ Str.nl)) []
  = (Ok empty_name_result, []).
Proof.
  refine (proj1 (validate_empty_name (H := Demo.env Demo.offline []) (" " +:+ Str.nl) [] _)).
  right. exists [" "; Str.nl]. split; [|reflexivity].
  repeat constructor.
Defined.

(* ===================================================================== *)
(** * Dictionary helpers *)
(* ===================================================================== *)

Lemma get_insert_ne (d : dict) (k k' : string) (x : value) :
  k ≠ k' -> get (<[k := x]> d) k' = get d k'.
Proof. intros Hne. unfold get. by rewrite lookup_insert_ne. Qed.

Lemma lookup_default_falsy_ne (d : dict) (k k' : string) (x : value) :
  k ≠ k' -> default_falsy k x d !! k' = d !! k'.
Proof.
  intros Hne. unfold default_falsy.
  destruct (truthy (get d k)); [reflexivity|]. by rewrite lookup_insert_ne.
Qed.

Lemma get_default_falsy_ne (d : dict) (k k' : string) (x : value) :
  k ≠ k' -> get (default_falsy k x d) k' = get d k'.
Proof. intros Hne. unfold get. by rewrite lookup_default_falsy_ne. Qed.

Lemma lookup_default_falsy_eq (d : dict) (k : string) (x : value) :
  truthy (get d k) = false -> default_falsy k x d !! k = Some x.
Proof. intros Hf. unfold default_falsy. rewrite Hf. apply lookup_insert_eq. Qed.

Lemma lookup_default_missing_ne (d : dict) (k k' : string) (x : value) :
  k ≠ k' -> default_missing k x d !! k' = d !! k'.
Proof.
  intros Hne. unfold default_missing.
  destruct (d !! k); [reflexivity|]. by rewrite lookup_insert_ne.
Qed.

Lemma get_default_missing_ne (d : dict) (k k' : string) (x : value) :
  k ≠ k' -> get (default_missing k x d) k' = get d k'.
Proof. intros Hne. unfold get. by rewrite lookup_default_missing_ne. Qed.

Lemma truthy_dict_false (d : dict) : truthy (VDict d) = false -> d = ∅.
Proof.
  simpl. intros Hsize. apply map_size_empty_iff.
  destruct (size d); [reflexivity|discriminate].
Qed.

(** Lookups and [get]s through the defaulting steps, at distinct keys. *)
Ltac skip_defaults :=
  repeat first
    [ rewrite lookup_default_falsy_ne by discriminate
    | rewrite lookup_default_missing_ne by discriminate
    | rewrite get_default_falsy_ne by discriminate
    | rewrite get_default_missing_ne by discriminate
    | rewrite get_insert_ne by discriminate
    | rewrite lookup_insert_ne by discriminate ].

(** Unfolding of the monadic plumbing. *)
Ltac gw_unfold := unfold try_except, mbind, gw_bind, exc_bind, lift, mret, gw_ret, exc_ret.

(* ===================================================================== *)
(** * Insights handler *)
(* ===================================================================== *)

Section Insights.
Context `{Env}.

(** C8, as the code has it.  When the extraction is a JSON object
    without a [priority_level], [extract_insights] derives the priority
    from the sentiment of the record (Positive gives High, Negative gives
    Low, anything else Medium); an object without [recommended_actions]
    gets the single generic action, and missing [opportunities] and
    [concerns] become empty lists; what the object does give is kept.
    When the extraction is not a JSON object, or the gateway fails, the
    handler reports a failure: the priority is Medium whatever the
    sentiment, and the three lists are empty. *)
Theorem insights_defaults
    (interaction_data : dict) (prompt : string) (log : list request) :
  let sentiment := get_or interaction_data "sentiment" (VStr "Neutral") in
  let asked := Request prompt (3 # 10) 1024 in
  insights_prompt interaction_data = Ok prompt ->
  exists result : dict,
    extract_insights interaction_data log = (Ok result, log ++ [asked])
    /\ match (extract_json prompt (3 # 10) log).1 with
       | Ok (VDict extraction) =>
           result !! "success" = Some (VBool true)
           /\ (truthy (get extraction "priority_level") = false ->
               (sentiment = VStr "Positive" ->
                result !! "priority_level" = Some (VStr "High"))
               /\ (sentiment = VStr "Negative" ->
                   result !! "priority_level" = Some (VStr "Low"))
               /\ (sentiment ≠ VStr "Positive" -> sentiment ≠ VStr "Negative" ->
                   result !! "priority_level" = Some (VStr "Medium")))
           /\ (truthy (get extraction "recommended_actions") = false ->
               result !! "recommended_actions" = Some (VList [VStr "Follow up with HCP"]))
           /\ (truthy (get extraction "opportunities") = false ->
               result !! "opportunities" = Some (VList []))
           /\ (truthy (get extraction "concerns") = false ->
               result !! "concerns" = Some (VList []))
           /\ (forall k, k ∈ ["priority_level"; "recommended_actions"; "opportunities";
                              "concerns"] ->
                         truthy (get extraction k) = true ->
                         result !! k = extraction !! k)
       | Ok _ | Raise _ =>
           result !! "success" = Some (VBool false)
           /\ truthy (get result "error") = true
           /\ result !! "priority_level" = Some (VStr "Medium")
           /\ result !! "recommended_actions" = Some (VList [])
           /\ result !! "opportunities" = Some (VList [])
           /\ result !! "concerns" = Some (VList [])
       end.
Proof.
  intros sentiment asked Hprompt.
  unfold extract_insights. fold sentiment.
  gw_unfold. rewrite Hprompt.
  unfold extract_json, call_llm. gw_unfold. fold asked.
  destruct (provider asked) as [response|e]; cbn [fst].
  2:{ eexists. split; [reflexivity|]. repeat split. }
  destruct (parse_response response) as [| | | | |extraction]; cbn [setitem];
    try (eexists; split; [reflexivity|]; by repeat split).
  eexists. split; [reflexivity|].
  assert (forall p, truthy (get extraction "priority_level") = false ->
            default_falsy "priority_level" p
              (default_falsy "recommended_actions" (VList [VStr "Follow up with HCP"])
                 (default_falsy "concerns" (VList [])
                    (default_falsy "opportunities" (VList [])
                       (<["success" := VBool true]> extraction)))) !! "priority_level"
            = Some p) as Hset.
  { intros p Hpriority. apply lookup_default_falsy_eq. skip_defaults. exact Hpriority. }
  split; [skip_defaults; apply lookup_insert_eq|].
  split; [intros Hpriority; repeat split|].
  - intros Hs. rewrite Hset, Hs by done. reflexivity.
  - intros Hs. rewrite Hset, Hs by done. reflexivity.
  - intros Hpos Hneg. rewrite Hset by done. do 2 f_equal.
    unfold priority_of_sentiment. destruct sentiment as [| | |s| |]; try reflexivity.
    destruct (String.eqb_spec s "Positive") as [->|_]; [done|].
    destruct (String.eqb_spec s "Negative") as [->|_]; [done|]. reflexivity.
  - split; [|split; [|split]].
    + intros Hfalsy. skip_defaults.
      apply lookup_default_falsy_eq. skip_defaults. exact Hfalsy.
    + intros Hfalsy. skip_defaults.
      apply lookup_default_falsy_eq. skip_defaults. exact Hfalsy.
    + intros Hfalsy. skip_defaults.
      apply lookup_default_falsy_eq. skip_defaults. exact Hfalsy.
    + intros k Hk Htruthy.
      assert (forall (d : dict) x, truthy (get d k) = true -> default_falsy k x d = d)
        as Hid by (intros d x Hd; unfold default_falsy; by rewrite Hd).
      repeat (apply elem_of_cons in Hk as [-> | Hk];
              [skip_defaults; rewrite Hid by (skip_defaults; exact Htruthy);
               by skip_defaults|]).
      by apply elem_of_nil in Hk.
Qed.

End Insights.

Lemma insights_defaults_witness :
  let E := Demo.env (Demo.answers "insights" "{}") [("{}", VDict ∅)] in
  let record : dict := {[ "hcp_name" := VStr "Dr. A"; "sentiment" := VStr "Negative" ]} in
  exists (result : dict) (log' : list request),
    extract_insights (H := E) record [] = (Ok result, log')
    /\ result !! "priority_level" = Some (VStr "Low")
    /\ result !! "recommended_actions" = Some (VList [VStr "Follow up with HCP"]).
Proof.
  intros E record.
  pose (prompt := match insights_prompt (H := E) record with Ok p => p | Raise _ => EmptyString end).
  destruct (insights_defaults (H := E) record prompt [] ltac:(vm_compute; reflexivity))
    as (result & Hrun & Hcases).
  assert (extract_json (H := E) prompt (3 # 10) []
          = (Ok (VDict ∅), [Request prompt (3 # 10) 1024])) as Hextract
    by (vm_compute; reflexivity).
  rewrite Hextract in Hcases. cbn [fst] in Hcases.
  destruct Hcases as (_ & Hpriority & Hactions & _).
  exists result, [Request prompt (3 # 10) 1024].
  split; [exact Hrun|].
  split; [apply (proj1 (proj2 (Hpriority eq_refl))); reflexivity | apply Hactions; reflexivity].
Defined.

(** C8 as stated fails when the extraction is not a JSON object.  The
    provider answers [null] to the insights request for a record whose
    sentiment is Positive: the extraction yields no [priority_level], yet
    the priority of the result is Medium, not High, and there is no
    recommended action. *)
Lemma insights_extraction_not_an_object :
  let E := Demo.env (Demo.answers "insights" "null") [("null", VNull)] in
  let record : dict := {[ "hcp_name" := VStr "Dr. A"; "sentiment" := VStr "Positive" ]} in
  match insights_prompt (H := E) record with
  | Ok prompt => (extract_json (H := E) prompt (3 # 10) []).1 = Ok VNull
  | Raise _ => False
  end
  /\ match (extract_insights (H := E) record []).1 with
     | Ok result =>
         result !! "priority_level" = Some (VStr "Medium")
         /\ result !! "priority_level" ≠ Some (VStr "High")
         /\ result !! "recommended_actions" = Some (VList [])
     | Raise _ => False
     end.
Proof.
  intros E record. vm_compute. split; [reflexivity|].
  split; [reflexivity|]. split; [discriminate | reflexivity].
Qed.



(* ===================================================================== *)
(** * Router: the flag for an existing record *)
(* ===================================================================== *)

#[local] Arguments router_prompt : simpl never.
#[local] Arguments edit_prompt : simpl never.

Section Router.
Context `{Env}.

Lemma has_existing_data_true (current : dict) :
  has_existing_data current = true ->
  exists v, current !! "hcp_name" = Some v /\ v ≠ VNull /\ v ≠ VStr EmptyString.
Proof.
  unfold has_existing_data, get. intros [_ Hname]%andb_true_iff.
  destruct (current !! "hcp_name") as [v|]; [|discriminate].
  exists v. split; [reflexivity|]. split; intros ->; discriminate.
Qed.

Lemma has_existing_data_false (current : dict) :
  current !! "hcp_name" = None \/ current !! "hcp_name" = Some VNull
  \/ current !! "hcp_name" = Some (VStr EmptyString) ->
  has_existing_data current = false.
Proof.
  unfold has_existing_data, get.
  intros [-> | [-> | ->]]; apply andb_false_r.
Qed.

(** C9. The flag for an existing record is true only when the current
    record holds a non-empty [hcp_name].  For a record whose [hcp_name]
    is absent, null or empty, whatever its other fields, the prompt of
    the classifier is built with the flag off, and an answer without any
    intent keyword is classified [log]: the router returns the context
    with the intent [log], the error and everything else as it was. *)
Theorem router_flag_needs_hcp_name (st : AgentState) (response : string)
    (log : list request) :
  let current := current_form_data st in
  let asked := Request (router_prompt (user_input st) false) (1 # 10) 20 in
  (has_existing_data current = true ->
   exists v, current !! "hcp_name" = Some v /\ v ≠ VNull /\ v ≠ VStr EmptyString)
  /\ (current !! "hcp_name" = None \/ current !! "hcp_name" = Some VNull
      \/ current !! "hcp_name" = Some (VStr EmptyString) ->
      provider asked = Ok response ->
      (forall kw, kw ∈ intent_keywords ->
                  Str.contains kw (str_lower (Str.strip response)) = false) ->
      has_existing_data current = false
      /\ classify response (has_existing_data current) = "log"
      /\ exists st' : AgentState,
           _router_node st log = (Ok st', log ++ [asked])
           /\ intent st' = "log"
           /\ _route_to_tool st' = "log"
           /\ (user_input st', current_form_data st', form_data st', tool_results st',
               chat_response st', error st')
              = (user_input st, current_form_data st, form_data st, tool_results st,
                 chat_response st, error st)).
Proof.
  intros current asked. split; [apply has_existing_data_true|].
  intros Hname Hanswer Hno.
  pose proof (has_existing_data_false current Hname) as Hflag.
  assert (classify response false = "log") as Hlog.
  { unfold classify. by rewrite normalize_intent_table, (no_keyword_no_match _ Hno). }
  split; [exact Hflag|]. rewrite Hflag. split; [exact Hlog|].
  unfold _router_node. fold current. rewrite Hflag.
  gw_unfold. unfold call_llm. fold asked. rewrite Hanswer, Hlog.
  eexists. split; [reflexivity|]. by repeat split.
Qed.

End Router.

Lemma router_flag_needs_hcp_name_witness :
  let E := Demo.env (Demo.answers "Hmm, not sure." "{}") [] in
  let record : dict := {[ "hcp_name" := VNull; "sentiment" := VStr "Positive" ]} in
  let st := initial_state "It went well" (Some record) in
  exists (st' : AgentState) (log' : list request),
    _router_node (H := E) st [] = (Ok st', log') /\ intent st' = "log".
Proof.
  intros E record st.
  destruct (proj2 (router_flag_needs_hcp_name (H := E) st "Hmm, not sure." []))
    as (_ & _ & st' & Hrun & Hintent & _).
  - right; left. reflexivity.
  - reflexivity.
  - intros kw Hkw; unfold intent_keywords in Hkw; cbn in Hkw;
      repeat (apply elem_of_cons in Hkw as [-> | Hkw]; [reflexivity|]);
      by apply elem_of_nil in Hkw.
  - exists st'. eexists. split; [exact Hrun | exact Hintent].
Defined.

(* ===================================================================== *)
(** * Edit handler: field-level overlay *)
(* ===================================================================== *)

Lemma has_error_item (items : list value) :
  existsb (fun x => match x with
                    | VStr s => String.eqb s "error"
                    | _ => false
                    end) items = true
  <-> VStr "error" ∈ items.
Proof.
  induction items as [|x items IH]; cbn [existsb].
  - split; [discriminate | by intros ?%elem_of_nil].
  - rewrite orb_true_iff, IH, elem_of_cons. split.
    + intros [Hx | Hin]; [left | by right].
      destruct x as [| | |s| |]; try discriminate.
      by apply String.eqb_eq in Hx as ->.
    + intros [<- | Hin]; [left; reflexivity | by right].
Qed.

Section Edit.
Context `{Env}.

Lemma edit_interaction_dict (current : dict) (user_message : string)
    (changes : dict) (log log' : list request) :
  extract_json (edit_prompt current user_message) (1 # 10) log
    = (Ok (VDict changes), log') ->
  edit_interaction current user_message log
    = (Ok (<["success" := VBool true]> (effective_changes changes ∪ current)), log').
Proof.
  intros Hextract. unfold edit_interaction, effective_changes.
  gw_unfold. rewrite Hextract. cbn [has_error_key].
  destruct (bool_decide (is_Some (changes !! "error")) || negb (truthy (VDict changes)));
    reflexivity.
Qed.

(** When the gateway fails the handler returns the record with the
    failure indicator and the message, the record's own entries kept. *)
Lemma edit_interaction_failure (current : dict) (user_message : string)
    (e : string) (log log' : list request) :
  extract_json (edit_prompt current user_message) (1 # 10) log = (Raise e, log') ->
  edit_interaction current user_message log
    = (Ok (current ∪ dict_of [("success", VBool false); ("error", VStr e)]), log').
Proof.
  intros Hextract. unfold edit_interaction. gw_unfold. rewrite Hextract. reflexivity.
Qed.

(** Whatever the gateway returns (a mapping, another JSON value, or an
    exception) the handler returns a record, and every field of the
    current record other than [success] that the extraction does not
    mention is kept. *)
Lemma edit_keeps_other_fields (current : dict) (user_message : string)
    (log : list request) :
  exists (merged : dict) (log' : list request),
    edit_interaction current user_message log = (Ok merged, log')
    /\ forall k v, k ≠ "success" -> current !! k = Some v ->
         (forall changes,
            (extract_json (edit_prompt current user_message) (1 # 10) log).1
              = Ok (VDict changes) -> changes !! k = None) ->
         merged !! k = Some v.
Proof.
  unfold edit_interaction. gw_unfold.
  destruct (extract_json (edit_prompt current user_message) (1 # 10) log)
    as [[changes|e] log'].
  - destruct changes as [|b|n|s|l|d]; cbn [has_error_key overlay truthy fst];
      repeat case_match; simplify_eq/=; do 2 eexists; (split; [reflexivity|]);
      intros k x Hk Hcur Hno;
      first [ by apply lookup_union_Some_l
            | rewrite lookup_insert_ne by done;
              apply lookup_union_Some_raw; right; split; [|done];
              first [ apply lookup_empty | by apply Hno ] ].
  - do 2 eexists. split; [reflexivity|]. intros k x Hk Hcur _.
    by apply lookup_union_Some_l.
Qed.

(** C3, as the code has it.  The handler always returns a record, after
    one request, and every field of the current record other than
    [success] that the extraction does not mention is present and
    unchanged in it.  When the extraction is a JSON object the record
    carries the status key [success] set to true, the fields of an
    extraction that is not empty and has no [error] key overwrite the
    prior values, and an empty extraction or one with an [error] key gives
    back the current record with [success] set and nothing else changed;
    so does an extraction that is an empty list or text, or a list or
    text that holds [error].  For any other extraction (null, a number, a
    truth value, another list or text), and when the gateway fails, the
    handler gives back the current record with [success] false and the
    text of the exception under [error] added, the record's own entries
    under these two keys taking precedence. *)
Theorem edit_overlay (current : dict) (user_message : string) (log : list request) :
  let asked := Request (edit_prompt current user_message) (1 # 10) 1024 in
  let extraction := (extract_json (edit_prompt current user_message) (1 # 10) log).1 in
  let failure (e : string) : dict :=
    current ∪ dict_of [("success", VBool false); ("error", VStr e)] in
  exists merged : dict,
    edit_interaction current user_message log = (Ok merged, log ++ [asked])
    /\ (forall k v, k ≠ "success" -> current !! k = Some v ->
          (forall changes, extraction = Ok (VDict changes) -> changes !! k = None) ->
          merged !! k = Some v)
    /\ match extraction with
       | Ok (VDict changes) =>
           merged !! "success" = Some (VBool true)
           /\ (changes !! "error" = None ->
               forall k v, k ≠ "success" -> changes !! k = Some v -> merged !! k = Some v)
           /\ (changes = ∅ \/ is_Some (changes !! "error") ->
               merged = <["success" := VBool true]> current)
       | Ok (VList items) =>
           (items = [] \/ VStr "error" ∈ items ->
            merged = <["success" := VBool true]> current)
           /\ (items ≠ [] -> VStr "error" ∉ items ->
               exists e, truthy (VStr e) = true /\ merged = failure e)
       | Ok (VStr text) =>
           (text = EmptyString \/ Str.contains "error" text = true ->
            merged = <["success" := VBool true]> current)
           /\ (text ≠ EmptyString -> Str.contains "error" text = false ->
               exists e, truthy (VStr e) = true /\ merged = failure e)
       | Ok _ => exists e, truthy (VStr e) = true /\ merged = failure e
       | Raise e => truthy (VStr e) = true /\ merged = failure e
       end.
Proof.
  intros asked extraction failure. subst extraction.
  assert (forall e k v, k ≠ "success" -> current !! k = Some v -> failure e !! k = Some v)
    as Hkept.
  { intros e k v _ Hcur. by apply lookup_union_Some_l. }
  assert (forall k v, k ≠ "success" -> current !! k = Some v ->
                      (<["success" := VBool true]> (∅ ∪ current) : dict) !! k = Some v)
    as Hsame.
  { intros k v Hk Hcur. rewrite lookup_insert_ne by done. by rewrite (left_id_L ∅ (∪)). }
  unfold edit_interaction, extract_json, call_llm. gw_unfold. fold asked.
  destruct (provider asked) as [response|e]; cbn [fst].
  2:{ exists (failure ("LLM API call failed: " +:+ e)). split; [reflexivity|].
      split; [intros k v Hk Hcur _; by apply Hkept | split; reflexivity]. }
  destruct (parse_response response) as [|b|n|text|items|changes];
    cbn [has_error_key overlay].
  - eexists. split; [reflexivity|].
    split; [intros k v Hk Hcur _; by eapply Hkept|]. eexists. split; [|reflexivity]. reflexivity.
  - eexists. split; [reflexivity|].
    split; [intros k v Hk Hcur _; by eapply Hkept|]. eexists. split; [|reflexivity]. reflexivity.
  - eexists. split; [reflexivity|].
    split; [intros k v Hk Hcur _; by eapply Hkept|]. eexists. split; [|reflexivity]. reflexivity.
  - destruct (Str.contains "error" text) eqn:Herror; cbn [orb].
    { eexists. split; [reflexivity|]. split; [intros k v Hk Hcur _; by apply Hsame|].
      split; [intros _; by rewrite (left_id_L ∅ (∪)) | done]. }
    destruct text as [|c text]; cbn [truthy String.eqb negb].
    { eexists. split; [reflexivity|]. split; [intros k v Hk Hcur _; by apply Hsame|].
      split; [intros _; by rewrite (left_id_L ∅ (∪)) | done]. }
    eexists. split; [reflexivity|]. split; [intros k v Hk Hcur _; by eapply Hkept|].
    split; [by intros [|] | intros _ _; eexists; (split; [|reflexivity]); reflexivity].
  - destruct (existsb _ items) eqn:Herror; cbn [orb].
    { eexists. split; [reflexivity|]. split; [intros k v Hk Hcur _; by apply Hsame|].
      split; [intros _; by rewrite (left_id_L ∅ (∪))|].
      intros _ Hnot. by apply has_error_item in Herror. }
    assert (VStr "error" ∉ items) as Hnot.
    { intros Hin%has_error_item. congruence. }
    destruct items as [|x items]; cbn [truthy negb].
    { eexists. split; [reflexivity|]. split; [intros k v Hk Hcur _; by apply Hsame|].
      split; [intros _; by rewrite (left_id_L ∅ (∪)) | done]. }
    eexists. split; [reflexivity|]. split; [intros k v Hk Hcur _; by eapply Hkept|].
    split; [by intros [|] | intros _ _; eexists; (split; [|reflexivity]); reflexivity].
  - exists (<["success" := VBool true]>
              ((if bool_decide (is_Some (changes !! "error")) || negb (truthy (VDict changes))
                then ∅ else changes) ∪ current)).
    split; [by destruct (_ || _)|].
    split; [|split; [apply lookup_insert_eq|split]].
    + intros k v Hk Hcur Hno. rewrite lookup_insert_ne by done.
      apply lookup_union_Some_raw. right. split; [|exact Hcur].
      destruct (_ || _); [apply lookup_empty | by apply Hno].
    + intros Hnoerr k v Hk Hchg. rewrite lookup_insert_ne by done.
      rewrite bool_decide_eq_false_2 by (rewrite Hnoerr; apply is_Some_None).
      cbn [orb]. destruct (truthy (VDict changes)) eqn:Htruthy; cbn [negb].
      * by apply lookup_union_Some_l.
      * apply truthy_dict_false in Htruthy. subst changes. by rewrite lookup_empty in Hchg.
    + intros [-> | Herr].
      * rewrite orb_true_r. by rewrite (left_id_L ∅ (∪)).
      * rewrite bool_decide_eq_true_2 by exact Herr. cbn [orb].
        by rewrite (left_id_L ∅ (∪)).
Qed.

End Edit.

Lemma edit_overlay_witness :
  let E := Demo.env (Demo.answers "edit" negative_text) [(negative_text, VDict negative_json)] in
  exists (merged : dict) (log' : list request),
    edit_interaction (H := E) example_record "the sentiment was negative" []
      = (Ok merged, log')
    /\ merged !! "hcp_name" = Some (VStr "Dr. A")
    /\ merged !! "materials_shared" = Some (VList [VStr "x"])
    /\ merged !! "sentiment" = Some (VStr "Negative").
Proof.
  intros E.
  destruct (edit_overlay (H := E) example_record "the sentiment was negative" [])
    as (merged & Hrun & Hframe & Hcases).
  assert ((extract_json (H := E)
             (edit_prompt (H := E) example_record "the sentiment was negative")
             (1 # 10) []).1 = Ok (VDict negative_json)) as Hextract
    by (vm_compute; reflexivity).
  rewrite Hextract in Hcases, Hframe. destruct Hcases as (_ & Hover & _).
  exists merged. eexists. split; [exact Hrun|]. repeat split.
  - apply Hframe; [done | reflexivity | by intros changes [= <-]].
  - apply Hframe; [done | reflexivity | by intros changes [= <-]].
  - by apply Hover.
Defined.

(** C3 as stated fails on the last clause: with an empty extraction the
    handler does not give the current record back as it is, the result
    also holds the key [success].  Here the provider answers [{}] to the
    edit request for the record [{hcp_name: Dr. A}]. *)
Lemma edit_empty_extraction_not_as_is :
  let E := Demo.env (Demo.answers "edit" "{}") [("{}", VDict ∅)] in
  let asked := [Request (edit_prompt (H := E) Demo.dr_a "no changes") (1 # 10) 1024] in
  extract_json (H := E) (edit_prompt (H := E) Demo.dr_a "no changes") (1 # 10) []
    = (Ok (VDict ∅), asked)
  /\ edit_interaction (H := E) Demo.dr_a "no changes" []
     = (Ok ({[ "hcp_name" := VStr "Dr. A"; "success" := VBool true ]} : dict), asked)
  /\ ({[ "hcp_name" := VStr "Dr. A"; "success" := VBool true ]} : dict) ≠ Demo.dr_a.
Proof.
  intros E asked. split; [vm_compute; reflexivity|]. split; [vm_compute; reflexivity|].
  intros Heq. apply (f_equal (fun d : dict => d !! "success")) in Heq.
  vm_compute in Heq. discriminate.
Qed.

(** A second way in which C3 as stated fails: an extraction that is not a
    JSON object.  The provider answers [null] to the edit request. *)
Example edit_null_extraction_fails :
  let E := Demo.env (Demo.answers "edit" "null") [("null", VNull)] in
  match (edit_interaction (H := E) Demo.dr_a "no changes" []).1 with
  | Ok merged =>
      merged !! "hcp_name" = Some (VStr "Dr. A")
      /\ merged !! "success" = Some (VBool false)
      /\ is_Some (merged !! "error")
  | Raise _ => False
  end.
Proof. intros E. vm_compute. repeat split. by eexists. Qed.

(* ===================================================================== *)
(** * Gateway: the parse fallback chain *)
(* ===================================================================== *)

Section Chain.
Context `{Env}.

(** After a completed request [extract_json] returns: it does not
    raise on any response text. *)
Lemma extract_json_returns (prompt response : string) (temperature : Q)
    (log : list request) :
  provider (Request prompt temperature 1024) = Ok response ->
  extract_json prompt temperature log
    = (Ok (parse_response response), log ++ [Request prompt temperature 1024]).
Proof.
  intros Hanswer. unfold extract_json, call_llm. gw_unfold. by rewrite Hanswer.
Qed.

(** Step 1 wins whenever it succeeds. *)
Lemma parse_response_direct (response : string) (v : value) :
  json_loads response = Some v -> parse_response response = v.
Proof. intros Hv. unfold parse_response. by rewrite Hv. Qed.

(** The failure value keeps the response text as it was received. *)
Lemma parse_failure_raw (response : string) :
  parse_failure response
  = VDict {[ "error" := VStr "Failed to parse JSON"; "raw_response" := VStr response ]}.
Proof. reflexivity. Qed.

(** Without a closed tagged block the steps 3 and 4 follow step 1. *)
Lemma parse_response_untagged (response : string) :
  json_loads response = None -> tagged_block response = None ->
  parse_response response = parse_fences response.
Proof.
  unfold parse_response, tagged_block. intros -> Htag.
  destruct (Str.contains "```json" response); [|reflexivity].
  cbv zeta in Htag |- *.
  destruct (Str.find_from "```" response (Str.find "```json" response + 7) =? -1);
    [reflexivity|discriminate].
Qed.

(** With a closed tagged block, step 2 is final: its parse, or the
    failure value without a look at the steps 3 and 4. *)
Lemma parse_response_tagged (response body : string) :
  json_loads response = None -> tagged_block response = Some body ->
  parse_response response = default (parse_failure response) (json_loads body).
Proof.
  unfold parse_response, tagged_block. intros -> Htag.
  destruct (Str.contains "```json" response); [|discriminate].
  cbv zeta in Htag |- *.
  destruct (Str.find_from "```" response (Str.find "```json" response + 7) =? -1);
    [discriminate|].
  injection Htag as ->. cbn [negb].
  by destruct (json_loads _).
Qed.

(** On a response without a fence marker the code follows the chain of
    the specification: the direct parse, else the span from the first
    opening to the last closing brace, else the failure value. *)
Lemma parse_response_without_fence (response : string) :
  Str.contains "```" response = false ->
  parse_response response = fallback_chain response
  /\ parse_response response
     = default (parse_brace_span response) (json_loads response).
Proof.
  intros Hfence.
  pose proof (contains_app_l "```" "json" response Hfence) as Htag.
  change ("```" +:+ "json") with "```json" in Htag.
  unfold parse_response, fallback_chain, tagged_block, parse_fences, Str.split.
  rewrite Htag, Hfence, split_no_separator by exact Hfence.
  by destruct (json_loads response).
Qed.

(** So does it when the tagged block is closed and its contents parse. *)
Lemma parse_response_tagged_parses (response body : string) (v : value) :
  json_loads response = None -> tagged_block response = Some body ->
  json_loads body = Some v ->
  parse_response response = v /\ fallback_chain response = v.
Proof.
  intros Hdirect Htag Hbody. split.
  - by rewrite (parse_response_tagged _ _ Hdirect Htag), Hbody.
  - unfold fallback_chain. by rewrite Hdirect, Htag; cbn; rewrite Hbody.
Qed.

End Chain.

(** C2 on the code.  The provider wraps the object [negative_text] in a
    tagged block that starts with a comment line.  The contents of the
    block do not parse, and [extract_json] returns the failure value at
    once; the span from the first opening to the last closing brace is the
    object itself, which parses, so the chain of the specification returns
    the object.  ([json.loads] rejects the whole response and the contents
    of the block, and accepts the object.) *)
Theorem extract_json_tagged_block_gives_up :
  let E := Demo.env (Demo.answers "edit" commented_block)
                    [(negative_text, VDict negative_json)] in
  extract_json (H := E) "prompt" (1 # 10) []
    = (Ok (parse_failure commented_block), [Request "prompt" (1 # 10) 1024])
  /\ tagged_block commented_block
     = Some ("// corrected fields" +:+ Str.nl +:+ negative_text)
  /\ Str.slice commented_block (Str.find "{" commented_block)
               (Str.rfind "}" commented_block + 1) = negative_text
  /\ fallback_chain (H := E) commented_block = VDict negative_json.
Proof. intros E. repeat split; vm_compute; reflexivity. Qed.

(** The loop over the pieces of the split also reads the text outside the
    fences: here the object in front of the fence is returned, not the
    fenced one. *)
Example piece_outside_fence :
  let inside := "{" +:+ Str.quoted "sentiment" +:+ ": " +:+ Str.quoted "Positive" +:+ "}" in
  let response := negative_text +:+ "```" +:+ inside +:+ "```" in
  let E := Demo.env Demo.offline
             [ (negative_text, VDict negative_json);
               (inside, VDict {[ "sentiment" := VStr "Positive" ]}) ] in
  parse_response (H := E) response = VDict negative_json
  /\ fallback_chain (H := E) response = VDict {[ "sentiment" := VStr "Positive" ]}.
Proof. intros inside response E. split; vm_compute; reflexivity. Qed.

(* ===================================================================== *)
(** * Validate step of the pipeline *)
(* ===================================================================== *)

Section ValidateNode.
Context `{Env}.

(** The fields are merged when [success] and [is_valid] are both true. *)
Lemma validate_node_valid (st : AgentState) (result : dict) (log log' : list request) :
  validate_hcp (name_to_validate st) log = (Ok result, log') ->
  truthy (get result "success") && truthy (get result "is_valid") = true ->
  exists insights : string,
    _validate_hcp_node st log
    = (Ok (set_form_data (set_tool_results st result)
             (<["key_insights" := VStr insights]>
                (<["hcp_name" := get result "formatted_name"]> (current_form_data st)))),
       log').
Proof.
  intros Htool Hvalid. unfold _validate_hcp_node. fold (name_to_validate st).
  gw_unfold. rewrite Htool, Hvalid. eexists. reflexivity.
Qed.

(** Otherwise nothing is merged and the error of the context becomes
    the [error] entry of the result, or the fixed text when the result
    has no such entry. *)
Lemma validate_node_invalid (st : AgentState) (result : dict) (log log' : list request) :
  validate_hcp (name_to_validate st) log = (Ok result, log') ->
  truthy (get result "success") && truthy (get result "is_valid") = false ->
  _validate_hcp_node st log
  = (Ok (set_error (set_tool_results st result)
                   (get_or result "error" (VStr "Validation failed"))), log').
Proof.
  intros Htool Hinvalid. unfold _validate_hcp_node. fold (name_to_validate st).
  gw_unfold. by rewrite Htool, Hinvalid.
Qed.

End ValidateNode.

(** C10 on the code.  The classifier answers [validate] and the provider
    judges the name [xyz] not valid, with a null [error] entry.  The step
    takes its error branch and merges nothing, but the value it records as
    the error is the null entry: the formatter then takes the [validate]
    branch and [process] reports success with an empty record. *)
Theorem validate_invalid_reported_as_success :
  let E := Demo.env (Demo.answers "validate" invalid_text) [(invalid_text, VDict invalid_json)] in
  let record : dict := {[ "hcp_name" := VStr "xyz" ]} in
  exists (chat : string) (log' : list request),
    process (H := E) "Check this doctor" (Some record) []
    = (Ok (mkReply ∅ chat "validate" true), log')
    /\ Str.startswith "✓ HCP information validated!" chat = true.
Proof. intros E record. do 2 eexists. split; vm_compute; reflexivity. Qed.

(** Without an [error] entry in the answer the same request ends in the
    error branch. *)
Example validate_invalid_default_error :
  let text := "{" +:+ Str.quoted "is_valid" +:+ ": false}" in
  let E := Demo.env (Demo.answers "validate" text) [(text, VDict {[ "is_valid" := VBool false ]})] in
  let record : dict := {[ "hcp_name" := VStr "xyz" ]} in
  exists log' : list request,
    process (H := E) "Check this doctor" (Some record) []
    = (Ok (mkReply ∅ (apology +:+ "Validation failed") "validate" false), log').
Proof. intros text E record. eexists. vm_compute. reflexivity. Qed.

(* ===================================================================== *)
(** * Orchestrator *)
(* ===================================================================== *)

Section Orchestrator.
Context `{Env}.

(** [process] always returns a reply. *)
Lemma process_returns (message : string) (current : option dict) (log : list request) :
  exists (reply : Reply) (log' : list request),
    process message current log = (Ok reply, log').
Proof.
  unfold process. gw_unfold.
  destruct (invoke (initial_state message current) log) as [[final|e] log'];
    do 2 eexists; reflexivity.
Qed.

(** When the graph runs to its end, the reply reports a failure exactly
    when the error of the final context is non-empty. *)
Lemma process_reports_error (message : string) (current : option dict)
    (final : AgentState) (log log' : list request) :
  invoke (initial_state message current) log = (Ok final, log') ->
  process message current log
  = (Ok (mkReply (form_data final) (chat_response final) (intent final)
                 (negb (truthy (error final)))), log').
Proof. intros Hrun. unfold process. gw_unfold. by rewrite Hrun. Qed.

(** When a node raises, the reply is a failure that carries the record
    passed in. *)
Lemma process_exception_keeps_record (message : string) (current : option dict)
    (e : string) (log log' : list request) :
  invoke (initial_state message current) log = (Raise e, log') ->
  process message current log
  = (Ok (mkReply (or_empty current) (apology +:+ e) "error" false), log').
Proof. intros Hrun. unfold process. gw_unfold. by rewrite Hrun. Qed.

(** The edit node puts the record back when the tool reports a
    failure. *)
Lemma edit_node_failure_keeps_record (st : AgentState) (result : dict)
    (log log' : list request) :
  edit_interaction (current_form_data st) (user_input st) log = (Ok result, log') ->
  truthy (get result "success") = false ->
  exists st', _edit_interaction_node st log = (Ok st', log')
              /\ form_data st' = current_form_data st
              /\ error st' = get_or result "error" (VStr "Unknown error").
Proof.
  intros Htool Hfail. unfold _edit_interaction_node. gw_unfold.
  rewrite Htool, Hfail. eexists. repeat split.
Qed.

Ltac node_cases :=
  gw_unfold; repeat case_match; simplify_eq/=;
  do 2 eexists; (split; [reflexivity|]); (split; [reflexivity|]);
  cbn; intros; first [congruence | by left | by right].

Lemma router_node_failure (st : AgentState) (log : list request) :
  form_data st = ∅ -> truthy (error st) = false ->
  exists st' log', _router_node st log = (Ok st', log')
    /\ current_form_data st' = current_form_data st
    /\ form_data st' = form_data st
    /\ (truthy (error st') = true -> intent st' = "error").
Proof.
  intros Hform Herr. unfold _router_node, call_llm.
  gw_unfold; repeat case_match; simplify_eq/=;
  do 2 eexists; (split; [reflexivity|]); repeat split;
  cbn; intros; congruence.
Qed.

Lemma log_node_failure (st : AgentState) (log : list request) :
  form_data st = ∅ -> truthy (error st) = false ->
  exists st' log', _log_interaction_node st log = (Ok st', log')
    /\ keeps_record_on_failure st st'.
Proof. intros Hform Herr. unfold _log_interaction_node. node_cases. Qed.

Lemma edit_node_failure (st : AgentState) (log : list request) :
  form_data st = ∅ -> truthy (error st) = false ->
  exists st' log', _edit_interaction_node st log = (Ok st', log')
    /\ keeps_record_on_failure st st'.
Proof. intros Hform Herr. unfold _edit_interaction_node. node_cases. Qed.

Lemma schedule_node_failure (st : AgentState) (log : list request) :
  form_data st = ∅ -> truthy (error st) = false ->
  exists st' log', _schedule_followup_node st log = (Ok st', log')
    /\ keeps_record_on_failure st st'.
Proof. intros Hform Herr. unfold _schedule_followup_node. node_cases. Qed.

Lemma insights_node_failure (st : AgentState) (log : list request) :
  form_data st = ∅ -> truthy (error st) = false ->
  exists st' log', _extract_insights_node st log = (Ok st', log')
    /\ keeps_record_on_failure st st'.
Proof. intros Hform Herr. unfold _extract_insights_node. node_cases. Qed.

Lemma validate_node_failure (st : AgentState) (log : list request) :
  form_data st = ∅ -> truthy (error st) = false ->
  exists st' log', _validate_hcp_node st log = (Ok st', log')
    /\ keeps_record_on_failure st st'.
Proof. intros Hform Herr. unfold _validate_hcp_node. node_cases. Qed.

Lemma formatter_keeps (st st' : AgentState) :
  _formatter_node st = Ok st' ->
  form_data st' = form_data st /\ error st' = error st
  /\ current_form_data st' = current_form_data st.
Proof.
  unfold _formatter_node. gw_unfold. repeat case_match; intros; simplify_eq/=; done.
Qed.

Lemma invoke_failure_record (message : string) (current : option dict)
    (final : AgentState) (log log' : list request) :
  invoke (initial_state message current) log = (Ok final, log') ->
  truthy (error final) = true ->
  form_data final = ∅ \/ form_data final = or_empty current.
Proof.
  set (st0 := initial_state message current).
  destruct (router_node_failure st0 log eq_refl eq_refl)
    as (st1 & log1 & Hrouter & Hcur1 & Hform1 & Hintent).
  unfold invoke. gw_unfold. rewrite Hrouter. unfold _route_to_tool.
  destruct (truthy (error st1)) eqn:Herr1.
  - rewrite (Hintent eq_refl). cbn [String.eqb Ascii.eqb Bool.eqb].
    destruct (_formatter_node st1) as [st2|e] eqn:Hfmt; [|discriminate].
    intros [= <- <-] _. apply formatter_keeps in Hfmt as (-> & _ & _).
    left. exact Hform1.
  - assert (forall (node : AgentState -> Gw AgentState),
              (exists st' log', node st1 log1 = (Ok st', log')
                                /\ keeps_record_on_failure st1 st') ->
              match node st1 log1 with
              | (Ok a, l) => (_formatter_node a, l)
              | (Raise e, l) => (Raise e, l)
              end = (Ok final, log') ->
              truthy (error final) = true ->
              form_data final = ∅ \/ form_data final = or_empty current) as Hnode.
    { intros node (st2 & log2 & -> & Hcur2 & Hkeep) Hrun Hfail.
      destruct (_formatter_node st2) as [st3|e] eqn:Hfmt; [|discriminate].
      injection Hrun as <- <-. apply formatter_keeps in Hfmt as (-> & Herr & _).
      rewrite Herr in Hfail.
      destruct (Hkeep Hfail) as [Hempty | Hsame]; [by left | right; rewrite Hsame].
      by rewrite Hcur1. }
    destruct (String.eqb (intent st1) "log");
      [apply Hnode; by apply log_node_failure|].
    destruct (String.eqb (intent st1) "edit");
      [apply Hnode; by apply edit_node_failure|].
    destruct (String.eqb (intent st1) "schedule");
      [apply Hnode; by apply schedule_node_failure|].
    destruct (String.eqb (intent st1) "insights");
      [apply Hnode; by apply insights_node_failure|].
    destruct (String.eqb (intent st1) "validate");
      [apply Hnode; by apply validate_node_failure|].
    destruct (String.eqb (intent st1) "error"); [|discriminate].
    destruct (_formatter_node st1) as [st2|e] eqn:Hfmt; [|discriminate].
    intros [= <- <-] Hfail. apply formatter_keeps in Hfmt as (_ & Herr & _).
    congruence.
Qed.

(** On a failure the record of the reply is empty or the record passed
    in: no new data is reported. *)
Lemma process_failure_record (message : string) (current : option dict)
    (reply : Reply) (log log' : list request) :
  process message current log = (Ok reply, log') ->
  reply_success reply = false ->
  reply_form_data reply = ∅ \/ reply_form_data reply = or_empty current.
Proof.
  unfold process. gw_unfold.
  destruct (invoke (initial_state message current) log) as [[final|e] l] eqn:Hrun;
    intros [= <- <-]; cbn.
  - intros Hfail%negb_false_iff. by eapply invoke_failure_record.
  - by right.
Qed.

End Orchestrator.

(** C1 on the code.  The provider is unreachable, so the classifier call
    fails: the reply is a failure, and its record is empty although a
    record was passed in. *)
Theorem process_failure_drops_record :
  let E := Demo.env Demo.offline [] in
  exists log' : list request,
    process (H := E) "Schedule a follow-up next week" (Some example_record) []
    = (Ok (mkReply ∅ (apology +:+ "LLM API call failed: Connection error.") "error" false),
       log')
    /\ (∅ : dict) ≠ example_record.
Proof.
  intros E. eexists. split; [vm_compute; reflexivity|].
  intros Heq. apply (f_equal (fun d : dict => d !! "hcp_name")) in Heq.
  vm_compute in Heq. discriminate.
Qed.

(** The same loss after a handler failure: the classifier answers
    [schedule] and the handler's request returns a JSON list. *)
Example schedule_failure_drops_record :
  let E := Demo.env (Demo.answers "schedule" "[]") [("[]", VList [])] in
  exists (chat : string) (log' : list request),
    process (H := E) "Schedule a follow-up next week" (Some example_record) []
    = (Ok (mkReply ∅ chat "schedule" false), log').
Proof. intros E. do 2 eexists. vm_compute. reflexivity. Qed.

(* ===================================================================== *)
(** * Requests sent to the provider *)
(* ===================================================================== *)

#[local] Arguments log_prompt : simpl never.
#[local] Arguments schedule_prompt : simpl never.
#[local] Arguments validate_prompt : simpl never.
#[local] Arguments insights_prompt : simpl never.

Section Budget.
Context `{Env}.

Ltac budget :=
  intros log; gw_unfold; unfold extract_json, call_llm; gw_unfold;
  repeat case_match; simplify_eq/=;
  first [ by (exists []; rewrite app_nil_r; split; [reflexivity | simpl; lia])
        | by (eexists [_]; split; [reflexivity | simpl; lia]) ].

Lemma sends_mono {A : Type} (n k : nat) (m : Gw A) :
  (n <= k)%nat -> sends_at_most n m -> sends_at_most k m.
Proof. intros Hle Hm log. destruct (Hm log) as (sent & ? & ?). exists sent. split; [done|lia]. Qed.

Lemma sends_bind {A B : Type} (n k : nat) (m : Gw A) (f : A -> Gw B) :
  sends_at_most n m -> (forall a, sends_at_most k (f a)) ->
  sends_at_most (n + k) (m ≫= f).
Proof.
  intros Hm Hf log. destruct (Hm log) as (sent & Hlog & Hlen).
  gw_unfold. destruct (m log) as [[a|e] log1]; simpl in Hlog; subst log1.
  - destruct (Hf a (log ++ sent)) as (sent' & -> & Hlen').
    exists (sent ++ sent'). rewrite app_assoc, length_app. split; [done|lia].
  - exists sent. split; [done|lia].
Qed.

Lemma sends_try_except {A : Type} (n k : nat) (body : Gw A) (handler : string -> Gw A) :
  sends_at_most n body -> (forall e, sends_at_most k (handler e)) ->
  sends_at_most (n + k) (try_except body handler).
Proof.
  intros Hm Hf log. destruct (Hm log) as (sent & Hlog & Hlen).
  gw_unfold. destruct (body log) as [[a|e] log1]; simpl in Hlog; subst log1.
  - exists sent. split; [done|lia].
  - destruct (Hf e (log ++ sent)) as (sent' & -> & Hlen').
    exists (sent ++ sent'). rewrite app_assoc, length_app. split; [done|lia].
Qed.

Lemma log_interaction_budget (message : string) :
  sends_at_most 1 (log_interaction message).
Proof. unfold log_interaction. budget. Qed.

Lemma edit_interaction_budget (current : dict) (message : string) :
  sends_at_most 1 (edit_interaction current message).
Proof. unfold edit_interaction. budget. Qed.

Lemma schedule_followup_budget (name : value) (message : string) :
  sends_at_most 1 (schedule_followup name message).
Proof. unfold schedule_followup. budget. Qed.

Lemma extract_insights_budget (data : dict) :
  sends_at_most 1 (extract_insights data).
Proof. unfold extract_insights. budget. Qed.

Lemma validate_hcp_budget (name : value) :
  sends_at_most 1 (validate_hcp name).
Proof. unfold validate_hcp. budget. Qed.

Ltac node_budget tool_budget :=
  apply (sends_try_except 1 0);
    [ apply (sends_bind 1 0); [apply tool_budget | intros result; budget]
    | intros e; budget ].

Lemma log_node_budget (st : AgentState) : sends_at_most 1 (_log_interaction_node st).
Proof. unfold _log_interaction_node. node_budget log_interaction_budget. Qed.

Lemma edit_node_budget (st : AgentState) : sends_at_most 1 (_edit_interaction_node st).
Proof. unfold _edit_interaction_node. node_budget edit_interaction_budget. Qed.

Lemma schedule_node_budget (st : AgentState) : sends_at_most 1 (_schedule_followup_node st).
Proof. unfold _schedule_followup_node. node_budget schedule_followup_budget. Qed.

Lemma insights_node_budget (st : AgentState) : sends_at_most 1 (_extract_insights_node st).
Proof. unfold _extract_insights_node. node_budget extract_insights_budget. Qed.

Lemma validate_node_budget (st : AgentState) : sends_at_most 1 (_validate_hcp_node st).
Proof. unfold _validate_hcp_node. node_budget validate_hcp_budget. Qed.

(** What follows the router in the graph sends at most one request. *)
Lemma after_router_budget (st : AgentState) :
  sends_at_most 1
    (st' ← (if String.eqb (_route_to_tool st) "log" then _log_interaction_node st
            else if String.eqb (_route_to_tool st) "edit" then _edit_interaction_node st
            else if String.eqb (_route_to_tool st) "schedule" then _schedule_followup_node st
            else if String.eqb (_route_to_tool st) "insights" then _extract_insights_node st
            else if String.eqb (_route_to_tool st) "validate" then _validate_hcp_node st
            else if String.eqb (_route_to_tool st) "error" then mret st
            else lift (Raise ("unknown branch: " +:+ _route_to_tool st)));
     lift (_formatter_node st')).
Proof.
  apply (sends_bind 1 0); [|intros st'; budget].
  repeat case_match;
    first [ apply log_node_budget | apply edit_node_budget | apply schedule_node_budget
          | apply insights_node_budget | apply validate_node_budget
          | apply (sends_mono 0 1); [lia | budget] ].
Qed.

(** A run of the graph sends the classifier's request, then at most one
    more. *)
Lemma invoke_requests (message : string) (current : option dict) (log : list request) :
  exists rest : list request,
    (invoke (initial_state message current) log).2
    = log ++ Request (router_prompt message (has_existing_data (or_empty current)))
                     (1 # 10) 20 :: rest
    /\ (length rest <= 1)%nat.
Proof.
  set (asked := Request _ _ _).
  assert (exists st1, _router_node (initial_state message current) log
                      = (Ok st1, log ++ [asked])) as (st1 & Hrouter).
  { unfold _router_node, call_llm. gw_unfold. cbn [current_form_data user_input initial_state].
    fold asked. destruct (provider asked); eexists; reflexivity. }
  destruct (after_router_budget st1 (log ++ [asked])) as (rest & Hlog & Hlen).
  exists rest. split; [|exact Hlen].
  rewrite <- app_assoc in Hlog. cbn [app] in Hlog. rewrite <- Hlog.
  unfold invoke. gw_unfold. by rewrite Hrouter.
Qed.

(** X1.  [process] never lets an exception out and never retries: for every
    message, record and provider it returns a reply after one or two
    requests, the first of which is the classifier's (temperature 0.1, 20
    tokens, its prompt built with the flag of the record passed in). *)
Theorem process_request_budget (message : string) (current : option dict)
    (log : list request) :
  exists (reply : Reply) (rest : list request),
    process message current log
    = (Ok reply,
       log ++ Request (router_prompt message (has_existing_data (or_empty current)))
                      (1 # 10) 20 :: rest)
    /\ (length rest <= 1)%nat.
Proof.
  destruct (invoke_requests message current log) as (rest & Hsent & Hlen).
  unfold process. gw_unfold.
  destruct (invoke (initial_state message current) log) as [[final|e] log2];
    simpl in Hsent; subst log2; do 2 eexists; (split; [reflexivity|exact Hlen]).
Qed.

End Budget.

(* ===================================================================== *)
(** * Router *)
(* ===================================================================== *)

Section RouterOutcome.
Context `{Env}.

Lemma normalize_intent_label (s : string) (flag : bool) :
  normalize_intent s flag ∈ intent_labels.
Proof.
  unfold normalize_intent, intent_labels.
  repeat case_match; repeat constructor.
Qed.

(** X2.  The router always returns, after exactly one request.  It leaves
    the message, both records, the handler output and the reply text of
    the context alone.  When the provider answers, the intent is one of
    the five labels of the edge table and the error is not touched; when
    the provider fails, the intent is [error] and the error is the
    failure message of the gateway. *)
Theorem router_node_outcome (st : AgentState) (log : list request) :
  let asked := Request (router_prompt (user_input st)
                          (has_existing_data (current_form_data st))) (1 # 10) 20 in
  exists st' : AgentState,
    _router_node st log = (Ok st', log ++ [asked])
    /\ (user_input st', current_form_data st', form_data st', tool_results st',
        chat_response st')
       = (user_input st, current_form_data st, form_data st, tool_results st,
          chat_response st)
    /\ match provider asked with
       | Ok response =>
           intent st' = classify response (has_existing_data (current_form_data st))
           /\ intent st' ∈ intent_labels /\ error st' = error st
       | Raise e =>
           intent st' = "error" /\ error st' = VStr ("LLM API call failed: " +:+ e)
       end.
Proof.
  intros asked. unfold _router_node, call_llm. gw_unfold. fold asked.
  destruct (provider asked) as [response|e]; eexists; (split; [reflexivity|]);
    (split; [reflexivity|]); cbn.
  - split; [reflexivity|]. split; [apply normalize_intent_label|reflexivity].
  - split; reflexivity.
Qed.

End RouterOutcome.

(* ===================================================================== *)
(** * More facts about the string methods *)
(* ===================================================================== *)

Lemma append_assoc (a b c : string) : (a +:+ b) +:+ c = a +:+ b +:+ c.
Proof. induction a as [|x a IH]; [reflexivity|]. rewrite !append_cons. by rewrite IH. Qed.

Lemma drop_app (a s : string) : Str.drop (String.length a) (a +:+ s) = s.
Proof. induction a as [|x a IH]; [reflexivity|]. rewrite append_cons. exact IH. Qed.

Lemma take_app (a s : string) : Str.take (String.length a) (a +:+ s) = a.
Proof.
  induction a as [|x a IH]; [by destruct s|]. rewrite append_cons. simpl. by rewrite IH.
Qed.

Lemma len_app (a b : string) : Str.len (a +:+ b) = Str.len a + Str.len b.
Proof. unfold Str.len. rewrite length_append. lia. Qed.

Lemma len_nonneg (a : string) : 0 <= Str.len a.
Proof. unfold Str.len. lia. Qed.

(** The slice that cuts the middle of three pieces. *)
Lemma slice_middle (a b c : string) :
  Str.slice (a +:+ b +:+ c) (Str.len a) (Str.len a + Str.len b) = b.
Proof.
  unfold Str.slice, Str.clamp. rewrite !len_app.
  pose proof (len_nonneg a). pose proof (len_nonneg b). pose proof (len_nonneg c).
  rewrite (proj2 (Z.ltb_ge _ _)) by lia. rewrite (proj2 (Z.ltb_ge _ _)) by lia.
  rewrite !Z.min_l by lia.
  replace (Str.len a + Str.len b - Str.len a) with (Str.len b) by lia.
  unfold Str.len. rewrite !Nat2Z.id. by rewrite drop_app, take_app.
Qed.

(** A piece in which the first character of the needle does not occur is
    passed over by the search. *)
Lemma index_of_skip (c : Ascii.ascii) (sub pre s : string) :
  Str.contains (String c EmptyString) pre = false ->
  Str.index_of (String c sub) (pre +:+ s)
  = (fun i => (String.length pre + i)%nat) <$> Str.index_of (String c sub) s.
Proof.
  unfold Str.contains. induction pre as [|x pre IH]; intros Hpre.
  - change (EmptyString +:+ s) with s. by destruct (Str.index_of _ s).
  - rewrite append_cons. cbn [Str.index_of Str.startswith] in Hpre |- *.
    destruct (Ascii.eqb c x); [discriminate|].
    destruct (Str.index_of (String c EmptyString) pre) eqn:Hrest; [discriminate|].
    rewrite IH by done. by destruct (Str.index_of (String c sub) s).
Qed.

Lemma find_skip (c : Ascii.ascii) (sub pre s : string) :
  Str.contains (String c EmptyString) pre = false ->
  Str.startswith (String c sub) s = true ->
  Str.find (String c sub) (pre +:+ s) = Str.len pre.
Proof.
  intros Hpre Hs. unfold Str.find, Str.find_from. change (Z.to_nat 0) with O.
  cbn [Str.drop]. rewrite index_of_skip by done.
  assert (Str.index_of (String c sub) s = Some O) as ->.
  { destruct s; cbn [Str.index_of]; by rewrite Hs. }
  cbn. unfold Str.len. lia.
Qed.

Lemma rindex_of_absent (c : Ascii.ascii) (s : string) :
  Str.contains (String c EmptyString) s = false ->
  Str.rindex_of (String c EmptyString) s = None.
Proof.
  unfold Str.contains. induction s as [|x s IH]; [done|].
  cbn [Str.index_of Str.rindex_of Str.startswith].
  destruct (Ascii.eqb c x); [done|].
  destruct (Str.index_of (String c EmptyString) s); [done|].
  intros _. by rewrite IH.
Qed.

(** The last occurrence of a character that does not occur after it. *)
Lemma rfind_last (c : Ascii.ascii) (a post : string) :
  Str.contains (String c EmptyString) post = false ->
  Str.rfind (String c EmptyString) (a +:+ String c post) = Str.len a.
Proof.
  intros Hpost. unfold Str.rfind.
  assert (Str.rindex_of (String c EmptyString) (a +:+ String c post)
          = Some (String.length a)) as ->; [|done].
  induction a as [|x a IH].
  - change (EmptyString +:+ String c post) with (String c post).
    cbn [Str.rindex_of Str.startswith]. rewrite rindex_of_absent by done.
    by rewrite Ascii.eqb_refl.
  - rewrite append_cons. cbn [Str.rindex_of]. by rewrite IH.
Qed.

(* ===================================================================== *)
(** * Gateway: what the parse chain returns *)
(* ===================================================================== *)

Section ParseChain.
Context `{Env}.

Lemma first_brace_part_parsed (parts : list string) (v : value) :
  first_brace_part parts = Some v -> exists text, json_loads text = Some v.
Proof.
  induction parts as [|part parts IH]; [done|]. cbn [first_brace_part].
  destruct (_ && _); [|exact IH].
  destruct (json_loads (Str.strip part)) as [w|] eqn:Hw; [|exact IH].
  intros [= <-]. by eexists.
Qed.

(** X3.  [extract_json] invents nothing: what it makes of a response is
    either a value the JSON parser returned for some text, or the failure
    mapping, which holds the fixed error text and the response as it was
    received. *)
Theorem parse_response_provenance (response : string) :
  (exists text, json_loads text = Some (parse_response response))
  \/ (parse_response response = parse_failure response
      /\ exists d : dict, parse_failure response = VDict d
           /\ d !! "error" = Some (VStr "Failed to parse JSON")
           /\ d !! "raw_response" = Some (VStr response)).
Proof.
  assert (exists d : dict, parse_failure response = VDict d
            /\ d !! "error" = Some (VStr "Failed to parse JSON")
            /\ d !! "raw_response" = Some (VStr response)) as Hshape.
  { eexists. split; [reflexivity|]. split; reflexivity. }
  assert ((exists text, json_loads text = Some (parse_brace_span response))
          \/ parse_brace_span response = parse_failure response) as Hspan.
  { unfold parse_brace_span. destruct (_ && _); [|by right].
    destruct (json_loads _) eqn:Hv; [left; by eexists | by right]. }
  assert ((exists text, json_loads text = Some (parse_fences response))
          \/ parse_fences response = parse_failure response) as Hfences.
  { unfold parse_fences.
    destruct (if Str.contains "```" response then _ else None) as [v|] eqn:Hpart;
      [|exact Hspan].
    left. destruct (Str.contains "```" response); [|discriminate].
    by eapply first_brace_part_parsed. }
  unfold parse_response.
  destruct (json_loads response) as [v|] eqn:Hdirect; [left; by eexists|].
  destruct (Str.contains "```json" response);
    [|destruct Hfences as [?|Hf]; [by left | right; by rewrite Hf]].
  cbv zeta. destruct (negb _);
    [|destruct Hfences as [?|Hf]; [by left | right; by rewrite Hf]].
  destruct (json_loads (Str.strip _)) eqn:Hv; [left; by eexists | by right].
Qed.

(** X4.  Stray prose around one object.  When the response has no fence
    marker and does not parse as a whole, and it is an object text (from
    an opening to a closing brace) with prose in front that has no opening
    brace and prose behind that has no closing brace, the result is the
    parse of the object text, or the failure mapping when that text does
    not parse. *)
Theorem parse_response_stray_prose (pre inner post : string) :
  let object := "{" +:+ inner +:+ "}" in
  let response := pre +:+ object +:+ post in
  json_loads response = None ->
  Str.contains "```" response = false ->
  Str.contains "{" pre = false ->
  Str.contains "}" post = false ->
  parse_response response = default (parse_failure response) (json_loads object).
Proof.
  intros object response Hdirect Hfence Hpre Hpost.
  rewrite (proj2 (parse_response_without_fence response Hfence)), Hdirect.
  cbn [default]. unfold parse_brace_span.
  assert (Str.find "{" response = Str.len pre) as ->.
  { unfold response. by apply find_skip. }
  assert (Str.rfind "}" response = Str.len pre + Str.len object - 1) as ->.
  { unfold response, object.
    trans (Str.rfind "}" ((pre +:+ "{" +:+ inner) +:+ "}" +:+ post)).
    { by rewrite !append_assoc. }
    etrans; [exact (rfind_last (Ascii.ascii_of_nat 125) _ post Hpost)|].
    rewrite !len_app. change (Str.len "{") with 1. change (Str.len "}") with 1. lia. }
  pose proof (len_nonneg pre). pose proof (len_nonneg inner).
  assert (Str.len object = 1 + Str.len inner + 1) as Hobj.
  { unfold object. rewrite !len_app.
    change (Str.len "{") with 1. change (Str.len "}") with 1. lia. }
  replace (Str.len pre + Str.len object - 1 + 1) with (Str.len pre + Str.len object) by lia.
  rewrite (proj2 (Z.eqb_neq _ _)) by lia.
  rewrite (proj2 (Z.ltb_lt _ _)) by lia. cbn [negb andb].
  unfold response. rewrite slice_middle. by destruct (json_loads object).
Qed.

(** X5.  A tagged block.  When the response does not parse as a whole and
    it holds a block opened by the tagged fence and closed by a fence,
    with no backquote in front of the block or inside it, the result is
    the parse of the trimmed contents of the block, or the failure mapping
    when they do not parse; what follows the block is not read. *)
Theorem parse_response_tagged_fence (pre body post : string) :
  let response := pre +:+ "```json" +:+ body +:+ "```" +:+ post in
  json_loads response = None ->
  Str.contains "`" pre = false ->
  Str.contains "`" body = false ->
  parse_response response
  = default (parse_failure response) (json_loads (Str.strip body)).
Proof.
  intros response Hdirect Hpre Hbody.
  assert (Str.index_of "```json" response = Some (String.length pre)) as Hopen.
  { unfold response. rewrite index_of_skip by done.
    assert (Str.index_of "```json" ("```json" +:+ body +:+ "```" +:+ post) = Some O) as ->;
      [|cbn; f_equal; lia].
    reflexivity. }
  assert (Str.index_of "```" (body +:+ "```" +:+ post) = Some (String.length body))
    as Hclose.
  { rewrite index_of_skip by done.
    assert (Str.index_of "```" ("```" +:+ post) = Some O) as ->; [reflexivity|].
    cbn. f_equal. lia. }
  assert (response = (pre +:+ "```json") +:+ body +:+ "```" +:+ post) as Hsplit.
  { unfold response. by rewrite append_assoc. }
  assert (Str.len (pre +:+ "```json") = Str.len pre + 7) as Hlen.
  { rewrite len_app. reflexivity. }
  assert (Str.contains "```json" response = true) as Hcontains.
  { unfold Str.contains. by rewrite Hopen. }
  assert (Str.find "```json" response = Str.len pre) as Hfind.
  { unfold Str.find, Str.find_from. change (Z.to_nat 0) with O. cbn [Str.drop].
    rewrite Hopen. reflexivity. }
  assert (Str.find_from "```" response (Str.len pre + 7)
          = Str.len (pre +:+ "```json") + Str.len body) as Hend.
  { unfold Str.find_from. rewrite <- Hlen. unfold Str.len at 1. rewrite Nat2Z.id.
    rewrite Hsplit, drop_app, Hclose. reflexivity. }
  pose proof (len_nonneg (pre +:+ "```json")). pose proof (len_nonneg body).
  unfold parse_response. rewrite Hdirect, Hcontains, Hfind. cbv zeta. rewrite Hend.
  rewrite (proj2 (Z.eqb_neq _ _)) by lia. cbn [negb].
  rewrite <- Hlen, Hsplit, slice_middle. by destruct (json_loads (Str.strip body)).
Qed.

End ParseChain.

(* ===================================================================== *)
(** * Handlers: what their results always hold *)
(* ===================================================================== *)

Lemma all_str_error (items : list value) (i : nat) (e : string) :
  all_str i items = Raise e -> truthy (VStr e) = true.
Proof.
  revert i. induction items as [|x items IH]; intros i; [discriminate|].
  destruct x; cbn [all_str]; try by intros [= <-].
  gw_unfold. destruct (all_str (S i) items) eqn:Hrest; [discriminate|].
  intros [= <-]. by eapply IH.
Qed.

Lemma join_value_error `{Env} (sep : string) (v : value) (e : string) :
  join_value sep v = Raise e -> truthy (VStr e) = true.
Proof.
  unfold join_value. destruct (iterate v) as [items|]; [|by intros [= <-]].
  gw_unfold. destruct (all_str 0 items) eqn:Hitems; [discriminate|].
  intros [= <-]. by eapply all_str_error.
Qed.

Lemma iterate_error `{Env} (v : value) (e : string) :
  iterate v = Raise e -> truthy (VStr e) = true.
Proof. destruct v; cbn [iterate]; try discriminate; by intros [= <-]. Qed.

Lemma dash_items_error `{Env} (v : value) (e : string) :
  dash_items v = Raise e -> truthy (VStr e) = true.
Proof.
  unfold dash_items. gw_unfold.
  destruct (iterate v) as [items|e'] eqn:Hiter; [|intros [= <-]; by eapply iterate_error].
  clear Hiter. revert e. induction items as [|x items IH]; intros e; [discriminate|].
  cbn [mapM]. gw_unfold. destruct x; try by intros [= <-].
  destruct (mapM _ items) eqn:Hrest; [discriminate|].
  intros [= <-]. by apply IH.
Qed.

Lemma insights_block_error `{Env} (title : string) (v : value) (trailer e : string) :
  insights_block title v trailer = Raise e -> truthy (VStr e) = true.
Proof.
  unfold insights_block. destruct (truthy v); [|discriminate].
  gw_unfold. destruct (dash_items v) eqn:Hitems; [discriminate|].
  intros [= <-]. by eapply dash_items_error.
Qed.

Lemma insights_text_error `{Env} (result : dict) (e : string) :
  insights_text result = Raise e -> truthy (VStr e) = true.
Proof.
  unfold insights_text. gw_unfold.
  destruct (insights_block "Opportunities" _ _) eqn:Ho;
    [|intros [= <-]; by eapply insights_block_error].
  destruct (insights_block "Concerns" _ _) eqn:Hc;
    [|intros [= <-]; by eapply insights_block_error].
  destruct (insights_block "Recommended Actions" _ _) eqn:Ha;
    [discriminate | intros [= <-]; by eapply insights_block_error].
Qed.

Lemma insights_text_priority `{Env} (result : dict) (text : string) :
  insights_text result = Ok text -> Str.startswith "Priority: " text = true.
Proof.
  unfold insights_text. gw_unfold.
  destruct (insights_block "Opportunities" _ _); [|discriminate].
  destruct (insights_block "Concerns" _ _); [|discriminate].
  destruct (insights_block "Recommended Actions" _ _); [|discriminate].
  intros [= <-]. eapply startswith_app_l, startswith_app.
Qed.

Lemma insights_prompt_error `{Env} (data : dict) (e : string) :
  insights_prompt data = Raise e -> truthy (VStr e) = true.
Proof.
  unfold insights_prompt, join_or_none. gw_unfold.
  destruct (truthy (get_or data "products_discussed" _)).
  - destruct (join_value _ (get_or data "products_discussed" _)) eqn:Hp;
      [|intros [= <-]; by eapply join_value_error].
    destruct (truthy (get_or data "materials_shared" _)); [|discriminate].
    destruct (join_value _ (get_or data "materials_shared" _)) eqn:Hm;
      [discriminate | intros [= <-]; by eapply join_value_error].
  - destruct (truthy (get_or data "materials_shared" _)); [|discriminate].
    destruct (join_value _ (get_or data "materials_shared" _)) eqn:Hm;
      [discriminate | intros [= <-]; by eapply join_value_error].
Qed.

Lemma get_or_present (d : dict) (k : string) (x : value) :
  is_Some (d !! k) -> get_or d k x = get d k.
Proof. intros [v Hv]. unfold get_or, get. by rewrite Hv. Qed.

Lemma get_success (d : dict) : get (<["success" := VBool true]> d) "success" = VBool true.
Proof. unfold get. by rewrite lookup_insert_eq. Qed.

Lemma default_falsy_is_Some (d : dict) (k : string) (x : value) :
  is_Some (default_falsy k x d !! k).
Proof.
  unfold default_falsy. destruct (truthy (get d k)) eqn:Ht.
  - unfold get in Ht. destruct (d !! k); [by eexists | discriminate].
  - rewrite lookup_insert_eq. by eexists.
Qed.

Lemma default_falsy_keeps (d : dict) (k k' : string) (x : value) :
  is_Some (d !! k') -> is_Some (default_falsy k x d !! k').
Proof.
  intros Hk'. unfold default_falsy. destruct (truthy (get d k)); [done|].
  destruct (decide (k = k')) as [->|Hne];
    [rewrite lookup_insert_eq; by eexists | by rewrite lookup_insert_ne].
Qed.

Lemma default_falsy_truthy (d : dict) (k : string) (x : value) :
  truthy x = true -> truthy (get (default_falsy k x d) k) = true.
Proof.
  intros Hx. unfold default_falsy. destruct (truthy (get d k)) eqn:Hk; [done|].
  unfold get. by rewrite lookup_insert_eq.
Qed.

Lemma default_falsy_falsy (d : dict) (k : string) (x : value) :
  truthy (get (default_falsy k x d) k) = false -> default_falsy k x d !! k = Some x.
Proof.
  unfold default_falsy. destruct (truthy (get d k)) eqn:Hk; [congruence|].
  intros _. apply lookup_insert_eq.
Qed.

Lemma default_falsy_id (d : dict) (k : string) (x : value) :
  truthy (get d k) = true -> default_falsy k x d = d.
Proof. intros Hk. unfold default_falsy. by rewrite Hk. Qed.

(** A list with an item that is not a string cannot be joined. *)
Lemma all_str_raises (items : list value) (i : nat) :
  (exists v, v ∈ items /\ forall s, v ≠ VStr s) ->
  exists e, all_str i items = Raise e.
Proof.
  intros (v & Hin & Hv). revert i.
  induction items as [|x items IH]; intros i; [by apply elem_of_nil in Hin|].
  apply elem_of_cons in Hin as [<- | Hin].
  - destruct v; try (eexists; reflexivity). by destruct (Hv s).
  - destruct x; try (eexists; reflexivity).
    cbn [all_str]. destruct (IH Hin (S i)) as (e & ->). by eexists.
Qed.

Lemma join_value_raises `{Env} (sep : string) (items : list value) :
  (exists v, v ∈ items /\ forall s, v ≠ VStr s) ->
  exists e, join_value sep (VList items) = Raise e.
Proof.
  intros Hbad. unfold join_value. cbn [iterate].
  destruct (all_str_raises items 0 Hbad) as (e & ->). by eexists.
Qed.

Lemma default_missing_is_Some (d : dict) (k : string) (x : value) :
  is_Some (default_missing k x d !! k).
Proof.
  unfold default_missing. destruct (d !! k) eqn:Hk; [by rewrite Hk|].
  rewrite lookup_insert_eq. by eexists.
Qed.

Lemma default_missing_keeps (d : dict) (k k' : string) (x : value) :
  is_Some (d !! k') -> is_Some (default_missing k x d !! k').
Proof.
  intros Hk'. unfold default_missing. destruct (d !! k); [done|].
  destruct (decide (k = k')) as [->|Hne];
    [rewrite lookup_insert_eq; by eexists | by rewrite lookup_insert_ne].
Qed.

(** A key is present after the defaulting steps. *)
Ltac present :=
  repeat first [ apply default_falsy_is_Some
               | rewrite lookup_insert_eq; by eexists
               | apply default_falsy_keeps ].

Ltac present_missing :=
  repeat first [ apply default_falsy_is_Some
               | apply default_missing_is_Some
               | rewrite lookup_insert_eq; by eexists
               | apply default_falsy_keeps
               | apply default_missing_keeps
               | rewrite lookup_insert_ne by discriminate ].

Section HandlerShapes.
Context `{Env}.

(** X6.  [log_interaction] never raises and sends exactly one request.
    Its result always holds the status and the six extracted fields; the
    sentiment is never empty, an [hcp_name] that is empty is null, and a
    list field that is empty is the empty list (never null).  The status
    is true, or false with a non-empty error text. *)
Theorem log_interaction_shape (message : string) (log : list request) :
  exists result : dict,
    log_interaction message log
    = (Ok result, log ++ [Request (log_prompt message) (1 # 10) 1024])
    /\ (forall k, k ∈ ["success"; "hcp_name"; "date"; "sentiment"; "materials_shared";
                       "discussion_summary"; "products_discussed"] ->
                  is_Some (result !! k))
    /\ truthy (get result "sentiment") = true
    /\ (truthy (get result "hcp_name") = false -> result !! "hcp_name" = Some VNull)
    /\ (truthy (get result "materials_shared") = false ->
        result !! "materials_shared" = Some (VList []))
    /\ (truthy (get result "products_discussed") = false ->
        result !! "products_discussed" = Some (VList []))
    /\ (result !! "success" = Some (VBool true)
        \/ (result !! "success" = Some (VBool false)
            /\ truthy (get result "error") = true)).
Proof.
  unfold log_interaction, extract_json, call_llm. gw_unfold.
  destruct (provider _) as [response|e].
  - destruct (parse_response response) as [| | | | |d] eqn:Hparse; cbn [setitem];
      try (eexists; split; [reflexivity|];
           split; [intros k Hk;
                   repeat (apply elem_of_cons in Hk as [-> | Hk]; [by eexists|]);
                   by apply elem_of_nil in Hk|];
           repeat split; try discriminate; right; split; reflexivity).
    eexists. split; [reflexivity|]. split; [|repeat split].
    + intros k Hk.
      repeat (apply elem_of_cons in Hk as [-> | Hk]; [by present|]).
      by apply elem_of_nil in Hk.
    + skip_defaults. by apply default_falsy_truthy.
    + skip_defaults. apply default_falsy_falsy.
    + skip_defaults. apply default_falsy_falsy.
    + skip_defaults. apply default_falsy_falsy.
    + left. skip_defaults. apply lookup_insert_eq.
  - eexists; split; [reflexivity|].
    split; [intros k Hk;
            repeat (apply elem_of_cons in Hk as [-> | Hk]; [by eexists|]);
            by apply elem_of_nil in Hk|].
    repeat split; try discriminate. right. split; reflexivity.
Qed.


(** X7.  [schedule_followup] never raises and sends exactly one request.  The
    name in its result is always the name it was given.  On success there
    are talking points and preparation notes to show; on failure there is
    a non-empty error text, no talking point, and the date one week
    ahead. *)
Theorem schedule_followup_shape (hcp_name : value) (message : string)
    (log : list request) :
  exists result : dict,
    schedule_followup hcp_name message log
    = (Ok result, log ++ [Request (schedule_prompt hcp_name message) (2 # 10) 1024])
    /\ result !! "hcp_name" = Some hcp_name
    /\ is_Some (result !! "follow_up_date")
    /\ ((result !! "success" = Some (VBool true)
         /\ truthy (get result "talking_points") = true
         /\ truthy (get result "preparation_notes") = true)
        \/ (result !! "success" = Some (VBool false)
            /\ truthy (get result "error") = true
            /\ result !! "follow_up_date" = Some (VStr next_week)
            /\ result !! "talking_points" = Some (VList [])
            /\ result !! "preparation_notes" = Some VNull)).
Proof.
  unfold schedule_followup, extract_json, call_llm. gw_unfold.
  destruct (provider _) as [response|e].
  - destruct (parse_response response) as [| | | | |d] eqn:Hparse; cbn [setitem];
      try (eexists; split; [reflexivity|]; split; [reflexivity|];
           split; [by eexists|]; right; repeat split).
    eexists. split; [reflexivity|]. split; [|split].
    + skip_defaults. apply lookup_insert_eq.
    + present.
    + left. split; [|split].
      * skip_defaults. apply lookup_insert_eq.
      * skip_defaults. by apply default_falsy_truthy.
      * by apply default_falsy_truthy.
  - eexists. split; [reflexivity|]. split; [reflexivity|].
    split; [by eexists|]. right. repeat split.
Qed.

(** X8.  A list field of the record with an item that is not a string stops
    [extract_insights] while it builds its prompt: the exception leaves
    the handler with a message that is not empty, and nothing is sent.
    The insights step of the pipeline catches it: it returns the context
    with that message as its error, every other field as it was, and the
    log of requests unchanged. *)
Theorem extract_insights_ill_typed_list (data : dict) (k : string)
    (items : list value) (log : list request) :
  k = "products_discussed" \/ k = "materials_shared" ->
  data !! k = Some (VList items) ->
  (exists v, v ∈ items /\ forall s, v ≠ VStr s) ->
  exists e : string,
    extract_insights data log = (Raise e, log)
    /\ truthy (VStr e) = true
    /\ forall st, current_form_data st = data ->
         exists st' : AgentState,
           _extract_insights_node st log = (Ok st', log)
           /\ error st' = VStr e
           /\ (user_input st', current_form_data st', form_data st', tool_results st',
               intent st', chat_response st')
              = (user_input st, current_form_data st, form_data st, tool_results st,
                 intent st, chat_response st).
Proof.
  intros Hk Hdata Hbad.
  assert (truthy (VList items) = true) as Htruthy.
  { destruct Hbad as (v & Hin & _). destruct items; [by apply elem_of_nil in Hin | done]. }
  destruct (join_value_raises ", " items Hbad) as (e & Hjoin).
  assert (exists e', insights_prompt data = Raise e') as (e' & Hprompt).
  { unfold insights_prompt, join_or_none, get_or. gw_unfold.
    destruct Hk as [-> | ->]; rewrite Hdata; cbn [default from_option id].
    - rewrite Htruthy, Hjoin. by eexists.
    - rewrite Htruthy, Hjoin. destruct (if truthy _ then _ else _); by eexists. }
  exists e'. split; [|split].
  - unfold extract_insights. gw_unfold. by rewrite Hprompt.
  - by eapply insights_prompt_error.
  - intros st <-. unfold _extract_insights_node, extract_insights. gw_unfold.
    rewrite Hprompt. eexists. split; [reflexivity|]. by split.
Qed.

(** X9.  With a record whose list fields can be joined, [extract_insights]
    never raises and sends exactly one request.  On success the result
    names a priority and at least one recommended action; on failure the
    priority is Medium whatever the sentiment, and the lists are empty. *)
Theorem extract_insights_shape (data : dict) (prompt : string) (log : list request) :
  insights_prompt data = Ok prompt ->
  exists result : dict,
    extract_insights data log = (Ok result, log ++ [Request prompt (3 # 10) 1024])
    /\ (forall k, k ∈ ["success"; "opportunities"; "concerns"; "recommended_actions";
                       "priority_level"] -> is_Some (result !! k))
    /\ ((result !! "success" = Some (VBool true)
         /\ truthy (get result "recommended_actions") = true
         /\ truthy (get result "priority_level") = true)
        \/ (result !! "success" = Some (VBool false)
            /\ truthy (get result "error") = true
            /\ result !! "priority_level" = Some (VStr "Medium")
            /\ result !! "opportunities" = Some (VList [])
            /\ result !! "concerns" = Some (VList [])
            /\ result !! "recommended_actions" = Some (VList []))).
Proof.
  intros Hprompt. unfold extract_insights. gw_unfold. rewrite Hprompt.
  unfold extract_json, call_llm. gw_unfold.
  assert (forall s, truthy (VStr (priority_of_sentiment s)) = true) as Hpriority.
  { intros s. unfold priority_of_sentiment. by repeat case_match. }
  destruct (provider _) as [response|e].
  - destruct (parse_response response) as [| | | | |d] eqn:Hparse; cbn [setitem];
      try (eexists; split; [reflexivity|];
           split; [intros k Hk;
                   repeat (apply elem_of_cons in Hk as [-> | Hk]; [by eexists|]);
                   by apply elem_of_nil in Hk|];
           right; repeat split).
    eexists. split; [reflexivity|]. split.
    + intros k Hk.
      repeat (apply elem_of_cons in Hk as [-> | Hk]; [by present|]).
      by apply elem_of_nil in Hk.
    + left. split; [|split].
      * skip_defaults. apply lookup_insert_eq.
      * skip_defaults. by apply default_falsy_truthy.
      * by apply default_falsy_truthy.
  - eexists. split; [reflexivity|].
    split; [intros k Hk;
            repeat (apply elem_of_cons in Hk as [-> | Hk]; [by eexists|]);
            by apply elem_of_nil in Hk|].
    right. repeat split.
Qed.

(** X10.  For a name that is not blank, [validate_hcp] never raises and sends
    exactly one request.  The result always repeats the name it was
    given.  When the extraction is a JSON object the result is a success:
    a [formatted_name], [likely_specialty] or [validation_notes] of the
    extraction that is not empty is kept, an empty or missing one is
    replaced (the formatted name by the title-cased name, the specialty
    by General Practice, the notes by a fixed text); [is_valid] and
    [requires_verification] are kept when the extraction has the key,
    whatever its value, and are true and false otherwise.  When the
    extraction is not an object or the gateway fails, the result is a
    failure with an error text that is not empty: the verdict is null,
    the formatted name is the name itself, the specialty is Unknown and
    manual verification is required. *)
Theorem validate_hcp_shape (name : string) (log : list request) :
  Str.len (Str.strip name) <> 0 ->
  let asked := Request (validate_prompt name) (1 # 10) 1024 in
  exists result : dict,
    validate_hcp (VStr name) log = (Ok result, log ++ [asked])
    /\ result !! "hcp_name" = Some (VStr name)
    /\ (forall k, k ∈ ["success"; "is_valid"; "formatted_name"; "likely_specialty";
                       "validation_notes"; "requires_verification"] ->
                  is_Some (result !! k))
    /\ match (extract_json (validate_prompt name) (1 # 10) log).1 with
       | Ok (VDict extraction) =>
           result !! "success" = Some (VBool true)
           /\ result !! "is_valid" = Some (default (VBool true) (extraction !! "is_valid"))
           /\ result !! "formatted_name"
              = Some (if truthy (get extraction "formatted_name")
                      then get extraction "formatted_name" else VStr (str_title name))
           /\ result !! "likely_specialty"
              = Some (if truthy (get extraction "likely_specialty")
                      then get extraction "likely_specialty" else VStr "General Practice")
           /\ result !! "validation_notes"
              = Some (if truthy (get extraction "validation_notes")
                      then get extraction "validation_notes" else VStr "Name validated")
           /\ result !! "requires_verification"
              = Some (default (VBool false) (extraction !! "requires_verification"))
       | Ok _ | Raise _ =>
           result !! "success" = Some (VBool false)
           /\ truthy (get result "error") = true
           /\ result !! "is_valid" = Some VNull
           /\ result !! "formatted_name" = Some (VStr name)
           /\ result !! "likely_specialty" = Some (VStr "Unknown")
           /\ result !! "requires_verification" = Some (VBool true)
       end.
Proof.
  intros Hname asked.
  assert (truthy (VStr name) = true) as Htruthy.
  { destruct name; [by destruct Hname | done]. }
  assert (forall (d : dict) k x,
            default_falsy k x d !! k = Some (if truthy (get d k) then get d k else x))
    as Hfalsy.
  { intros d k x. unfold default_falsy. destruct (truthy (get d k)) eqn:Hk.
    - unfold get in *. destruct (d !! k); [done | discriminate].
    - apply lookup_insert_eq. }
  assert (forall (d : dict) k x,
            default_missing k x d !! k = Some (default x (d !! k))) as Hmissing.
  { intros d k x. unfold default_missing. destruct (d !! k) eqn:Hk; [by rewrite Hk|].
    apply lookup_insert_eq. }
  unfold validate_hcp. rewrite Htruthy. cbn [negb].
  destruct (Z.eqb_spec (Str.len (Str.strip name)) 0) as [Hblank|_]; [by destruct Hname|].
  unfold extract_json, call_llm. gw_unfold. fold asked.
  destruct (provider asked) as [response|e]; cbn [fst].
  - destruct (parse_response response) as [| | | | |d] eqn:Hparse; cbn [setitem];
      try (eexists; split; [reflexivity|]; split; [reflexivity|];
           split; [intros k Hk;
                   repeat (apply elem_of_cons in Hk as [-> | Hk]; [by eexists|]);
                   by apply elem_of_nil in Hk|];
           repeat split).
    eexists. split; [reflexivity|]. split; [|split].
    + skip_defaults. apply lookup_insert_eq.
    + intros k Hk.
      repeat (apply elem_of_cons in Hk as [-> | Hk]; [by present_missing|]).
      by apply elem_of_nil in Hk.
    + split; [skip_defaults; apply lookup_insert_eq|].
      split; [skip_defaults; rewrite Hmissing; by skip_defaults|].
      split; [skip_defaults; rewrite Hfalsy; by skip_defaults|].
      split; [skip_defaults; rewrite Hfalsy; by skip_defaults|].
      split; [skip_defaults; rewrite Hfalsy; by skip_defaults|].
      rewrite Hmissing. by skip_defaults.
  - eexists. split; [reflexivity|]. split; [reflexivity|].
    split; [intros k Hk;
            repeat (apply elem_of_cons in Hk as [-> | Hk]; [by eexists|]);
            by apply elem_of_nil in Hk|].
    repeat split.
Qed.

End HandlerShapes.

(* ===================================================================== *)
(** * Steps of the pipeline: what each does to the context *)
(* ===================================================================== *)

Section Steps.
Context `{Env}.

(** X11.  The log step always returns, after exactly one request, and leaves
    the message, the current record, the intent and the reply text alone.
    Either it leaves the error alone and the merged record has exactly the
    eight fields of an interaction, each taken from the handler's result
    (so nothing of the current record is carried over), or it leaves the
    merged record alone and sets a non-empty error. *)
Theorem log_node_outcome (st : AgentState) (log : list request) :
  exists st' : AgentState,
    _log_interaction_node st log
    = (Ok st', log ++ [Request (log_prompt (user_input st)) (1 # 10) 1024])
    /\ (user_input st', current_form_data st', intent st', chat_response st')
       = (user_input st, current_form_data st, intent st, chat_response st)
    /\ ((error st' = error st
         /\ dom (form_data st') =@{gset string} list_to_set record_fields
         /\ (forall k, k ∈ record_fields ->
                       form_data st' !! k = Some (get (tool_results st') k)))
        \/ (form_data st' = form_data st /\ truthy (error st') = true)).
Proof.
  unfold _log_interaction_node, log_interaction, extract_json, call_llm. gw_unfold.
  destruct (provider _) as [response|e].
  - destruct (parse_response response) as [| | | | |d]; cbn [setitem];
      try (eexists; split; [reflexivity|]; split; [reflexivity|];
           right; split; reflexivity).
    set (result := default_falsy "products_discussed" _ _).
    assert (truthy (get result "success") = true) as ->.
    { subst result. skip_defaults. by rewrite get_success. }
    rewrite !(get_or_present result) by (subst result; present).
    eexists. split; [reflexivity|]. split; [reflexivity|]. left.
    cbn [error form_data set_form_data set_tool_results tool_results].
    split; [reflexivity|]. split.
    + unfold dict_of. by rewrite dom_list_to_map_L.
    + intros k Hk. unfold record_fields in Hk.
      repeat (apply elem_of_cons in Hk as [-> | Hk]; [reflexivity|]).
      by apply elem_of_nil in Hk.
  - eexists. split; [reflexivity|]. split; [reflexivity|]. right. split; reflexivity.
Qed.

(** X12.  The edit step always returns, after exactly one request, and never
    drops a field: every key of the current record is a key of the merged
    record.  The merged record is the current record itself, or it is
    marked as a success and the error of the context is left alone. *)
Theorem edit_node_outcome (st : AgentState) (log : list request) :
  exists st' : AgentState,
    _edit_interaction_node st log
    = (Ok st', log ++ [Request (edit_prompt (current_form_data st) (user_input st))
                               (1 # 10) 1024])
    /\ (user_input st', current_form_data st', intent st', chat_response st')
       = (user_input st, current_form_data st, intent st, chat_response st)
    /\ dom (current_form_data st) ⊆@{gset string} dom (form_data st')
    /\ (form_data st' = current_form_data st
        \/ (truthy (get (form_data st') "success") = true /\ error st' = error st)).
Proof.
  unfold _edit_interaction_node, edit_interaction, extract_json, call_llm. gw_unfold.
  destruct (provider _) as [response|e].
  - destruct (parse_response response) as [|b|n|s|l|d]; cbn [has_error_key overlay truthy];
      repeat case_match; simplify_eq/=;
      eexists; (split; [reflexivity|]); (split; [reflexivity|]);
      cbn [form_data error set_form_data set_error set_tool_results];
      (split; [rewrite ?dom_insert_L, ?dom_union_L; set_solver|]);
      first [ by left | right; split; [assumption || by rewrite get_success | reflexivity] ].
  - repeat case_match; simplify_eq/=;
      eexists; (split; [reflexivity|]); (split; [reflexivity|]);
      cbn [form_data error set_form_data set_error set_tool_results];
      (split; [rewrite ?dom_insert_L, ?dom_union_L; set_solver|]);
      first [ by left | right; split; [assumption | reflexivity] ].
Qed.

(** X13.  The schedule step always returns, after exactly one request whose
    prompt names the doctor of the current record ([HCP] when the record
    has no such key).  Either it leaves the error alone and the merged
    record is the current record with [follow_up_date] and [key_insights]
    set, every other field as it was, or it leaves the merged record alone
    and sets a non-empty error. *)
Theorem schedule_node_outcome (st : AgentState) (log : list request) :
  let name := get_or (current_form_data st) "hcp_name" (VStr "HCP") in
  exists st' : AgentState,
    _schedule_followup_node st log
    = (Ok st', log ++ [Request (schedule_prompt name (user_input st)) (2 # 10) 1024])
    /\ (user_input st', current_form_data st', intent st', chat_response st')
       = (user_input st, current_form_data st, intent st, chat_response st)
    /\ ((error st' = error st
         /\ exists (date : value) (insights : string),
              form_data st'
              = <["key_insights" := VStr insights]>
                  (<["follow_up_date" := date]> (current_form_data st)))
        \/ (form_data st' = form_data st /\ truthy (error st') = true)).
Proof.
  intros name.
  unfold _schedule_followup_node, schedule_followup, extract_json, call_llm.
  fold name. gw_unfold.
  destruct (provider _) as [response|e].
  - destruct (parse_response response) as [| | | | |d]; cbn [setitem];
      try (eexists; split; [reflexivity|]; split; [reflexivity|];
           right; split; reflexivity).
    set (result := default_falsy "preparation_notes" _ _).
    assert (truthy (get result "success") = true) as ->.
    { subst result. skip_defaults. by rewrite get_success. }
    destruct (schedule_insights result) as [insights|e] eqn:Hinsights.
    + eexists. split; [reflexivity|]. split; [reflexivity|]. left.
      split; [reflexivity|]. by do 2 eexists.
    + eexists. split; [reflexivity|]. split; [reflexivity|]. right.
      split; [reflexivity|]. cbn [error set_error].
      unfold schedule_insights in Hinsights. gw_unfold.
      destruct (join_value _ _) eqn:Hjoin; [discriminate|].
      injection Hinsights as <-. by eapply join_value_error.
  - eexists. split; [reflexivity|]. split; [reflexivity|]. right. split; reflexivity.
Qed.

(** X14.  The insights step always returns, after at most one request.  Either
    it leaves the error alone and the merged record is the current record
    with only [key_insights] set, to a text that opens with the priority,
    or it leaves the merged record alone and sets a non-empty error. *)
Theorem insights_node_outcome (st : AgentState) (log : list request) :
  exists (st' : AgentState) (sent : list request),
    _extract_insights_node st log = (Ok st', log ++ sent)
    /\ (length sent <= 1)%nat
    /\ (user_input st', current_form_data st', intent st', chat_response st')
       = (user_input st, current_form_data st, intent st, chat_response st)
    /\ ((error st' = error st
         /\ exists insights : string,
              form_data st' = <["key_insights" := VStr insights]> (current_form_data st)
              /\ Str.startswith "Priority: " insights = true)
        \/ (form_data st' = form_data st /\ truthy (error st') = true)).
Proof.
  unfold _extract_insights_node, extract_insights. gw_unfold.
  destruct (insights_prompt (current_form_data st)) as [prompt|e] eqn:Hprompt.
  2:{ exists (set_error st (VStr e)), []. rewrite app_nil_r.
      split; [reflexivity|]. split; [simpl; lia|]. split; [reflexivity|]. right.
      split; [reflexivity|]. by eapply insights_prompt_error. }
  unfold extract_json, call_llm. gw_unfold.
  destruct (provider _) as [response|e].
  - destruct (parse_response response) as [| | | | |d]; cbn [setitem];
      try (eexists _, [_]; split; [reflexivity|]; split; [simpl; lia|];
           split; [reflexivity|]; right; split; reflexivity).
    set (result := default_falsy "priority_level" _ _).
    assert (truthy (get result "success") = true) as ->.
    { subst result. skip_defaults. by rewrite get_success. }
    destruct (insights_text result) as [insights|e] eqn:Hinsights.
    + eexists _, [_]. split; [reflexivity|]. split; [simpl; lia|].
      split; [reflexivity|]. left. split; [reflexivity|].
      eexists. split; [reflexivity|]. by eapply insights_text_priority.
    + eexists _, [_]. split; [reflexivity|]. split; [simpl; lia|].
      split; [reflexivity|]. right. split; [reflexivity|].
      by eapply insights_text_error.
  - eexists _, [_]. split; [reflexivity|]. split; [simpl; lia|].
    split; [reflexivity|]. right. split; reflexivity.
Qed.

(** X15.  The validate step always returns, after at most one request; an
    exception of the handler (a name that is not a text) is caught here.
    Either it leaves the error alone and the merged record is the current
    record with [hcp_name] and [key_insights] set, every other field as
    it was, or it leaves the merged record alone. *)
Theorem validate_node_outcome (st : AgentState) (log : list request) :
  exists (st' : AgentState) (sent : list request),
    _validate_hcp_node st log = (Ok st', log ++ sent)
    /\ (length sent <= 1)%nat
    /\ (user_input st', current_form_data st', intent st', chat_response st')
       = (user_input st, current_form_data st, intent st, chat_response st)
    /\ ((error st' = error st
         /\ exists (name : value) (insights : string),
              form_data st'
              = <["key_insights" := VStr insights]>
                  (<["hcp_name" := name]> (current_form_data st))
              /\ Str.startswith "HCP Validation:" insights = true)
        \/ form_data st' = form_data st).
Proof.
  unfold _validate_hcp_node. fold (name_to_validate st). gw_unfold.
  unfold validate_hcp.
  destruct (truthy (name_to_validate st)) eqn:Htruthy; cbn [negb].
  2:{ exists (set_error (set_tool_results st empty_name_result) (VStr "HCP name is empty")), [].
      rewrite app_nil_r. split; [reflexivity|]. split; [simpl; lia|].
      split; [reflexivity|]. by right. }
  destruct (name_to_validate st) as [|b|n|name|l|d];
    try (eexists _, []; rewrite app_nil_r; split; [reflexivity|]; split; [simpl; lia|];
         split; [reflexivity|]; by right).
  destruct (Str.len (Str.strip name) =? 0).
  { eexists _, []. rewrite app_nil_r. split; [reflexivity|]. split; [simpl; lia|].
    split; [reflexivity|]. by right. }
  unfold extract_json, call_llm. gw_unfold.
  destruct (provider _) as [response|e].
  - destruct (parse_response response) as [| | | | |d]; cbn [setitem];
      try (eexists _, [_]; split; [reflexivity|]; split; [simpl; lia|];
           split; [reflexivity|]; by right).
    set (result := default_missing "requires_verification" _ _).
    destruct (truthy (get result "success") && truthy (get result "is_valid")).
    + eexists _, [_]. split; [reflexivity|]. split; [simpl; lia|].
      split; [reflexivity|]. left. split; [reflexivity|].
      do 2 eexists. split; [reflexivity|]. apply startswith_app.
    + eexists _, [_]. split; [reflexivity|]. split; [simpl; lia|].
      split; [reflexivity|]. by right.
  - eexists _, [_]. split; [reflexivity|]. split; [simpl; lia|].
    split; [reflexivity|]. by right.
Qed.

(** X16.  When the current record has no name, the validate step takes the
    whole message for the name: a blank message gives the fixed failure
    without any request, any other message is sent for validation and
    comes back as the name of the handler's result. *)
Theorem validate_node_uses_message (st : AgentState) (log : list request) :
  truthy (get (current_form_data st) "hcp_name") = false ->
  (Str.len (Str.strip (user_input st)) = 0 ->
   _validate_hcp_node st log
   = (Ok (set_error (set_tool_results st empty_name_result) (VStr "HCP name is empty")),
      log))
  /\ (Str.len (Str.strip (user_input st)) <> 0 ->
      exists st' : AgentState,
        _validate_hcp_node st log
        = (Ok st', log ++ [Request (validate_prompt (user_input st)) (1 # 10) 1024])
        /\ tool_results st' !! "hcp_name" = Some (VStr (user_input st))).
Proof.
  intros Hname.
  assert (truthy (get_or (current_form_data st) "hcp_name" (VStr EmptyString)) = false)
    as Hnone.
  { unfold get_or. unfold get in Hname.
    by destruct (current_form_data st !! "hcp_name"). }
  unfold _validate_hcp_node. rewrite Hnone. unfold validate_hcp. gw_unfold. split.
  - intros Hblank. rewrite Hblank. cbn [Z.eqb].
    by destruct (truthy (VStr (user_input st))).
  - intros Hfull.
    assert (truthy (VStr (user_input st)) = true) as ->.
    { destruct (user_input st); [by destruct Hfull | done]. }
    cbn [negb].
    destruct (Z.eqb_spec (Str.len (Str.strip (user_input st))) 0) as [|_]; [done|].
    unfold extract_json, call_llm. gw_unfold.
    destruct (provider _) as [response|e].
    + destruct (parse_response response) as [| | | | |d]; cbn [setitem];
        try (eexists; split; reflexivity).
      set (result := default_missing "requires_verification" _ _).
      assert (result !! "hcp_name" = Some (VStr (user_input st))) as Hkept.
      { subst result. skip_defaults. apply lookup_insert_eq. }
      destruct (truthy (get result "success") && truthy (get result "is_valid"));
        eexists; (split; [reflexivity | exact Hkept]).
    + eexists. split; reflexivity.
Qed.

End Steps.

(* ===================================================================== *)
(** * The reply of the orchestrator *)
(* ===================================================================== *)

Section Replies.
Context `{Env}.

Ltac frame_cases :=
  gw_unfold; repeat case_match; simplify_eq/=;
  do 2 eexists; (split; [reflexivity|]); (split; [reflexivity|]);
  first [by left | by right].

Lemma log_node_frame (st : AgentState) (log : list request) :
  exists st' log', _log_interaction_node st log = (Ok st', log')
    /\ intent st' = intent st
    /\ (error st' = error st \/ form_data st' = form_data st).
Proof. unfold _log_interaction_node. frame_cases. Qed.

Lemma edit_node_frame (st : AgentState) (log : list request) :
  exists st' log', _edit_interaction_node st log = (Ok st', log')
    /\ intent st' = intent st
    /\ (error st' = error st \/ form_data st' = current_form_data st).
Proof. unfold _edit_interaction_node. frame_cases. Qed.

Lemma schedule_node_frame (st : AgentState) (log : list request) :
  exists st' log', _schedule_followup_node st log = (Ok st', log')
    /\ intent st' = intent st
    /\ (error st' = error st \/ form_data st' = form_data st).
Proof. unfold _schedule_followup_node. frame_cases. Qed.

Lemma insights_node_frame (st : AgentState) (log : list request) :
  exists st' log', _extract_insights_node st log = (Ok st', log')
    /\ intent st' = intent st
    /\ (error st' = error st \/ form_data st' = form_data st).
Proof. unfold _extract_insights_node. frame_cases. Qed.

Lemma validate_node_frame (st : AgentState) (log : list request) :
  exists st' log', _validate_hcp_node st log = (Ok st', log')
    /\ intent st' = intent st
    /\ (error st' = error st \/ form_data st' = form_data st).
Proof. unfold _validate_hcp_node. frame_cases. Qed.

Lemma formatter_outcome (st st' : AgentState) :
  _formatter_node st = Ok st' ->
  intent st' = intent st /\ error st' = error st /\ form_data st' = form_data st
  /\ (truthy (error st) = true -> chat_response st' = apology +:+ fmt (error st)).
Proof.
  unfold _formatter_node. gw_unfold.
  destruct (truthy (error st)); [by intros [= <-]|].
  destruct (if String.eqb (intent st) "log" then _ else _); [|discriminate].
  by intros [= <-].
Qed.

(** What a run of the graph that ends gives, for the start context of
    [process]. *)
Lemma invoke_outcome (message : string) (current : option dict)
    (final : AgentState) (log log' : list request) :
  invoke (initial_state message current) log = (Ok final, log') ->
  (truthy (error final) = true ->
   chat_response final = apology +:+ fmt (error final)
   /\ (intent final = "edit" -> form_data final = or_empty current)
   /\ (intent final ∈ ["log"; "schedule"; "insights"; "validate"] -> form_data final = ∅))
  /\ (truthy (error final) = false -> intent final ∈ intent_labels).
Proof.
  set (st0 := initial_state message current).
  unfold invoke, _router_node, call_llm. gw_unfold.
  set (log1 := log ++ _).
  destruct (provider _) as [answer|e].
  - unfold _route_to_tool. cbn [intent set_intent].
    set (label := classify answer _).
    set (st1 := set_intent st0 label).
    assert (forall (node : AgentState -> Gw AgentState) (kept : dict),
              (exists st' l', node st1 log1 = (Ok st', l')
                 /\ intent st' = intent st1
                 /\ (error st' = error st1 \/ form_data st' = kept)) ->
              match node st1 log1 with
              | (Ok a, l) => (_formatter_node a, l)
              | (Raise e, l) => (Raise e, l)
              end = (Ok final, log') ->
              intent final = label
              /\ (truthy (error final) = true ->
                  chat_response final = apology +:+ fmt (error final)
                  /\ form_data final = kept)) as Hnode.
    { intros node kept (st2 & log2 & -> & Hintent & Hkept) Hrun.
      destruct (_formatter_node st2) as [st3|e] eqn:Hfmt; [|discriminate].
      injection Hrun as <- <-.
      apply formatter_outcome in Hfmt as (Hintent3 & Herr3 & Hform3 & Hchat).
      rewrite Hintent3, Herr3, Hform3, Hintent. split; [reflexivity|].
      intros Hfail. split; [by apply Hchat|].
      destruct Hkept as [Hsame | ->]; [|reflexivity].
      rewrite Hsame in Hfail. discriminate. }
    assert (forall kept : dict,
              (label = "edit" -> kept = or_empty current) ->
              (label ≠ "edit" -> kept = ∅) ->
              intent final = label
              /\ (truthy (error final) = true ->
                  chat_response final = apology +:+ fmt (error final)
                  /\ form_data final = kept) ->
              (truthy (error final) = true ->
               chat_response final = apology +:+ fmt (error final)
               /\ (intent final = "edit" -> form_data final = or_empty current)
               /\ (intent final ∈ ["log"; "schedule"; "insights"; "validate"] ->
                   form_data final = ∅))
              /\ (truthy (error final) = false -> intent final ∈ intent_labels)) as Hend.
    { intros kept Hedit Hother (Hintent & Hfail). rewrite Hintent.
      split; [|intros _; apply normalize_intent_label].
      intros Herr. destruct (Hfail Herr) as (Hchat & Hform).
      split; [exact Hchat|]. rewrite Hform. split; [exact Hedit|].
      intros Hin. apply Hother. intros Hlabel. rewrite Hlabel in Hin.
      repeat (apply elem_of_cons in Hin as [Hin | Hin]; [discriminate|]).
      by apply elem_of_nil in Hin. }
    destruct (String.eqb_spec label "log") as [Hlabel|_].
    { intros Hrun. apply (Hend ∅); [by rewrite Hlabel | done |].
      apply (Hnode _ _ (log_node_frame st1 log1) Hrun). }
    destruct (String.eqb_spec label "edit") as [Hlabel|Hnot].
    { intros Hrun. apply (Hend (or_empty current)); [done.. |].
      apply (Hnode _ _ (edit_node_frame st1 log1) Hrun). }
    destruct (String.eqb_spec label "schedule") as [Hlabel|_].
    { intros Hrun. apply (Hend ∅); [by rewrite Hlabel | done |].
      apply (Hnode _ _ (schedule_node_frame st1 log1) Hrun). }
    destruct (String.eqb_spec label "insights") as [Hlabel|_].
    { intros Hrun. apply (Hend ∅); [by rewrite Hlabel | done |].
      apply (Hnode _ _ (insights_node_frame st1 log1) Hrun). }
    destruct (String.eqb_spec label "validate") as [Hlabel|_].
    { intros Hrun. apply (Hend ∅); [by rewrite Hlabel | done |].
      apply (Hnode _ _ (validate_node_frame st1 log1) Hrun). }
    destruct (String.eqb_spec label "error") as [Hlabel|_]; [|discriminate].
    pose proof (normalize_intent_label (str_lower (Str.strip answer))
                  (has_existing_data (current_form_data st0))) as Hin.
    fold (classify answer (has_existing_data (current_form_data st0))) in Hin.
    fold label in Hin. rewrite Hlabel in Hin. unfold intent_labels in Hin.
    repeat (apply elem_of_cons in Hin as [Hin | Hin]; [discriminate|]).
    by apply elem_of_nil in Hin.
  - cbn. intros [= <- <-]. cbn. split; [|discriminate].
    intros _. split; [reflexivity|]. split; [discriminate|].
    intros Hin.
    repeat (apply elem_of_cons in Hin as [Hin | Hin]; [discriminate|]).
    by apply elem_of_nil in Hin.
Qed.

(** X17.  Every reply is a success with one of the five intents of the edge
    table, or a failure whose text opens with the apology.  A failed edit
    gives back the record passed in, unchanged; a failure of any other
    handler gives back an empty record, whatever record was passed in. *)
Theorem process_reply_status (message : string) (current : option dict)
    (log : list request) :
  exists (reply : Reply) (log' : list request),
    process message current log = (Ok reply, log')
    /\ (reply_success reply = true -> reply_intent reply ∈ intent_labels)
    /\ (reply_success reply = false ->
        Str.startswith apology (reply_chat_response reply) = true
        /\ (reply_intent reply = "edit" -> reply_form_data reply = or_empty current)
        /\ (reply_intent reply ∈ ["log"; "schedule"; "insights"; "validate"] ->
            reply_form_data reply = ∅)).
Proof.
  unfold process. gw_unfold.
  destruct (invoke (initial_state message current) log) as [[final|e] log'] eqn:Hrun.
  - apply invoke_outcome in Hrun as (Hfail & Hok).
    do 2 eexists. split; [reflexivity|].
    cbn [reply_success reply_intent reply_chat_response reply_form_data]. split.
    + intros Hsuccess%negb_true_iff. by apply Hok.
    + intros Hfailed%negb_false_iff. destruct (Hfail Hfailed) as (-> & Hedit & Hother).
      split; [apply startswith_app | by split].
  - do 2 eexists. split; [reflexivity|].
    cbn [reply_success reply_intent reply_chat_response reply_form_data]. split; [discriminate|].
    intros _. split; [apply startswith_app|]. split; [discriminate|].
    intros Hin.
    repeat (apply elem_of_cons in Hin as [Hin | Hin]; [discriminate|]).
    by apply elem_of_nil in Hin.
Qed.

End Replies.

(* ===================================================================== *)
(** * Runs of the whole pipeline *)
(* ===================================================================== *)

Lemma get_default_falsy_truthy (d : dict) (k k' : string) (x : value) :
  truthy (get d k') = true -> get (default_falsy k x d) k' = get d k'.
Proof.
  intros Hk'. unfold default_falsy. destruct (truthy (get d k)) eqn:Hk; [done|].
  destruct (decide (k = k')) as [->|Hne]; [congruence|].
  unfold get. by rewrite lookup_insert_ne.
Qed.

Section Runs.
Context `{Env}.

Lemma router_node_label (message : string) (current : option dict) (answer : string)
    (log : list request) :
  let flag := has_existing_data (or_empty current) in
  let asked := Request (router_prompt message flag) (1 # 10) 20 in
  provider asked = Ok answer ->
  _router_node (initial_state message current) log
  = (Ok (set_intent (initial_state message current) (classify answer flag)),
     log ++ [asked]).
Proof.
  intros flag asked Hanswer. unfold _router_node, call_llm. gw_unfold.
  cbn [current_form_data user_input initial_state]. fold flag. fold asked.
  by rewrite Hanswer.
Qed.

(** X18.  When the classifier says [log] and the answer to the extraction
    request holds no JSON at all, the interaction is logged all the same:
    the reply is a success, its record is the blank record (no name,
    today's date, neutral sentiment, no materials and no products), and
    the text confirms an interaction with [None]. *)
Theorem process_log_unparseable (message : string) (current : option dict)
    (answer response : string) (log : list request) :
  let flag := has_existing_data (or_empty current) in
  let asked := Request (router_prompt message flag) (1 # 10) 20 in
  let extraction := Request (log_prompt message) (1 # 10) 1024 in
  provider asked = Ok answer ->
  classify answer flag = "log" ->
  provider extraction = Ok response ->
  parse_response response = parse_failure response ->
  exists chat : string,
    process message current log
    = (Ok (mkReply blank_record chat "log" true), log ++ [asked; extraction])
    /\ Str.startswith "✓ I've logged your interaction with None." chat = true.
Proof.
  intros flag asked extraction Hanswer Hlabel Hresponse Hparse.
  unfold process, invoke. gw_unfold.
  rewrite (router_node_label message current answer log Hanswer).
  fold flag. rewrite Hlabel. unfold _route_to_tool. cbn [intent set_intent String.eqb Ascii.eqb Bool.eqb].
  unfold _log_interaction_node, log_interaction, extract_json, call_llm. gw_unfold.
  cbn [user_input set_intent initial_state]. fold extraction.
  rewrite Hresponse, Hparse. unfold parse_failure. cbn [setitem].
  rewrite <- app_assoc. cbn [app].
  eexists. split; [vm_compute; reflexivity|]. vm_compute. reflexivity.
Qed.

(** X19.  When the classifier says [log] and the extraction holds a list of
    materials or of products with an item that is not a string, the
    record is lost: the log step accepts the extraction, the formatter
    raises while joining the list, and [process] answers with a failure
    of intent [error] that carries the record passed in. *)
Theorem process_log_ill_typed_list (message : string) (current : option dict)
    (answer response : string) (extraction : dict) (k : string) (items : list value)
    (log : list request) :
  let flag := has_existing_data (or_empty current) in
  let asked := Request (router_prompt message flag) (1 # 10) 20 in
  let sent := Request (log_prompt message) (1 # 10) 1024 in
  provider asked = Ok answer ->
  classify answer flag = "log" ->
  provider sent = Ok response ->
  parse_response response = VDict extraction ->
  k = "materials_shared" \/ k = "products_discussed" ->
  extraction !! k = Some (VList items) ->
  (exists v, v ∈ items /\ forall s, v ≠ VStr s) ->
  exists e : string,
    process message current log
    = (Ok (mkReply (or_empty current) (apology +:+ e) "error" false),
       log ++ [asked; sent]).
Proof.
  intros flag asked sent Hanswer Hlabel Hresponse Hparse Hk Hitems Hbad.
  assert (truthy (VList items) = true) as Htruthy.
  { destruct Hbad as (v & Hin & _). destruct items; [by apply elem_of_nil in Hin | done]. }
  destruct (join_value_raises ", " items Hbad) as (e & Hjoin).
  unfold process, invoke. gw_unfold.
  rewrite (router_node_label message current answer log Hanswer).
  fold flag. rewrite Hlabel. unfold _route_to_tool.
  cbn [intent set_intent String.eqb Ascii.eqb Bool.eqb].
  unfold _log_interaction_node, log_interaction, extract_json, call_llm. gw_unfold.
  cbn [user_input set_intent initial_state]. fold sent.
  rewrite Hresponse, Hparse. cbn [setitem].
  rewrite <- app_assoc. cbn [app].
  set (result := default_falsy "products_discussed" _ _).
  assert (truthy (get result "success") = true) as ->.
  { subst result. skip_defaults. by rewrite get_success. }
  assert (get result k = VList items) as Hresult.
  { assert (get (<["success" := VBool true]> extraction) k = VList items) as Hstart.
    { unfold get. rewrite lookup_insert_ne by (destruct Hk as [-> | ->]; discriminate).
      by rewrite Hitems. }
    assert (forall d, get d k = VList items ->
                      forall k' x, get (default_falsy k' x d) k = VList items) as Hlayer.
    { intros d Hd k' x. rewrite get_default_falsy_truthy; [done | by rewrite Hd]. }
    subst result. do 6 apply Hlayer. exact Hstart. }
  rewrite !(get_or_present result) by (subst result; present).
  unfold _formatter_node.
  cbn [error set_form_data set_tool_results set_intent initial_state truthy String.eqb negb
       intent Ascii.eqb Bool.eqb form_data].
  unfold format_log, joined_line. gw_unfold.
  clearbody result. set (record := dict_of _).
  assert (get record "materials_shared" = get result "materials_shared") as -> by reflexivity.
  assert (get record "products_discussed" = get result "products_discussed") as ->
    by reflexivity.
  destruct Hk as [-> | ->]; rewrite Hresult, Htruthy, Hjoin.
  - by eexists.
  - destruct (if truthy _ then _ else _); by eexists.
Qed.

Lemma formatter_pure (st : AgentState) :
  intent st = "edit" \/ intent st = "validate" ->
  exists st', _formatter_node st = Ok st' /\ intent st' = intent st.
Proof.
  intros Hintent. unfold _formatter_node.
  destruct (truthy (error st)); [eexists; split; reflexivity|].
  destruct Hintent as [Hintent | Hintent]; rewrite Hintent;
    eexists; (split; [reflexivity | exact Hintent]).
Qed.

Lemma formatter_error (st : AgentState) :
  truthy (error st) = true ->
  exists st', _formatter_node st = Ok st' /\ intent st' = intent st.
Proof.
  intros Herror. unfold _formatter_node. rewrite Herror. eexists. split; reflexivity.
Qed.

Lemma join_value_iterate (sep : string) (v : value) (text : string) :
  join_value sep v = Ok text -> exists items, iterate v = Ok items.
Proof. unfold join_value. destruct (iterate v); [by eexists | discriminate]. Qed.

Lemma insights_block_iterate (title : string) (v : value) (trailer text : string) :
  insights_block title v trailer = Ok text -> truthy v = true ->
  exists items, iterate v = Ok items.
Proof.
  unfold insights_block, dash_items. intros Hblock Hv. rewrite Hv in Hblock.
  revert Hblock. gw_unfold. destruct (iterate v); [by eexists | discriminate].
Qed.

(** After the schedule step the formatter does not raise. *)
Lemma schedule_node_formats (st : AgentState) (log : list request) :
  intent st = "schedule" ->
  exists st2 log2,
    _schedule_followup_node st log = (Ok st2, log2)
    /\ exists st3, _formatter_node st2 = Ok st3 /\ intent st3 = "schedule".
Proof.
  intros Hintent.
  unfold _schedule_followup_node, schedule_followup, extract_json, call_llm. gw_unfold.
  destruct (provider _) as [response|e].
  - destruct (parse_response response) as [| | | | |d]; cbn [setitem];
      try (do 2 eexists; split; [reflexivity|]; eexists;
           split; [reflexivity | exact Hintent]).
    set (result := default_falsy "preparation_notes" _ _).
    assert (truthy (get result "success") = true) as ->.
    { subst result. skip_defaults. by rewrite get_success. }
    destruct (schedule_insights result) as [insights|e] eqn:Hinsights.
    + unfold schedule_insights in Hinsights. revert Hinsights. gw_unfold.
      destruct (join_value _ _) as [points|] eqn:Hjoin; [|discriminate]. intros _.
      apply join_value_iterate in Hjoin as (items & Hitems).
      do 2 eexists. split; [reflexivity|].
      unfold _formatter_node.
      cbn [error tool_results intent set_form_data set_tool_results].
      destruct (truthy (error st)).
      * eexists. split; [reflexivity | exact Hintent].
      * rewrite Hintent. cbn [String.eqb Ascii.eqb Bool.eqb].
        unfold format_schedule, bullet_lines. gw_unfold. rewrite Hitems.
        destruct (truthy (get_or result "talking_points" (VList [])));
          eexists; (split; [reflexivity | exact Hintent]).
    + unfold schedule_insights in Hinsights. revert Hinsights. gw_unfold.
      destruct (join_value _ _) eqn:Hjoin; [discriminate|]. intros [= <-].
      do 2 eexists. split; [reflexivity|].
      unfold _formatter_node. cbn [error set_error].
      rewrite (join_value_error _ _ _ Hjoin).
      eexists. split; [reflexivity | exact Hintent].
  - do 2 eexists. split; [reflexivity|]. eexists. split; [reflexivity | exact Hintent].
Qed.

(** After the insights step the formatter does not raise. *)
Lemma insights_node_formats (st : AgentState) (log : list request) :
  intent st = "insights" ->
  exists st2 log2,
    _extract_insights_node st log = (Ok st2, log2)
    /\ exists st3, _formatter_node st2 = Ok st3 /\ intent st3 = "insights".
Proof.
  intros Hintent. unfold _extract_insights_node, extract_insights. gw_unfold.
  destruct (insights_prompt (current_form_data st)) as [prompt|e] eqn:Hprompt.
  2:{ do 2 eexists. split; [reflexivity|].
      unfold _formatter_node. cbn [error set_error].
      rewrite (insights_prompt_error _ _ Hprompt).
      eexists. split; [reflexivity | exact Hintent]. }
  unfold extract_json, call_llm. gw_unfold.
  destruct (provider _) as [response|e].
  - destruct (parse_response response) as [| | | | |d]; cbn [setitem];
      try (do 2 eexists; split; [reflexivity|]; eexists;
           split; [reflexivity | exact Hintent]).
    set (result := default_falsy "priority_level" _ _).
    assert (truthy (get result "success") = true) as ->.
    { subst result. skip_defaults. by rewrite get_success. }
    destruct (insights_text result) as [insights|e] eqn:Hinsights.
    + do 2 eexists. split; [reflexivity|].
      unfold _formatter_node.
      cbn [error tool_results intent set_form_data set_tool_results].
      destruct (truthy (error st)); [eexists; split; [reflexivity | exact Hintent]|].
      rewrite Hintent. cbn [String.eqb Ascii.eqb Bool.eqb].
      unfold insights_text in Hinsights. revert Hinsights. gw_unfold.
      destruct (insights_block "Opportunities" _ _) eqn:Ho; [|discriminate].
      destruct (insights_block "Concerns" _ _) eqn:Hc; [|discriminate].
      destruct (insights_block "Recommended Actions" _ _) eqn:Ha; [|discriminate].
      intros _. unfold format_insights, bullet_lines. gw_unfold.
      destruct (truthy (get_or result "opportunities" (VList []))) eqn:Hopp;
        [destruct (insights_block_iterate _ _ _ _ Ho Hopp) as (? & ->)|];
        (destruct (truthy (get_or result "recommended_actions" (VList []))) eqn:Hact;
         [destruct (insights_block_iterate _ _ _ _ Ha Hact) as (? & ->)|]);
        eexists; (split; [reflexivity | exact Hintent]).
    + do 2 eexists. split; [reflexivity|].
      unfold _formatter_node. cbn [error set_error].
      rewrite (insights_text_error _ _ Hinsights).
      eexists. split; [reflexivity | exact Hintent].
  - do 2 eexists. split; [reflexivity|]. eexists. split; [reflexivity | exact Hintent].
Qed.

Lemma edit_node_formats (st : AgentState) (log : list request) :
  intent st = "edit" ->
  exists st2 log2,
    _edit_interaction_node st log = (Ok st2, log2)
    /\ exists st3, _formatter_node st2 = Ok st3 /\ intent st3 = "edit".
Proof.
  intros Hintent. destruct (edit_node_frame st log) as (st2 & log2 & Hrun & Hint2 & _).
  exists st2, log2. split; [exact Hrun|].
  destruct (formatter_pure st2) as (st3 & Hfmt & Hint3); [left; congruence|].
  exists st3. split; [exact Hfmt | congruence].
Qed.

Lemma validate_node_formats (st : AgentState) (log : list request) :
  intent st = "validate" ->
  exists st2 log2,
    _validate_hcp_node st log = (Ok st2, log2)
    /\ exists st3, _formatter_node st2 = Ok st3 /\ intent st3 = "validate".
Proof.
  intros Hintent. destruct (validate_node_frame st log) as (st2 & log2 & Hrun & Hint2 & _).
  exists st2, log2. split; [exact Hrun|].
  destruct (formatter_pure st2) as (st3 & Hfmt & Hint3); [right; congruence|].
  exists st3. split; [exact Hfmt | congruence].
Qed.

(** X20.  The only handler whose output can make the graph raise is the log
    handler.  When the classifier call fails the reply is the failure
    with an empty record; when it answers with any intent other than
    [log], the reply carries that intent: no exception reaches the
    handler of [process], whatever the provider answers to the second
    request. *)
Theorem process_keeps_intent (message : string) (current : option dict)
    (log : list request) :
  let flag := has_existing_data (or_empty current) in
  let asked := Request (router_prompt message flag) (1 # 10) 20 in
  exists (reply : Reply) (log' : list request),
    process message current log = (Ok reply, log')
    /\ match provider asked with
       | Ok answer =>
           classify answer flag ≠ "log" -> reply_intent reply = classify answer flag
       | Raise e =>
           reply = mkReply ∅ (apology +:+ "LLM API call failed: " +:+ e) "error" false
       end.
Proof.
  intros flag asked.
  destruct (provider asked) as [answer|e] eqn:Hanswer.
  - unfold process, invoke. gw_unfold.
    rewrite (router_node_label message current answer log Hanswer).
    fold flag. unfold _route_to_tool. cbn [intent set_intent].
    set (label := classify answer flag).
    set (st1 := set_intent (initial_state message current) label).
    set (log1 := log ++ _).
    destruct (String.eqb_spec label "log") as [Hlabel|Hnot0].
    { destruct (_log_interaction_node st1 log1) as [[st2|e] log2];
        [destruct (_formatter_node st2)|]; do 2 eexists; (split; [reflexivity | done]). }
    destruct (String.eqb_spec label "edit") as [Hlabel|Hnot1].
    { destruct (edit_node_formats st1 log1 Hlabel)
        as (st2 & log2 & -> & st3 & -> & Hintent).
      do 2 eexists. split; [reflexivity|]. intros _.
      cbn [reply_intent]. congruence. }
    destruct (String.eqb_spec label "schedule") as [Hlabel|Hnot2].
    { destruct (schedule_node_formats st1 log1 Hlabel)
        as (st2 & log2 & -> & st3 & -> & Hintent).
      do 2 eexists. split; [reflexivity|]. intros _.
      cbn [reply_intent]. congruence. }
    destruct (String.eqb_spec label "insights") as [Hlabel|Hnot3].
    { destruct (insights_node_formats st1 log1 Hlabel)
        as (st2 & log2 & -> & st3 & -> & Hintent).
      do 2 eexists. split; [reflexivity|]. intros _.
      cbn [reply_intent]. congruence. }
    destruct (String.eqb_spec label "validate") as [Hlabel|Hnot4].
    { destruct (validate_node_formats st1 log1 Hlabel)
        as (st2 & log2 & -> & st3 & -> & Hintent).
      do 2 eexists. split; [reflexivity|]. intros _.
      cbn [reply_intent]. congruence. }
    pose proof (normalize_intent_label (str_lower (Str.strip answer)) flag) as Hin.
    fold (classify answer flag) in Hin. fold label in Hin.
    destruct (String.eqb_spec label "error") as [Hlabel|_].
    + rewrite Hlabel in Hin. unfold intent_labels in Hin.
      repeat (apply elem_of_cons in Hin as [Hin | Hin]; [discriminate|]).
      by apply elem_of_nil in Hin.
    + do 2 eexists. split; [reflexivity|]. intros _.
      unfold intent_labels in Hin.
      repeat (apply elem_of_cons in Hin as [Hin | Hin]; [done|]).
      by apply elem_of_nil in Hin.
  - unfold process, invoke, _router_node, call_llm. gw_unfold.
    cbn [current_form_data user_input initial_state]. fold flag. fold asked.
    rewrite Hanswer. do 2 eexists. split; reflexivity.
Qed.

End Runs.

(* ===================================================================== *)
(** * The stored interaction, the schemas and the chat route *)
(* ===================================================================== *)

Lemma truthy_dict_Some (d : dict) (k : string) (v : value) :
  d !! k = Some v -> truthy (VDict d) = true.
Proof.
  intros Hk. cbn [truthy]. destruct (size d) eqn:Hsize; [|reflexivity].
  apply map_size_empty_iff in Hsize. subst d. by rewrite lookup_empty in Hk.
Qed.

Lemma startswith_prepend (q p s : string) :
  Str.startswith p s = true -> Str.startswith (q +:+ p) (q +:+ s) = true.
Proof.
  intros Hp. induction q as [|c q IH]; [exact Hp|].
  rewrite !append_cons. cbn [Str.startswith]. by rewrite Ascii.eqb_refl.
Qed.

Section Route.
Context `{Env}.

Lemma process_failure_text (message : string) (current : option dict)
    (reply : Reply) (log log' : list request) :
  process message current log = (Ok reply, log') ->
  reply_success reply = false ->
  Str.startswith apology (reply_chat_response reply) = true.
Proof.
  unfold process. gw_unfold.
  destruct (invoke (initial_state message current) log) as [[final|e] l] eqn:Hrun;
    intros [= <- <-]; cbn [reply_success reply_chat_response].
  - intros Hfailed%negb_false_iff.
    apply invoke_outcome in Hrun as (Hfail & _).
    destruct (Hfail Hfailed) as (-> & _). apply startswith_app.
  - intros _. apply startswith_app.
Qed.

(** X21.  The dictionary of a stored interaction has exactly the eleven keys of
    the model, so it never holds a [success] or an [error] entry of its
    own.  Each entry is the column of the row: the identifier and the
    name as they are, a date, a timestamp or a text as its text, or null
    when the column is empty, the sentiment as the text of the
    enumeration, and a list column as it is, or the empty list when the
    column is empty or null.  The dictionary counts as existing data for
    the classifier exactly when the name of the row is not empty. *)
Theorem to_dict_shape (row : Interaction.t) :
  let d := Interaction.to_dict row in
  let text (column : option string) : value :=
    match column with Some s => VStr s | None => VNull end in
  dom d =@{gset string}
    list_to_set [ "id"; "hcp_name"; "date"; "sentiment"; "materials_shared";
                  "discussion_summary"; "products_discussed"; "follow_up_date";
                  "key_insights"; "created_at"; "updated_at" ]
  /\ d !! "success" = None /\ d !! "error" = None
  /\ d !! "id" = Some (VNum (Interaction.id row))
  /\ d !! "hcp_name" = Some (VStr (Interaction.hcp_name row))
  /\ d !! "date" = Some (text (Interaction.date row))
  /\ d !! "sentiment"
     = Some (match Interaction.sentiment row with
             | Some POSITIVE => VStr "Positive"
             | Some NEGATIVE => VStr "Negative"
             | Some NEUTRAL => VStr "Neutral"
             | None => VNull
             end)
  /\ d !! "materials_shared"
     = Some (if truthy (Interaction.materials_shared row)
             then Interaction.materials_shared row else VList [])
  /\ d !! "discussion_summary" = Some (text (Interaction.discussion_summary row))
  /\ d !! "products_discussed"
     = Some (if truthy (Interaction.products_discussed row)
             then Interaction.products_discussed row else VList [])
  /\ d !! "follow_up_date" = Some (text (Interaction.follow_up_date row))
  /\ d !! "key_insights" = Some (text (Interaction.key_insights row))
  /\ d !! "created_at" = Some (text (Interaction.created_at row))
  /\ d !! "updated_at" = Some (text (Interaction.updated_at row))
  /\ has_existing_data d = negb (String.eqb (Interaction.hcp_name row) EmptyString).
Proof.
  intros d text. subst d text. unfold Interaction.to_dict.
  split; [unfold dict_of; by rewrite dom_list_to_map_L|].
  do 5 (split; [reflexivity|]).
  split; [by destruct (Interaction.sentiment row) as [[]|]|].
  do 7 (split; [reflexivity|]).
  unfold has_existing_data.
  change (get (dict_of _) "hcp_name") with (VStr (Interaction.hcp_name row)).
  by rewrite (truthy_dict_Some _ "hcp_name" (VStr (Interaction.hcp_name row))).
Qed.

(** X22.  The chat endpoint sends at most two requests.  With no identifier, or
    the identifier 0, the agent starts without a record and the classifier
    is told that no data exists.  With the identifier of a stored row the
    classifier is told that data exists exactly when the name of the row
    is not empty.  With an identifier that no row has, the endpoint
    answers 404 and nothing is sent. *)
Theorem chat_endpoint_first_request (chat_request : ChatRequest)
    (db : gmap Z Interaction.t) (log : list request) :
  let classifier flag :=
    Request (router_prompt (request_message chat_request) flag) (1 # 10) 20 in
  exists (outcome : http ChatResponse) (sent : list request),
    chat_endpoint chat_request db log = (outcome, log ++ sent)
    /\ (length sent <= 2)%nat
    /\ match given_id (request_interaction_id chat_request) with
       | None => head sent = Some (classifier false)
       | Some i =>
           match db !! i with
           | None => sent = [] /\ outcome = HTTPException 404 "Interaction not found"
           | Some row =>
               head sent
               = Some (classifier (negb (String.eqb (Interaction.hcp_name row)
                                                    EmptyString)))
           end
       end.
Proof.
  intros classifier.
  assert (forall current,
            exists outcome rest,
              match process (request_message chat_request) current log with
              | (Ok result, log') =>
                  if negb (reply_success result) then
                    (HTTPException 500 ("Agent processing failed: "
                                        +:+ reply_chat_response result), log')
                  else
                    (Returns (mkChatResponse (reply_form_data result)
                                             (reply_chat_response result)
                                             (request_interaction_id chat_request)), log')
              | (Raise e, log') => (HTTPException 500 e, log')
              end
              = (outcome, log ++ classifier (has_existing_data (or_empty current)) :: rest)
              /\ (length rest <= 1)%nat) as Hran.
  { intros current.
    destruct (invoke_requests (request_message chat_request) current log)
      as (rest & Hsent & Hlen).
    unfold process. gw_unfold.
    destruct (invoke _ log) as [[final|e] log2]; simpl in Hsent; subst log2;
      [cbn [reply_success]; destruct (truthy (error final))|];
      do 2 eexists; (split; [reflexivity | exact Hlen]). }
  unfold chat_endpoint, load_current.
  destruct (given_id (request_interaction_id chat_request)) as [i|].
  - destruct (db !! i) as [row|].
    + destruct (Hran (Some (Interaction.to_dict row))) as (outcome & rest & -> & Hlen).
      exists outcome, (classifier (has_existing_data (Interaction.to_dict row)) :: rest).
      split; [reflexivity|]. split; [simpl; lia|].
      cbn [head].
      assert (has_existing_data (Interaction.to_dict row)
              = negb (String.eqb (Interaction.hcp_name row) EmptyString)) as ->; [|done].
      unfold has_existing_data.
      by rewrite (truthy_dict_Some _ "hcp_name" (VStr (Interaction.hcp_name row))).
    + exists (HTTPException 404 "Interaction not found"), [].
      rewrite app_nil_r. split; [reflexivity|]. split; [simpl; lia | done].
  - destruct (Hran None) as (outcome & rest & -> & Hlen).
    exists outcome, (classifier false :: rest).
    split; [reflexivity|]. split; [simpl; lia | reflexivity].
Qed.

(** X23.  The chat endpoint answers with a body only when the agent reports a
    success, and the body repeats the identifier of the request as it was
    given.  Its only errors are 404 for an unknown identifier and 500 with
    the agent's apology in the detail: the handler for other exceptions
    is never reached by the agent. *)
Theorem chat_endpoint_outcomes (chat_request : ChatRequest)
    (db : gmap Z Interaction.t) (log : list request) :
  match (chat_endpoint chat_request db log).1 with
  | Returns body =>
      response_interaction_id body = request_interaction_id chat_request
      /\ exists current reply log',
           process (request_message chat_request) current log = (Ok reply, log')
           /\ reply_success reply = true
           /\ response_form_data body = reply_form_data reply
           /\ response_chat_response body = reply_chat_response reply
  | HTTPException status_code detail =>
      (status_code = 404 /\ detail = "Interaction not found")
      \/ (status_code = 500
          /\ Str.startswith ("Agent processing failed: " +:+ apology) detail = true)
  end.
Proof.
  unfold chat_endpoint.
  destruct (load_current chat_request db) as [current|status_code detail] eqn:Hload.
  - destruct (process_returns (request_message chat_request) current log)
      as (reply & log' & Hrun).
    rewrite Hrun. destruct (reply_success reply) eqn:Hsuccess; cbn [negb fst].
    + split; [reflexivity|]. by exists current, reply, log'.
    + right. split; [reflexivity|].
      apply startswith_prepend. by eapply process_failure_text.
  - left. unfold load_current in Hload. repeat case_match; simplify_eq. done.
Qed.

(** X24.  The conversions of a sentiment text to the enumeration.  Both turn
    the three names of the enumeration, in any letter case, into their
    value.  Any other text is saved as [POSITIVE] by [create_interaction];
    [update_interaction] saves it as [NEUTRAL] when it is not empty, and
    stores an empty text or null as it is, without conversion.  So for a
    text that is not empty the two agree exactly on the three names. *)
Theorem sentiment_conversions_agree (text : string) :
  (str_lower text = "positive" ->
   create_sentiment text = POSITIVE
   /\ (text ≠ EmptyString -> update_sentiment (Some text) = inl POSITIVE))
  /\ (str_lower text = "negative" ->
      create_sentiment text = NEGATIVE
      /\ (text ≠ EmptyString -> update_sentiment (Some text) = inl NEGATIVE))
  /\ (str_lower text = "neutral" ->
      create_sentiment text = NEUTRAL
      /\ (text ≠ EmptyString -> update_sentiment (Some text) = inl NEUTRAL))
  /\ (str_lower text ∉ ["positive"; "negative"; "neutral"] ->
      create_sentiment text = POSITIVE
      /\ (text ≠ EmptyString -> update_sentiment (Some text) = inl NEUTRAL))
  /\ (text ≠ EmptyString ->
      (update_sentiment (Some text) = inl (create_sentiment text)
       <-> str_lower text ∈ ["positive"; "negative"; "neutral"]))
  /\ update_sentiment (Some EmptyString) = inr (Some EmptyString)
  /\ update_sentiment None = inr None.
Proof.
  assert (text ≠ EmptyString -> truthy (VStr text) = true) as Htruthy.
  { destruct text; [done | reflexivity]. }
  unfold create_sentiment, update_sentiment.
  split; [intros ->; split; [reflexivity | by intros ->%Htruthy]|].
  split; [intros ->; split; [reflexivity | by intros ->%Htruthy]|].
  split; [intros ->; split; [reflexivity | by intros ->%Htruthy]|].
  assert (str_lower text ∉ ["positive"; "negative"; "neutral"] ->
          String.eqb (str_lower text) "positive" = false
          /\ String.eqb (str_lower text) "negative" = false
          /\ String.eqb (str_lower text) "neutral" = false) as Hother.
  { intros Hnot. repeat split; apply String.eqb_neq; intros Heq; apply Hnot;
      rewrite Heq; repeat constructor. }
  split; [intros (-> & -> & ->)%Hother; split; [reflexivity | by intros ->%Htruthy]|].
  split; [|split; reflexivity].
  intros ->%Htruthy.
  destruct (String.eqb_spec (str_lower text) "negative") as [->|Hneg];
    [split; [intros _; repeat constructor | done]|].
  destruct (String.eqb_spec (str_lower text) "neutral") as [->|Hneu];
    [split; [intros _; repeat constructor | done]|].
  destruct (String.eqb_spec (str_lower text) "positive") as [->|Hpos];
    [split; [intros _; repeat constructor | done]|].
  split; [discriminate|].
  intros Hin. repeat (apply elem_of_cons in Hin as [Hin | Hin]; [done|]).
  by apply elem_of_nil in Hin.
Qed.

(** X25.  The schema and the validation handler draw the same line: the
    validator of [InteractionBase] rejects a name exactly when
    [validate_hcp] answers with its fixed failure without sending
    anything, and the validator of [InteractionUpdate] rejects a name that
    is given exactly when the first one does. *)
Theorem empty_names_agree (name : string) (log : list request) :
  ((exists e, validate_hcp_name name = Raise e)
   <-> validate_hcp (VStr name) log = (Ok empty_name_result, log))
  /\ ((exists e, validate_hcp_name_update (Some name) = Raise e)
      <-> exists e, validate_hcp_name name = Raise e).
Proof.
  unfold validate_hcp_name, validate_hcp_name_update, validate_hcp.
  destruct (truthy (VStr name)) eqn:Htruthy; cbn [negb orb].
  - destruct (Str.len (Str.strip name) =? 0) eqn:Hblank.
    + split; (split; intros _; first [reflexivity | by eexists]).
    + split; [|split; intros [e He]; discriminate].
      split; [intros [e He]; discriminate|].
      unfold extract_json, call_llm. gw_unfold.
      intros Hrun. exfalso.
      assert (forall (a : exc dict) (r : request), (a, log ++ [r]) ≠ (Ok empty_name_result, log))
        as Hlonger.
      { intros a r [= _ Hlog]. apply (f_equal length) in Hlog.
        rewrite length_app in Hlog. simpl in Hlog. lia. }
      destruct (provider _) as [response|e];
        [destruct (parse_response response); cbn [setitem] in Hrun|];
        by apply Hlonger in Hrun.
  - assert (name = EmptyString) as ->.
    { destruct name; [done | discriminate]. }
    split; (split; intros _; first [reflexivity | by eexists]).
Qed.

(** X26.  A text made of whitespace only, or empty, is rejected by the three
    validators of the schemas, each with its own message; an update that
    leaves the name out is accepted. *)
Theorem validators_reject_blank (text : string) :
  text = EmptyString \/ Str.whitespace_only text ->
  validate_hcp_name text = Raise "HCP name cannot be empty"
  /\ validate_hcp_name_update (Some text) = Raise "HCP name cannot be empty"
  /\ validate_message text = Raise "Message cannot be empty"
  /\ validate_hcp_name_update None = Ok None.
Proof.
  intros Hblank.
  assert (Str.strip text = EmptyString) as Hstrip.
  { destruct Hblank as [-> | Hws]; [reflexivity | by apply strip_whitespace_only]. }
  unfold validate_hcp_name, validate_hcp_name_update, validate_message.
  rewrite Hstrip. cbn [Str.len String.length Z.of_nat Z.eqb].
  by rewrite orb_true_r.
Qed.

(** X27.  [test_connection] never raises: it sends one request of ten tokens
    and reports whether the provider answered. *)
Theorem test_connection_reports (log : list request) :
  let asked := Request "Say 'Hello' if you can hear me." (1 # 10) 10 in
  test_connection log
  = (Ok (match provider asked with Ok _ => true | Raise _ => false end), log ++ [asked]).
Proof.
  intros asked. unfold test_connection, call_llm. gw_unfold. fold asked.
  by destruct (provider asked).
Qed.

End Route.

(* ===================================================================== *)
(** * Instances of the statements above *)
(* ===================================================================== *)

Lemma parse_response_stray_prose_witness :
  let E := Demo.env Demo.offline [(negative_text, VDict negative_json)] in
  parse_response (H := E) ("Here is the JSON: " +:+ negative_text +:+ " Hope this helps!")
  = VDict negative_json.
Proof.
  intros E.
  refine (parse_response_stray_prose (H := E) "Here is the JSON: "
            (Str.quoted "sentiment" +:+ ": " +:+ Str.quoted "Negative")
            " Hope this helps!" _ _ _ _); vm_compute; reflexivity.
Defined.

Lemma parse_response_tagged_fence_witness :
  let E := Demo.env Demo.offline [(negative_text, VDict negative_json)] in
  parse_response (H := E)
    ("Sure:" +:+ Str.nl +:+ "```json" +:+ (Str.nl +:+ negative_text +:+ Str.nl)
     +:+ "```" +:+ Str.nl +:+ "Done.")
  = VDict negative_json.
Proof.
  intros E.
  refine (parse_response_tagged_fence (H := E) ("Sure:" +:+ Str.nl)
            (Str.nl +:+ negative_text +:+ Str.nl) (Str.nl +:+ "Done.") _ _ _);
    vm_compute; reflexivity.
Defined.

Lemma extract_insights_ill_typed_list_witness :
  exists e : string,
    extract_insights (H := Demo.env Demo.offline []) ill_typed_record [] = (Raise e, []).
Proof.
  destruct (extract_insights_ill_typed_list (H := Demo.env Demo.offline [])
              ill_typed_record "products_discussed" [VNum 5] [])
    as (e & Hrun & _).
  - by left.
  - reflexivity.
  - exists (VNum 5). split; [repeat constructor | discriminate].
  - by exists e.
Defined.

Lemma extract_insights_shape_witness :
  let E := Demo.env Demo.offline [] in
  exists (prompt : string) (result : dict),
    insights_prompt (H := E) example_record = Ok prompt
    /\ extract_insights (H := E) example_record []
       = (Ok result, [Request prompt (3 # 10) 1024]).
Proof.
  intros E.
  destruct (insights_prompt (H := E) example_record) as [prompt|e] eqn:Hprompt;
    [|vm_compute in Hprompt; discriminate].
  destruct (extract_insights_shape (H := E) example_record prompt [] Hprompt)
    as (result & Hrun & _).
  by exists prompt, result.
Defined.

Lemma validate_hcp_shape_witness :
  let E := Demo.env Demo.offline [] in
  exists result : dict,
    validate_hcp (H := E) (VStr "dr smith") []
    = (Ok result, [Request (validate_prompt "dr smith") (1 # 10) 1024])
    /\ result !! "hcp_name" = Some (VStr "dr smith").
Proof.
  intros E.
  destruct (validate_hcp_shape (H := E) "dr smith" []) as (result & Hrun & Hname & _).
  - vm_compute. discriminate.
  - by exists result.
Defined.

Lemma validate_node_uses_message_witness :
  let E := Demo.env Demo.offline [] in
  exists st' : AgentState,
    _validate_hcp_node (H := E) (initial_state "dr smith" None) []
    = (Ok st', [Request (validate_prompt "dr smith") (1 # 10) 1024]).
Proof.
  intros E.
  destruct (proj2 (validate_node_uses_message (H := E) (initial_state "dr smith" None) []
                     eq_refl)) as (st' & Hrun & _).
  - vm_compute. discriminate.
  - by exists st'.
Defined.

Lemma process_log_unparseable_witness :
  let E := Demo.env (Demo.answers "log" "I could not read that.") [] in
  exists (chat : string) (log' : list request),
    process (H := E) "Met Dr. A today" None []
    = (Ok (mkReply (blank_record (H := E)) chat "log" true), log').
Proof.
  intros E.
  destruct (process_log_unparseable (H := E) "Met Dr. A today" None "log"
              "I could not read that." []) as (chat & Hrun & _);
    try (vm_compute; reflexivity).
  exists chat. eexists. exact Hrun.
Defined.

Lemma process_log_ill_typed_list_witness :
  let E := Demo.env (Demo.answers "log" ill_typed_text)
             [(ill_typed_text, VDict ill_typed_json)] in
  exists (e : string) (log' : list request),
    process (H := E) "Met Dr. A and left 3 samples" (Some Demo.dr_a) []
    = (Ok (mkReply Demo.dr_a (apology +:+ e) "error" false), log').
Proof.
  intros E.
  destruct (process_log_ill_typed_list (H := E) "Met Dr. A and left 3 samples"
              (Some Demo.dr_a) "log" ill_typed_text ill_typed_json "materials_shared"
              [VNum 3] []) as (e & Hrun);
    try (vm_compute; reflexivity).
  - by left.
  - exists (VNum 3). split; [repeat constructor | discriminate].
  - exists e. eexists. exact Hrun.
Defined.

Lemma validators_reject_blank_witness :
  validate_message (" " +:+ Str.nl) = Raise "Message cannot be empty".
Proof.
  refine (proj1 (proj2 (proj2 (validators_reject_blank (" " +:+ Str.nl) _)))).
  right. exists [" "; Str.nl]. split; [|reflexivity].
  repeat constructor.
Defined.
